(** * Delivery backend: orders, assignments and their use cases

    A shallow embedding of the domain layer (value objects, the [Order] and
    [Assignment] entities), of the TypeORM-backed repositories and of the
    application use cases, together with the properties stated about them.

    Conventions of the embedding:
    - a JavaScript string is the list of its UTF-16 code units;
    - a JavaScript [number] is a binary64 float (Rocq's primitive floats);
    - a [Date] is its time value, a whole number of milliseconds, or the
      Invalid Date;
    - a method that throws returns [Err e]; a method that mutates [this]
      returns the updated object;
    - the clock, the uuid generator and the database tables are threaded
      through a state-and-exception monad in which a raised exception keeps
      the writes made before it. *)

From Stdlib Require Import List ZArith NArith Bool String Ascii Lia Floats Permutation.
Import ListNotations.

(** ** JavaScript strings *)

Module JS.

(** A string value: its sequence of UTF-16 code units. *)
Definition str := list N.

(** An ASCII literal of the source. *)
Definition lit (s : string) : str :=
  map N_of_ascii (list_ascii_of_string s).

(** [a === b] on strings. *)
Fixpoint str_eqb (a b : str) : bool :=
  match a, b with
  | [], [] => true
  | x :: a', y :: b' => N.eqb x y && str_eqb a' b'
  | _, _ => false
  end.

(** [ToBoolean] of a string: only the empty string is falsy. *)
Definition truthy (s : str) : bool :=
  match s with
  | [] => false
  | _ :: _ => true
  end.

(** [a || b] on strings. *)
Definition or (a b : str) : str := if truthy a then a else b.

(** ECMAScript WhiteSpace and LineTerminator code points, the characters
    [String.prototype.trim] strips: TAB, VT, FF, SP, NBSP, ZWNBSP, the
    Unicode space separators, LF, CR, LS and PS. *)
Definition isWhiteSpace (c : N) : bool :=
  existsb (N.eqb c)
    [ 9; 10; 11; 12; 13; 32; 160; 5760;
      8192; 8193; 8194; 8195; 8196; 8197; 8198; 8199; 8200; 8201; 8202;
      8232; 8233; 8239; 8287; 12288; 65279 ]%N.

Fixpoint trimStart (s : str) : str :=
  match s with
  | [] => []
  | c :: r => if isWhiteSpace c then trimStart r else s
  end.

Definition trimEnd (s : str) : str := rev (trimStart (rev s)).

Definition trim (s : str) : str := trimEnd (trimStart s).

End JS.

Abbreviation str := JS.str.
Abbreviation lit := JS.lit.

(** A [Date] object: its time value, a whole number of milliseconds since
    the epoch, or NaN, the time value of the Invalid Date. The program calls
    no mutator of [Date] ([setTime] and the like), so a date is identified
    with its time value. *)
Inductive Date : Type :=
| instant (ms : Z)
| InvalidDate.

Coercion instant : Z >-> Date.

(** A number written where an optional date is expected is that instant. *)
#[local] Arguments Some {A} & a.

(** [a > b], [a >= b] and [a <= b] on dates compare the time values; a
    comparison with NaN is false. *)
Definition Date_gt (a b : Date) : bool :=
  match a, b with
  | instant x, instant y => Z.gtb x y
  | _, _ => false
  end.

Definition Date_ge (a b : Date) : bool :=
  match a, b with
  | instant x, instant y => Z.geb x y
  | _, _ => false
  end.

Definition Date_le (a b : Date) : bool :=
  match a, b with
  | instant x, instant y => Z.leb x y
  | _, _ => false
  end.

(** ** Errors thrown by the program

    One constructor for each [throw new Error(...)] of the source, plus the
    failure of a query on the database. *)
Inductive Error : Type :=
| AddressRequired                       (* Address: the address is required *)
| WeightNegative                        (* Weight: must be 0 or more *)
| TimeWindowStartAfterEnd               (* TimeWindow: start must precede end *)
| InvalidOrderStatus (value : str)
| InvalidAssignmentStatus (value : str)
| InvalidEventType (value : str)
| OrderIdRequired
| AssignmentIdRequired
| AccountIdRequired
| DeliveryEventIdRequired
| OnlyPlacedCanBeReadyToShip            (* Order.markReadyToShip *)
| OnlyReadyToShipCanBeAssigned          (* Order.assign *)
| OnlyAssignedCanBeDelivered            (* Order.deliver *)
| DeliveredCannotBeCancelled            (* Order.cancel *)
| OnlyPendingCanBeAccepted              (* Assignment.accept *)
| OnlyPendingCanBeRejected              (* Assignment.reject *)
| OnlyAcceptedCanBeCompleted            (* Assignment.complete *)
| CompletedCannotBeCancelled            (* Assignment.cancel *)
| OrderNotFound                         (* use cases *)
| AssignmentNotFound                    (* AcceptAssignment *)
| OrderCannotBeAssigned                 (* OfferAssignment: must be READY_TO_SHIP *)
| ActiveAssignmentExists                (* OfferAssignment: conflict *)
| QueryFailed.                          (* the database refused a write *)

Inductive Result (A : Type) : Type :=
| Ok (a : A)
| Err (e : Error).

Arguments Ok {A} a.
Arguments Err {A} e.

Definition succeeds {A : Type} (r : Result A) : Prop := exists a, r = Ok a.
Definition fails {A : Type} (r : Result A) : Prop := exists e, r = Err e.

(** ** Value objects *)

Module OrderId.
Record t : Type := mk { value : str }.
Definition new (value : str) : Result t :=
  if negb (JS.truthy value) then Err OrderIdRequired else Ok (mk value).
End OrderId.

Module AssignmentId.
Record t : Type := mk { value : str }.
Definition new (value : str) : Result t :=
  if negb (JS.truthy value) then Err AssignmentIdRequired else Ok (mk value).
End AssignmentId.

Module AccountId.
Record t : Type := mk { value : str }.
Definition new (value : str) : Result t :=
  if negb (JS.truthy value) then Err AccountIdRequired else Ok (mk value).
End AccountId.

Module DeliveryEventId.
Record t : Type := mk { value : str }.
Definition new (value : str) : Result t :=
  if negb (JS.truthy value) then Err DeliveryEventIdRequired else Ok (mk value).
End DeliveryEventId.

Module Address.
Record t : Type := mk { value : str }.
Definition new (value : str) : Result t :=
  if negb (JS.truthy value) || JS.str_eqb (JS.trim value) []
  then Err AddressRequired
  else Ok (mk (JS.trim value)).
Definition equals (a b : t) : bool := JS.str_eqb (value a) (value b).
End Address.

Module Weight.
Record t : Type := mk { valueInKg : float }.
Definition new (valueInKg : float) : Result t :=
  if PrimFloat.ltb valueInKg 0%float then Err WeightNegative
  else Ok (mk valueInKg).
End Weight.

Module TimeWindow.
Record t : Type := mk { startAt : option Date; endAt : option Date }.
Definition new (startAt endAt : option Date) : Result t :=
  match startAt, endAt with
  | Some s, Some e =>
      if Date_gt s e then Err TimeWindowStartAfterEnd else Ok (mk startAt endAt)
  | _, _ => Ok (mk startAt endAt)
  end.
Definition isWithinWindow (w : t) (time : Date) : bool :=
  match startAt w, endAt w with
  | Some s, Some e => Date_ge time s && Date_le time e
  | _, _ => true
  end.
End TimeWindow.

Module OrderStatusType.
Inductive t : Type := PLACED | READY_TO_SHIP | ASSIGNED | DELIVERED | CANCELLED.
(** The string each member of the enum stands for. *)
Definition code (s : t) : str :=
  match s with
  | PLACED => lit "PLACED"
  | READY_TO_SHIP => lit "READY_TO_SHIP"
  | ASSIGNED => lit "ASSIGNED"
  | DELIVERED => lit "DELIVERED"
  | CANCELLED => lit "CANCELLED"
  end.
(** [Object.values(OrderStatusType)], in declaration order. *)
Definition values : list t := [PLACED; READY_TO_SHIP; ASSIGNED; DELIVERED; CANCELLED].
Definition eqb (a b : t) : bool := JS.str_eqb (code a) (code b).
End OrderStatusType.

Module OrderStatus.
Record t : Type := mk { value : OrderStatusType.t }.
(** The constructor keeps [value] when [Object.values(...).includes(value)]. *)
Definition new (value : str) : Result t :=
  match find (fun s => JS.str_eqb (OrderStatusType.code s) value)
             OrderStatusType.values with
  | Some s => Ok (mk s)
  | None => Err (InvalidOrderStatus value)
  end.
Definition canBeAssigned (s : t) : bool :=
  OrderStatusType.eqb (value s) OrderStatusType.READY_TO_SHIP.
Definition isDelivered (s : t) : bool :=
  OrderStatusType.eqb (value s) OrderStatusType.DELIVERED.
Definition isCancelled (s : t) : bool :=
  OrderStatusType.eqb (value s) OrderStatusType.CANCELLED.
End OrderStatus.

Module AssignmentStatusType.
Inductive t : Type := PENDING | ACCEPTED | REJECTED | COMPLETED | CANCELLED.
Definition code (s : t) : str :=
  match s with
  | PENDING => lit "PENDING"
  | ACCEPTED => lit "ACCEPTED"
  | REJECTED => lit "REJECTED"
  | COMPLETED => lit "COMPLETED"
  | CANCELLED => lit "CANCELLED"
  end.
Definition values : list t := [PENDING; ACCEPTED; REJECTED; COMPLETED; CANCELLED].
Definition eqb (a b : t) : bool := JS.str_eqb (code a) (code b).
End AssignmentStatusType.

Module AssignmentStatus.
Record t : Type := mk { value : AssignmentStatusType.t }.
Definition new (value : str) : Result t :=
  match find (fun s => JS.str_eqb (AssignmentStatusType.code s) value)
             AssignmentStatusType.values with
  | Some s => Ok (mk s)
  | None => Err (InvalidAssignmentStatus value)
  end.
Definition isActive (s : t) : bool :=
  AssignmentStatusType.eqb (value s) AssignmentStatusType.PENDING
  || AssignmentStatusType.eqb (value s) AssignmentStatusType.ACCEPTED.
Definition isPending (s : t) : bool :=
  AssignmentStatusType.eqb (value s) AssignmentStatusType.PENDING.
Definition isAccepted (s : t) : bool :=
  AssignmentStatusType.eqb (value s) AssignmentStatusType.ACCEPTED.
Definition isRejected (s : t) : bool :=
  AssignmentStatusType.eqb (value s) AssignmentStatusType.REJECTED.
Definition isCompleted (s : t) : bool :=
  AssignmentStatusType.eqb (value s) AssignmentStatusType.COMPLETED.
End AssignmentStatus.

Module EventTypeValue.
Inductive t : Type :=
  ORDER_PLACED | READY_TO_SHIP | ASSIGNED | PICKED_UP | DELIVERED | CANCELLED.
Definition code (s : t) : str :=
  match s with
  | ORDER_PLACED => lit "ORDER_PLACED"
  | READY_TO_SHIP => lit "READY_TO_SHIP"
  | ASSIGNED => lit "ASSIGNED"
  | PICKED_UP => lit "PICKED_UP"
  | DELIVERED => lit "DELIVERED"
  | CANCELLED => lit "CANCELLED"
  end.
Definition values : list t :=
  [ORDER_PLACED; READY_TO_SHIP; ASSIGNED; PICKED_UP; DELIVERED; CANCELLED].
End EventTypeValue.

Module EventType.
Record t : Type := mk { value : EventTypeValue.t }.
Definition new (value : str) : Result t :=
  match find (fun s => JS.str_eqb (EventTypeValue.code s) value)
             EventTypeValue.values with
  | Some s => Ok (mk s)
  | None => Err (InvalidEventType value)
  end.
End EventType.

(** ** Database rows (the ORM entities) *)

Module OrderOrmEntity.
Record t : Type := mk {
  id : str;
  shipperId : str;
  status : str;
  pickupAddress : str;
  dropoffAddress : str;
  pickupStartAt : option Date;
  pickupEndAt : option Date;
  dropStartAt : option Date;
  dropEndAt : option Date;
  totalWeightKg : float;
  notes : option str;
  createdAt : Date
}.
End OrderOrmEntity.

Module AssignmentOrmEntity.
Record t : Type := mk {
  id : str;
  orderId : str;
  courierId : str;
  status : str;
  offeredAt : Date;
  respondedAt : option Date
}.
End AssignmentOrmEntity.

Module DeliveryEventOrmEntity.
Record t : Type := mk {
  id : str;
  orderId : str;
  courierId : option str;
  type : str;
  payloadJson : option str;
  occurredAt : Date
}.
End DeliveryEventOrmEntity.

(** ** The world a use case runs in

    [clock] lists the successive readings of the system clock and [ticks]
    counts the readings made so far; [uuids] and [drawn] do the same for
    [uuidv4()]. A table is the list of its rows; the order of the list is
    the model's own (see the repository below). *)
Record World : Type := mkWorld {
  clock : nat -> Date;
  ticks : nat;
  uuids : nat -> str;
  drawn : nat;
  orderTable : list OrderOrmEntity.t;
  assignmentTable : list AssignmentOrmEntity.t;
  deliveryEventTable : list DeliveryEventOrmEntity.t
}.

(** A computation that reads and writes the world and may throw. The world
    reached is returned on failure too: nothing is rolled back. *)
Definition M (A : Type) : Type := World -> Result A * World.

Definition ret {A : Type} (a : A) : M A := fun w => (Ok a, w).

Definition throw {A : Type} (e : Error) : M A := fun w => (Err e, w).

Definition bind {A B : Type} (m : M A) (k : A -> M B) : M B :=
  fun w =>
    match m w with
    | (Ok a, w') => k a w'
    | (Err e, w') => (Err e, w')
    end.

(** A pure step that may throw. *)
Definition lift {A : Type} (r : Result A) : M A := fun w => (r, w).

Definition bindR {A B : Type} (r : Result A) (k : A -> Result B) : Result B :=
  match r with
  | Ok a => k a
  | Err e => Err e
  end.

Declare Scope js_scope.
Delimit Scope js_scope with js.
Notation "x <- m ;; k" := (bind m (fun x => k))
  (at level 61, m at next level, right associativity) : js_scope.
Notation "x <-? r ;; k" := (bindR r (fun x => k))
  (at level 61, r at next level, right associativity) : js_scope.
Open Scope js_scope.

(** The writes a step can make to the world: one more reading of the clock,
    one more uuid drawn, a table replaced. *)
Definition tick (w : World) : World :=
  mkWorld (clock w) (S (ticks w)) (uuids w) (drawn w)
          (orderTable w) (assignmentTable w) (deliveryEventTable w).

Definition draw (w : World) : World :=
  mkWorld (clock w) (ticks w) (uuids w) (S (drawn w))
          (orderTable w) (assignmentTable w) (deliveryEventTable w).

Definition set_orderTable (rows : list OrderOrmEntity.t) (w : World) : World :=
  mkWorld (clock w) (ticks w) (uuids w) (drawn w)
          rows (assignmentTable w) (deliveryEventTable w).

Definition set_assignmentTable (rows : list AssignmentOrmEntity.t) (w : World) : World :=
  mkWorld (clock w) (ticks w) (uuids w) (drawn w)
          (orderTable w) rows (deliveryEventTable w).

Definition set_deliveryEventTable (rows : list DeliveryEventOrmEntity.t) (w : World)
    : World :=
  mkWorld (clock w) (ticks w) (uuids w) (drawn w)
          (orderTable w) (assignmentTable w) rows.

(** [new Date()]. *)
Definition new_Date : M Date := fun w => (Ok (clock w (ticks w)), tick w).

(** [uuidv4()]. *)
Definition uuidv4 : M str := fun w => (Ok (uuids w (drawn w)), draw w).

(** [d ?? new Date()]. *)
Definition orNow (d : option Date) : M Date :=
  match d with
  | Some d => ret d
  | None => new_Date
  end.

(** ** Entities *)

Module Order.
Record t : Type := mk {
  id : OrderId.t;
  shipperId : AccountId.t;
  status : OrderStatus.t;
  pickupAddress : Address.t;
  dropoffAddress : Address.t;
  pickupTimeWindow : TimeWindow.t;
  dropoffTimeWindow : TimeWindow.t;
  totalWeight : Weight.t;
  notes : option str;
  createdAt : Date
}.

(** The constructor: [createdAt] defaults to the current time. *)
Definition new (id : OrderId.t) (shipperId : AccountId.t) (status : OrderStatus.t)
    (pickupAddress dropoffAddress : Address.t)
    (pickupTimeWindow dropoffTimeWindow : TimeWindow.t) (totalWeight : Weight.t)
    (notes : option str) (createdAt : option Date) : M t :=
  createdAt <- orNow createdAt ;;
  ret (mk id shipperId status pickupAddress dropoffAddress
          pickupTimeWindow dropoffTimeWindow totalWeight notes createdAt).

(** [this._status = s]: the only field a method assigns. *)
Definition set_status (o : t) (s : OrderStatus.t) : t :=
  mk (id o) (shipperId o) s (pickupAddress o) (dropoffAddress o)
     (pickupTimeWindow o) (dropoffTimeWindow o) (totalWeight o) (notes o)
     (createdAt o).

Definition markReadyToShip (o : t) : Result t :=
  if negb (OrderStatusType.eqb (OrderStatus.value (status o)) OrderStatusType.PLACED)
  then Err OnlyPlacedCanBeReadyToShip
  else s <-? OrderStatus.new (OrderStatusType.code OrderStatusType.READY_TO_SHIP) ;;
       Ok (set_status o s).

Definition assign (o : t) : Result t :=
  if negb (OrderStatus.canBeAssigned (status o))
  then Err OnlyReadyToShipCanBeAssigned
  else s <-? OrderStatus.new (OrderStatusType.code OrderStatusType.ASSIGNED) ;;
       Ok (set_status o s).

Definition deliver (o : t) : Result t :=
  if negb (OrderStatusType.eqb (OrderStatus.value (status o)) OrderStatusType.ASSIGNED)
  then Err OnlyAssignedCanBeDelivered
  else s <-? OrderStatus.new (OrderStatusType.code OrderStatusType.DELIVERED) ;;
       Ok (set_status o s).

Definition cancel (o : t) : Result t :=
  if OrderStatus.isDelivered (status o)
  then Err DeliveredCannotBeCancelled
  else s <-? OrderStatus.new (OrderStatusType.code OrderStatusType.CANCELLED) ;;
       Ok (set_status o s).

Definition canBeAssigned (o : t) : bool := OrderStatus.canBeAssigned (status o).
End Order.

Module Assignment.
Record t : Type := mk {
  id : AssignmentId.t;
  orderId : OrderId.t;
  courierId : AccountId.t;
  status : AssignmentStatus.t;
  offeredAt : Date;
  respondedAt : option Date
}.

(** The constructor: [offeredAt] defaults to the current time, [respondedAt]
    to [null]. *)
Definition new (id : AssignmentId.t) (orderId : OrderId.t) (courierId : AccountId.t)
    (status : AssignmentStatus.t) (offeredAt : option Date)
    (respondedAt : option Date) : M t :=
  offeredAt <- orNow offeredAt ;;
  ret (mk id orderId courierId status offeredAt respondedAt).

Definition set_status (a : t) (s : AssignmentStatus.t) : t :=
  mk (id a) (orderId a) (courierId a) s (offeredAt a) (respondedAt a).

Definition set_respondedAt (a : t) (d : option Date) : t :=
  mk (id a) (orderId a) (courierId a) (status a) (offeredAt a) d.

Definition accept (a : t) : M t :=
  if negb (AssignmentStatus.isPending (status a))
  then throw OnlyPendingCanBeAccepted
  else s <- lift (AssignmentStatus.new
                    (AssignmentStatusType.code AssignmentStatusType.ACCEPTED)) ;;
       now <- new_Date ;;
       ret (set_respondedAt (set_status a s) (Some now)).

Definition reject (a : t) : M t :=
  if negb (AssignmentStatus.isPending (status a))
  then throw OnlyPendingCanBeRejected
  else s <- lift (AssignmentStatus.new
                    (AssignmentStatusType.code AssignmentStatusType.REJECTED)) ;;
       now <- new_Date ;;
       ret (set_respondedAt (set_status a s) (Some now)).

Definition complete (a : t) : Result t :=
  if negb (AssignmentStatus.isAccepted (status a))
  then Err OnlyAcceptedCanBeCompleted
  else s <-? AssignmentStatus.new
               (AssignmentStatusType.code AssignmentStatusType.COMPLETED) ;;
       Ok (set_status a s).

Definition cancel (a : t) : Result t :=
  if AssignmentStatus.isCompleted (status a)
  then Err CompletedCannotBeCancelled
  else s <-? AssignmentStatus.new
               (AssignmentStatusType.code AssignmentStatusType.CANCELLED) ;;
       Ok (set_status a s).

Definition isActive (a : t) : bool := AssignmentStatus.isActive (status a).
End Assignment.

Module DeliveryEvent.
Record t : Type := mk {
  id : DeliveryEventId.t;
  orderId : OrderId.t;
  courierId : option AccountId.t;
  type : EventType.t;
  payloadJson : option str;
  occurredAt : Date
}.

Definition new (id : DeliveryEventId.t) (orderId : OrderId.t)
    (courierId : option AccountId.t) (type : EventType.t)
    (payloadJson : option str) (occurredAt : option Date) : M t :=
  occurredAt <- orNow occurredAt ;;
  ret (mk id orderId courierId type payloadJson occurredAt).
End DeliveryEvent.

(** ** The TypeORM repository of a table

    The library is not part of the program; this is its documented
    behaviour for the three calls the program makes. [findOne] returns a
    row the [where] clause selects, [find] all of them. [save] looks the
    entity up by primary key: a stored row is updated, otherwise the entity
    is inserted. The database refuses a write that would repeat the value
    of a unique column held by another row.

    The program asks for no order, and the database answers in an order of
    its choosing, which an UPDATE may change. The order of a table's list is
    therefore the model's own: the model answers in list order, keeps an
    updated row at its place and adds a new one at the end. [findOne] is
    only called with a clause that at most one row of the database
    satisfies (a primary key, or the unique [order_id]); a statement about
    the answer of a [find], or about several rows of a table, is to be made
    up to the order of the rows.

    Column types are not modelled here either: a row is read back as it was
    written and no value is refused, which is what the database does for
    the values that fit the columns ([fits_text], [fits_real] and
    [fits_timestamp] below). A statement about a row built from values that
    come from outside the program assumes that they fit. The account table,
    which is only written with such values, refuses what its [text] columns
    refuse ([accountTable_save]). *)

Module TypeOrm.
Section Repository.
Variable Entity : Type.
Variable primary : Entity -> str.
Variable unique : list (Entity -> str).

Definition findOne (where_ : Entity -> bool) (rows : list Entity) : option Entity :=
  List.find where_ rows.

Definition find (where_ : Entity -> bool) (rows : list Entity) : list Entity :=
  List.filter where_ rows.

Definition samePrimary (e r : Entity) : bool := JS.str_eqb (primary r) (primary e).

(** Another row already holds [e]'s value of the column [col]. *)
Definition taken (e : Entity) (rows : list Entity) (col : Entity -> str) : bool :=
  existsb (fun r => negb (samePrimary e r) && JS.str_eqb (col r) (col e)) rows.

(** The rows after an UPDATE of the row that has [e]'s primary key. *)
Definition updated (e : Entity) (rows : list Entity) : list Entity :=
  map (fun r => if samePrimary e r then e else r) rows.

Definition save (e : Entity) (rows : list Entity) : option (list Entity) :=
  match List.find (samePrimary e) rows with
  | Some old =>
      if existsb (fun col => negb (JS.str_eqb (col old) (col e)) && taken e rows col)
                 unique
      then None
      else Some (updated e rows)
  | None =>
      if existsb (taken e rows) unique
      then None
      else Some (rows ++ [e])
  end.
End Repository.
Arguments findOne {Entity} where_ rows.
Arguments find {Entity} where_ rows.
Arguments samePrimary {Entity} primary e r.
Arguments taken {Entity} primary e rows col.
Arguments updated {Entity} primary e rows.
Arguments save {Entity} primary unique e rows.
End TypeOrm.

(** The three repositories of the program, with the columns their entities
    declare: [order] and [delivery_event] have a primary key only,
    [assignment] also declares [order_id] unique. *)

Definition orderTable_save (e : OrderOrmEntity.t) : M OrderOrmEntity.t :=
  fun w =>
    match TypeOrm.save OrderOrmEntity.id [] e (orderTable w) with
    | Some rows => (Ok e, set_orderTable rows w)
    | None => (Err QueryFailed, w)
    end.

Definition assignmentTable_save (e : AssignmentOrmEntity.t) : M AssignmentOrmEntity.t :=
  fun w =>
    match TypeOrm.save AssignmentOrmEntity.id [AssignmentOrmEntity.orderId] e
                       (assignmentTable w) with
    | Some rows => (Ok e, set_assignmentTable rows w)
    | None => (Err QueryFailed, w)
    end.

Definition deliveryEventTable_save (e : DeliveryEventOrmEntity.t)
    : M DeliveryEventOrmEntity.t :=
  fun w =>
    match TypeOrm.save DeliveryEventOrmEntity.id [] e (deliveryEventTable w) with
    | Some rows => (Ok e, set_deliveryEventTable rows w)
    | None => (Err QueryFailed, w)
    end.

Module OrderRepository.
Definition toDomain (entity : OrderOrmEntity.t) : M Order.t :=
  id <- lift (OrderId.new (OrderOrmEntity.id entity)) ;;
  shipperId <- lift (AccountId.new (OrderOrmEntity.shipperId entity)) ;;
  status <- lift (OrderStatus.new (OrderOrmEntity.status entity)) ;;
  pickupAddress <- lift (Address.new (OrderOrmEntity.pickupAddress entity)) ;;
  dropoffAddress <- lift (Address.new (OrderOrmEntity.dropoffAddress entity)) ;;
  pickupTimeWindow <- lift (TimeWindow.new (OrderOrmEntity.pickupStartAt entity)
                                           (OrderOrmEntity.pickupEndAt entity)) ;;
  dropoffTimeWindow <- lift (TimeWindow.new (OrderOrmEntity.dropStartAt entity)
                                            (OrderOrmEntity.dropEndAt entity)) ;;
  totalWeight <- lift (Weight.new (OrderOrmEntity.totalWeightKg entity)) ;;
  Order.new id shipperId status pickupAddress dropoffAddress pickupTimeWindow
            dropoffTimeWindow totalWeight (OrderOrmEntity.notes entity)
            (Some (OrderOrmEntity.createdAt entity)).

Definition toEntity (domain : Order.t) : OrderOrmEntity.t :=
  OrderOrmEntity.mk
    (OrderId.value (Order.id domain))
    (AccountId.value (Order.shipperId domain))
    (OrderStatusType.code (OrderStatus.value (Order.status domain)))
    (Address.value (Order.pickupAddress domain))
    (Address.value (Order.dropoffAddress domain))
    (TimeWindow.startAt (Order.pickupTimeWindow domain))
    (TimeWindow.endAt (Order.pickupTimeWindow domain))
    (TimeWindow.startAt (Order.dropoffTimeWindow domain))
    (TimeWindow.endAt (Order.dropoffTimeWindow domain))
    (Weight.valueInKg (Order.totalWeight domain))
    (Order.notes domain)
    (Order.createdAt domain).

Definition findById (id : OrderId.t) : M (option Order.t) :=
  fun w =>
    match TypeOrm.findOne
            (fun e => JS.str_eqb (OrderOrmEntity.id e) (OrderId.value id))
            (orderTable w) with
    | None => ret None w
    | Some entity => (o <- toDomain entity ;; ret (Some o)) w
    end.

Definition save (order : Order.t) : M Order.t :=
  savedEntity <- orderTable_save (toEntity order) ;;
  toDomain savedEntity.

Definition update (order : Order.t) : M Order.t :=
  updatedEntity <- orderTable_save (toEntity order) ;;
  toDomain updatedEntity.
End OrderRepository.

Module AssignmentRepository.
Definition toDomain (entity : AssignmentOrmEntity.t) : M Assignment.t :=
  id <- lift (AssignmentId.new (AssignmentOrmEntity.id entity)) ;;
  orderId <- lift (OrderId.new (AssignmentOrmEntity.orderId entity)) ;;
  courierId <- lift (AccountId.new (AssignmentOrmEntity.courierId entity)) ;;
  status <- lift (AssignmentStatus.new (AssignmentOrmEntity.status entity)) ;;
  Assignment.new id orderId courierId status
                 (Some (AssignmentOrmEntity.offeredAt entity))
                 (AssignmentOrmEntity.respondedAt entity).

Definition toEntity (domain : Assignment.t) : AssignmentOrmEntity.t :=
  AssignmentOrmEntity.mk
    (AssignmentId.value (Assignment.id domain))
    (OrderId.value (Assignment.orderId domain))
    (AccountId.value (Assignment.courierId domain))
    (AssignmentStatusType.code (AssignmentStatus.value (Assignment.status domain)))
    (Assignment.offeredAt domain)
    (Assignment.respondedAt domain).

(** Runs a [findOne] and converts the row found, if any. *)
Definition findOneBy (where_ : AssignmentOrmEntity.t -> bool) : M (option Assignment.t) :=
  fun w =>
    match TypeOrm.findOne where_ (assignmentTable w) with
    | None => ret None w
    | Some entity => (a <- toDomain entity ;; ret (Some a)) w
    end.

Definition findById (id : AssignmentId.t) : M (option Assignment.t) :=
  findOneBy (fun e => JS.str_eqb (AssignmentOrmEntity.id e) (AssignmentId.value id)).

Definition findByOrderId (orderId : OrderId.t) : M (option Assignment.t) :=
  findOneBy (fun e => JS.str_eqb (AssignmentOrmEntity.orderId e) (OrderId.value orderId)).

(** [where: { orderId: orderId.value, status: 'PENDING' || 'ACCEPTED' }]. *)
Definition findActiveByOrderId (orderId : OrderId.t) : M (option Assignment.t) :=
  findOneBy (fun e =>
    JS.str_eqb (AssignmentOrmEntity.orderId e) (OrderId.value orderId)
    && JS.str_eqb (AssignmentOrmEntity.status e)
                  (JS.or (lit "PENDING") (lit "ACCEPTED"))).

Definition save (assignment : Assignment.t) : M Assignment.t :=
  savedEntity <- assignmentTable_save (toEntity assignment) ;;
  toDomain savedEntity.

Definition update (assignment : Assignment.t) : M Assignment.t :=
  updatedEntity <- assignmentTable_save (toEntity assignment) ;;
  toDomain updatedEntity.
End AssignmentRepository.

Module DeliveryEventRepository.
Definition toDomain (entity : DeliveryEventOrmEntity.t) : M DeliveryEvent.t :=
  id <- lift (DeliveryEventId.new (DeliveryEventOrmEntity.id entity)) ;;
  orderId <- lift (OrderId.new (DeliveryEventOrmEntity.orderId entity)) ;;
  courierId <- lift (match DeliveryEventOrmEntity.courierId entity with
                     | Some c => if JS.truthy c
                                 then c <-? AccountId.new c ;; Ok (Some c)
                                 else Ok None
                     | None => Ok None
                     end) ;;
  type <- lift (EventType.new (DeliveryEventOrmEntity.type entity)) ;;
  DeliveryEvent.new id orderId courierId type
                    (DeliveryEventOrmEntity.payloadJson entity)
                    (Some (DeliveryEventOrmEntity.occurredAt entity)).

Definition toEntity (domain : DeliveryEvent.t) : DeliveryEventOrmEntity.t :=
  DeliveryEventOrmEntity.mk
    (DeliveryEventId.value (DeliveryEvent.id domain))
    (OrderId.value (DeliveryEvent.orderId domain))
    (option_map AccountId.value (DeliveryEvent.courierId domain))
    (EventTypeValue.code (EventType.value (DeliveryEvent.type domain)))
    (DeliveryEvent.payloadJson domain)
    (DeliveryEvent.occurredAt domain).

Definition save (event : DeliveryEvent.t) : M DeliveryEvent.t :=
  savedEntity <- deliveryEventTable_save (toEntity event) ;;
  toDomain savedEntity.
End DeliveryEventRepository.

(** ** Use cases

    [JSON.stringify] is the runtime's; the use cases only hand it an object
    literal with string values, given here as the list of its properties. *)

Module PlaceOrderParams.
Record t : Type := mk {
  shipperId : str;
  pickupAddress : str;
  dropoffAddress : str;
  pickupStartAt : option Date;
  pickupEndAt : option Date;
  dropStartAt : option Date;
  dropEndAt : option Date;
  totalWeightKg : option float;
  notes : option str
}.
End PlaceOrderParams.

Section UseCases.
Variable JSON_stringify : list (string * str) -> str.

Definition PlaceOrderUseCase_execute (params : PlaceOrderParams.t) : M Order.t :=
  u <- uuidv4 ;;
  orderId <- lift (OrderId.new u) ;;
  shipperId <- lift (AccountId.new (PlaceOrderParams.shipperId params)) ;;
  status <- lift (OrderStatus.new (lit "PLACED")) ;;
  pickupAddress <- lift (Address.new (PlaceOrderParams.pickupAddress params)) ;;
  dropoffAddress <- lift (Address.new (PlaceOrderParams.dropoffAddress params)) ;;
  pickupTimeWindow <- lift (TimeWindow.new (PlaceOrderParams.pickupStartAt params)
                                           (PlaceOrderParams.pickupEndAt params)) ;;
  dropoffTimeWindow <- lift (TimeWindow.new (PlaceOrderParams.dropStartAt params)
                                            (PlaceOrderParams.dropEndAt params)) ;;
  totalWeight <- lift (Weight.new (match PlaceOrderParams.totalWeightKg params with
                                   | Some kg => kg
                                   | None => 0%float
                                   end)) ;;
  order <- Order.new orderId shipperId status pickupAddress dropoffAddress
                     pickupTimeWindow dropoffTimeWindow totalWeight
                     (PlaceOrderParams.notes params) None ;;
  savedOrder <- OrderRepository.save order ;;
  u' <- uuidv4 ;;
  eventId <- lift (DeliveryEventId.new u') ;;
  type <- lift (EventType.new (EventTypeValue.code EventTypeValue.ORDER_PLACED)) ;;
  event <- DeliveryEvent.new eventId orderId None type
             (Some (JSON_stringify
                      [ ("shipperId"%string, PlaceOrderParams.shipperId params);
                        ("pickupAddress"%string, PlaceOrderParams.pickupAddress params);
                        ("dropoffAddress"%string, PlaceOrderParams.dropoffAddress params) ]))
             None ;;
  _ <- DeliveryEventRepository.save event ;;
  ret savedOrder.

Definition OfferAssignmentUseCase_execute (orderId courierId : str) : M Assignment.t :=
  oid <- lift (OrderId.new orderId) ;;
  order <- OrderRepository.findById oid ;;
  match order with
  | None => throw OrderNotFound
  | Some order =>
      if negb (Order.canBeAssigned order)
      then throw OrderCannotBeAssigned
      else
        existingAssignment <- AssignmentRepository.findActiveByOrderId (Order.id order) ;;
        match existingAssignment with
        | Some _ => throw ActiveAssignmentExists
        | None =>
            u <- uuidv4 ;;
            id <- lift (AssignmentId.new u) ;;
            courier <- lift (AccountId.new courierId) ;;
            status <- lift (AssignmentStatus.new (lit "PENDING")) ;;
            assignment <- Assignment.new id (Order.id order) courier status None None ;;
            AssignmentRepository.save assignment
        end
  end.

Definition AcceptAssignmentUseCase_execute (assignmentId : str) : M Assignment.t :=
  aid <- lift (AssignmentId.new assignmentId) ;;
  assignment <- AssignmentRepository.findById aid ;;
  match assignment with
  | None => throw AssignmentNotFound
  | Some assignment =>
      assignment <- Assignment.accept assignment ;;
      updatedAssignment <- AssignmentRepository.update assignment ;;
      order <- OrderRepository.findById (Assignment.orderId assignment) ;;
      match order with
      | None => throw OrderNotFound
      | Some order =>
          order <- lift (Order.assign order) ;;
          _ <- OrderRepository.update order ;;
          u <- uuidv4 ;;
          eventId <- lift (DeliveryEventId.new u) ;;
          type <- lift (EventType.new (EventTypeValue.code EventTypeValue.ASSIGNED)) ;;
          event <- DeliveryEvent.new eventId (Assignment.orderId assignment)
                     (Some (Assignment.courierId assignment)) type
                     (Some (JSON_stringify
                              [ ("assignmentId"%string, assignmentId);
                                ("courierId"%string,
                                 AccountId.value (Assignment.courierId assignment)) ]))
                     None ;;
          _ <- DeliveryEventRepository.save event ;;
          ret updatedAssignment
      end
  end.
End UseCases.

(** ** Auxiliary definitions for the statements *)

(** An order whose value objects are what their constructors return: the
    constructors accept the wrapped values again and return them as they are. *)
Definition Order_wf (o : Order.t) : Prop :=
  JS.truthy (OrderId.value (Order.id o)) = true
  /\ JS.truthy (AccountId.value (Order.shipperId o)) = true
  /\ Address.new (Address.value (Order.pickupAddress o)) = Ok (Order.pickupAddress o)
  /\ Address.new (Address.value (Order.dropoffAddress o)) = Ok (Order.dropoffAddress o)
  /\ TimeWindow.new (TimeWindow.startAt (Order.pickupTimeWindow o))
                    (TimeWindow.endAt (Order.pickupTimeWindow o))
     = Ok (Order.pickupTimeWindow o)
  /\ TimeWindow.new (TimeWindow.startAt (Order.dropoffTimeWindow o))
                    (TimeWindow.endAt (Order.dropoffTimeWindow o))
     = Ok (Order.dropoffTimeWindow o)
  /\ Weight.new (Weight.valueInKg (Order.totalWeight o)) = Ok (Order.totalWeight o).

(** [o'] has the fields of [o], the status left aside. *)
Definition Order_rest_kept (o o' : Order.t) : Prop :=
  Order.id o' = Order.id o
  /\ Order.shipperId o' = Order.shipperId o
  /\ Order.pickupAddress o' = Order.pickupAddress o
  /\ Order.dropoffAddress o' = Order.dropoffAddress o
  /\ Order.pickupTimeWindow o' = Order.pickupTimeWindow o
  /\ Order.dropoffTimeWindow o' = Order.dropoffTimeWindow o
  /\ Order.totalWeight o' = Order.totalWeight o
  /\ Order.notes o' = Order.notes o
  /\ Order.createdAt o' = Order.createdAt o.

Definition Assignment_wf (a : Assignment.t) : Prop :=
  JS.truthy (AssignmentId.value (Assignment.id a)) = true
  /\ JS.truthy (OrderId.value (Assignment.orderId a)) = true
  /\ JS.truthy (AccountId.value (Assignment.courierId a)) = true.

Definition DeliveryEvent_wf (ev : DeliveryEvent.t) : Prop :=
  JS.truthy (DeliveryEventId.value (DeliveryEvent.id ev)) = true
  /\ JS.truthy (OrderId.value (DeliveryEvent.orderId ev)) = true
  /\ match DeliveryEvent.courierId ev with
     | Some c => JS.truthy (AccountId.value c) = true
     | None => True
     end.

(** ** What the columns hold

    The tables of the orders, the assignments and the events keep a row as
    it was written and never refuse a value. PostgreSQL does so for the
    values below. Another value it refuses (a
    [text] with U+0000, a [real] or a [timestamp] out of range, the Invalid
    Date) or stores as another value (a [real] is rounded to single
    precision, a lone surrogate is replaced). The statements about rows
    built from values that come from outside the program assume that these
    values fit their columns. *)

(** A [text] column: UTF-16 code units other than U+0000 and the
    surrogates. *)
Definition fits_text (s : str) : bool :=
  forallb (fun c => ((0 <? c) && (c <? 55296) || (57343 <? c) && (c <? 65536))%N) s.

(** A [timestamp] column, read and written in UTC: a valid date of the years
    1970 to 9999. *)
Definition fits_timestamp (d : Date) : bool :=
  match d with
  | instant ms => ((0 <=? ms) && (ms <=? 253402300799999))%Z
  | InvalidDate => false
  end.

(** A [real] column: a number of halves from 0 up to 2^23, which single
    precision holds exactly and prints back in full. *)
Definition fits_real (x : float) : bool :=
  match Prim2SF x with
  | S754_zero false => true
  | S754_finite false m e =>
      ((e <? 0) && ((2 * Z.pos m) mod 2 ^ (- e) =? 0)
       && ((2 * Z.pos m) / 2 ^ (- e) <? 2 ^ 24))%Z
  | _ => false
  end.

Definition fits_optional {A : Type} (fits : A -> bool) (v : option A) : bool :=
  match v with
  | Some a => fits a
  | None => true
  end.

(** The rows the columns of a table hold as given. *)
Definition OrderOrmEntity_fits (e : OrderOrmEntity.t) : bool :=
  fits_text (OrderOrmEntity.id e)
  && fits_text (OrderOrmEntity.shipperId e)
  && fits_text (OrderOrmEntity.status e)
  && fits_text (OrderOrmEntity.pickupAddress e)
  && fits_text (OrderOrmEntity.dropoffAddress e)
  && fits_optional fits_timestamp (OrderOrmEntity.pickupStartAt e)
  && fits_optional fits_timestamp (OrderOrmEntity.pickupEndAt e)
  && fits_optional fits_timestamp (OrderOrmEntity.dropStartAt e)
  && fits_optional fits_timestamp (OrderOrmEntity.dropEndAt e)
  && fits_real (OrderOrmEntity.totalWeightKg e)
  && fits_optional fits_text (OrderOrmEntity.notes e)
  && fits_timestamp (OrderOrmEntity.createdAt e).

Definition AssignmentOrmEntity_fits (e : AssignmentOrmEntity.t) : bool :=
  fits_text (AssignmentOrmEntity.id e)
  && fits_text (AssignmentOrmEntity.orderId e)
  && fits_text (AssignmentOrmEntity.courierId e)
  && fits_text (AssignmentOrmEntity.status e)
  && fits_timestamp (AssignmentOrmEntity.offeredAt e)
  && fits_optional fits_timestamp (AssignmentOrmEntity.respondedAt e).

Definition DeliveryEventOrmEntity_fits (e : DeliveryEventOrmEntity.t) : bool :=
  fits_text (DeliveryEventOrmEntity.id e)
  && fits_text (DeliveryEventOrmEntity.orderId e)
  && fits_optional fits_text (DeliveryEventOrmEntity.courierId e)
  && fits_text (DeliveryEventOrmEntity.type e)
  && fits_optional fits_text (DeliveryEventOrmEntity.payloadJson e)
  && fits_timestamp (DeliveryEventOrmEntity.occurredAt e).

(** The values of a PlaceOrder request fit the columns of the order they are
    written to (an address is stored trimmed, which fits when the address
    does). *)
Definition PlaceOrderParams_fit (params : PlaceOrderParams.t) : bool :=
  fits_text (PlaceOrderParams.shipperId params)
  && fits_text (PlaceOrderParams.pickupAddress params)
  && fits_text (PlaceOrderParams.dropoffAddress params)
  && fits_optional fits_timestamp (PlaceOrderParams.pickupStartAt params)
  && fits_optional fits_timestamp (PlaceOrderParams.pickupEndAt params)
  && fits_optional fits_timestamp (PlaceOrderParams.dropStartAt params)
  && fits_optional fits_timestamp (PlaceOrderParams.dropEndAt params)
  && fits_real (match PlaceOrderParams.totalWeightKg params with
                | Some kg => kg
                | None => 0%float
                end)
  && fits_optional fits_text (PlaceOrderParams.notes params).

(** ** Concrete data for the examples

    One stored order that is READY_TO_SHIP, one assignment of it to a courier
    (in the status given), a clock that starts at 3000 and a uuid generator
    that yields uuid-0, uuid-1, ... *)

Definition demo_order_row : OrderOrmEntity.t :=
  OrderOrmEntity.mk (lit "order-1") (lit "shipper-1") (lit "READY_TO_SHIP")
    (lit "1-1-1 Shibuya") (lit "2-2-2 Shinjuku") None None None None
    5%float None 1000%Z.

Definition demo_assignment_row (status : str) (respondedAt : option Date)
    : AssignmentOrmEntity.t :=
  AssignmentOrmEntity.mk (lit "assignment-1") (lit "order-1") (lit "courier-1")
    status 2000%Z respondedAt.

Definition demo_world (assignments : list AssignmentOrmEntity.t) : World :=
  mkWorld (fun n => 3000 + Z.of_nat n)%Z 0
          (fun n => lit "uuid-" ++ [N.of_nat (48 + n)]) 0
          [demo_order_row] assignments [].

Definition demo_order : Order.t :=
  Order.mk (OrderId.mk (lit "order-1")) (AccountId.mk (lit "shipper-1"))
    (OrderStatus.mk OrderStatusType.READY_TO_SHIP)
    (Address.mk (lit "1-1-1 Shibuya")) (Address.mk (lit "2-2-2 Shinjuku"))
    (TimeWindow.mk None None) (TimeWindow.mk None None) (Weight.mk 5%float)
    None 1000%Z.

Definition demo_assignment (status : AssignmentStatusType.t)
    (respondedAt : option Date) : Assignment.t :=
  Assignment.mk (AssignmentId.mk (lit "assignment-1")) (OrderId.mk (lit "order-1"))
    (AccountId.mk (lit "courier-1")) (AssignmentStatus.mk status) 2000%Z respondedAt.

(** The store in which the order's assignment is PENDING. *)
Definition world_pending : World :=
  demo_world [demo_assignment_row (lit "PENDING") None].

(** The store in which the order's assignment was ACCEPTED at 2500. *)
Definition world_accepted : World :=
  demo_world [demo_assignment_row (lit "ACCEPTED") (Some 2500%Z)].

(** The first scenario of the specification: shipper s1, from A to B, 5 kg. *)
Definition demo_params : PlaceOrderParams.t :=
  PlaceOrderParams.mk (lit "s1") (lit "A") (lit "B") None None None None
    (Some 5%float) None.

(** A stand-in for [JSON.stringify], to run the use cases on the examples. *)
Definition demo_stringify (props : list (string * str)) : str :=
  flat_map (fun kv => lit (fst kv) ++ [61%N] ++ snd kv ++ [59%N]) props.

(** ** MarkReadyToShip *)

Section MarkReadyToShip.
Variable JSON_stringify : list (string * str) -> str.

Definition MarkReadyToShipUseCase_execute (orderId : str) : M Order.t :=
  oid <- lift (OrderId.new orderId) ;;
  order <- OrderRepository.findById oid ;;
  match order with
  | None => throw OrderNotFound
  | Some order =>
      order <- lift (Order.markReadyToShip order) ;;
      updatedOrder <- OrderRepository.update order ;;
      u <- uuidv4 ;;
      eventId <- lift (DeliveryEventId.new u) ;;
      type <- lift (EventType.new (EventTypeValue.code EventTypeValue.READY_TO_SHIP)) ;;
      event <- DeliveryEvent.new eventId (Order.id order) None type
                 (Some (JSON_stringify [ ("status"%string, lit "READY_TO_SHIP") ]))
                 None ;;
      _ <- DeliveryEventRepository.save event ;;
      ret updatedOrder
  end.
End MarkReadyToShip.

(** ** Identifiers to come

    [next_uuid w i] is the [i]-th identifier [uuidv4()] yields from the world
    [w] on. An identifier is [unused] when it is not empty and is stored
    nowhere: it is no primary key of a table and no assignment names it as
    its order. *)
Definition next_uuid (w : World) (i : nat) : str := uuids w (i + drawn w).

Definition unused (w : World) (u : str) : Prop :=
  JS.truthy u = true
  /\ (forall r, In r (orderTable w) -> OrderOrmEntity.id r <> u)
  /\ (forall r, In r (assignmentTable w) ->
        AssignmentOrmEntity.id r <> u /\ AssignmentOrmEntity.orderId r <> u)
  /\ (forall r, In r (deliveryEventTable w) -> DeliveryEventOrmEntity.id r <> u).

(** ** What a computation may do to the world

    [keeps R m]: whatever the world it starts in and however it ends, with a
    value or with an exception, [m] takes a world to one that is [R]-related
    to it. *)
Definition keeps (R : World -> World -> Prop) {A : Type} (m : M A) : Prop :=
  forall w r w', m w = (r, w') -> R w w'.

(** [l'] holds the elements of [l], each as often, and possibly more; the
    order in which the lists hold them does not count. *)
Definition extends {A : Type} (l l' : list A) : Prop :=
  exists t, Permutation l' (l ++ t).

(** No row was removed and no primary key changed: in each table the stored
    identifiers are those of before and those added, in whatever order the
    table keeps its rows. *)
Definition only_adds (w w' : World) : Prop :=
  extends (map OrderOrmEntity.id (orderTable w)) (map OrderOrmEntity.id (orderTable w'))
  /\ extends (map AssignmentOrmEntity.id (assignmentTable w))
             (map AssignmentOrmEntity.id (assignmentTable w'))
  /\ extends (map DeliveryEventOrmEntity.id (deliveryEventTable w))
             (map DeliveryEventOrmEntity.id (deliveryEventTable w')).

Definition same_assignments (w w' : World) : Prop :=
  assignmentTable w' = assignmentTable w.

Definition same_orders_and_events (w w' : World) : Prop :=
  orderTable w' = orderTable w /\ deliveryEventTable w' = deliveryEventTable w.

(** The three places where a table is written: [R] allows the write. *)
Definition writes_orders (R : World -> World -> Prop) : Prop :=
  forall e w rows,
    TypeOrm.save OrderOrmEntity.id [] e (orderTable w) = Some rows ->
    R w (set_orderTable rows w).

Definition writes_assignments (R : World -> World -> Prop) : Prop :=
  forall e w rows,
    TypeOrm.save AssignmentOrmEntity.id [AssignmentOrmEntity.orderId] e
                 (assignmentTable w) = Some rows ->
    R w (set_assignmentTable rows w).

Definition writes_events (R : World -> World -> Prop) : Prop :=
  forall e w rows,
    TypeOrm.save DeliveryEventOrmEntity.id [] e (deliveryEventTable w) = Some rows ->
    R w (set_deliveryEventTable rows w).

(** ** Sequences of operations on an entity

    A caller applies operations one after the other; an operation that
    throws has not touched the object (every method checks before it
    assigns), so the next one applies to the object as it was. *)

Inductive OrderOp : Type :=
| MarkReadyToShipOp
| AssignOp
| DeliverOp
| CancelOrderOp.

Definition Order_apply (op : OrderOp) (o : Order.t) : Result Order.t :=
  match op with
  | MarkReadyToShipOp => Order.markReadyToShip o
  | AssignOp => Order.assign o
  | DeliverOp => Order.deliver o
  | CancelOrderOp => Order.cancel o
  end.

Fixpoint Order_run (ops : list OrderOp) (o : Order.t) : Order.t :=
  match ops with
  | [] => o
  | op :: ops' =>
      match Order_apply op o with
      | Ok o' => Order_run ops' o'
      | Err _ => Order_run ops' o
      end
  end.

(** The place of a status on the way of an order. *)
Definition Order_rank (s : OrderStatusType.t) : nat :=
  match s with
  | OrderStatusType.PLACED => 0
  | OrderStatusType.READY_TO_SHIP => 1
  | OrderStatusType.ASSIGNED => 2
  | OrderStatusType.DELIVERED => 3
  | OrderStatusType.CANCELLED => 4
  end.

Inductive AssignmentOp : Type :=
| AcceptOp
| RejectOp
| CompleteOp
| CancelAssignmentOp.

Definition Assignment_apply (op : AssignmentOp) (a : Assignment.t) : M Assignment.t :=
  match op with
  | AcceptOp => Assignment.accept a
  | RejectOp => Assignment.reject a
  | CompleteOp => lift (Assignment.complete a)
  | CancelAssignmentOp => lift (Assignment.cancel a)
  end.

Fixpoint Assignment_run (ops : list AssignmentOp) (a : Assignment.t) (w : World)
    : Assignment.t * World :=
  match ops with
  | [] => (a, w)
  | op :: ops' =>
      match Assignment_apply op a w with
      | (Ok a', w') => Assignment_run ops' a' w'
      | (Err _, w') => Assignment_run ops' a w'
      end
  end.

(** An assignment has a response time exactly when it has been answered:
    none while PENDING, one when ACCEPTED, REJECTED or COMPLETED. *)
Definition Assignment_answered (a : Assignment.t) : Prop :=
  match AssignmentStatus.value (Assignment.status a) with
  | AssignmentStatusType.PENDING => Assignment.respondedAt a = None
  | AssignmentStatusType.CANCELLED => True
  | _ => Assignment.respondedAt a <> None
  end.

(** ** More concrete data for the examples *)

(** A stored order that was placed and not yet marked ready. *)
Definition demo_placed_row : OrderOrmEntity.t :=
  OrderOrmEntity.mk (lit "order-2") (lit "shipper-1") (lit "PLACED")
    (lit "1-1-1 Shibuya") (lit "2-2-2 Shinjuku") None None None None
    5%float None 1000%Z.

Definition demo_placed : Order.t :=
  Order.mk (OrderId.mk (lit "order-2")) (AccountId.mk (lit "shipper-1"))
    (OrderStatus.mk OrderStatusType.PLACED)
    (Address.mk (lit "1-1-1 Shibuya")) (Address.mk (lit "2-2-2 Shinjuku"))
    (TimeWindow.mk None None) (TimeWindow.mk None None) (Weight.mk 5%float)
    None 1000%Z.

Definition world_placed : World :=
  mkWorld (fun n => 3000 + Z.of_nat n)%Z 0
          (fun n => lit "uuid-" ++ [N.of_nat (48 + n)]) 0
          [demo_placed_row] [] [].

(** A store whose only assignment, PENDING, is of an order that is not
    stored. *)
Definition world_orphan : World :=
  mkWorld (fun n => 3000 + Z.of_nat n)%Z 0
          (fun n => lit "uuid-" ++ [N.of_nat (48 + n)]) 0
          [] [demo_assignment_row (lit "PENDING") None] [].

(** A stored order row whose status is no status of the program. *)
Definition demo_unreadable_row : OrderOrmEntity.t :=
  OrderOrmEntity.mk (lit "order-3") (lit "shipper-1") (lit "LOST")
    (lit "1-1-1 Shibuya") (lit "2-2-2 Shinjuku") None None None None
    5%float None 1000%Z.

Definition world_unreadable : World :=
  mkWorld (fun n => 3000 + Z.of_nat n)%Z 0
          (fun n => lit "uuid-" ++ [N.of_nat (48 + n)]) 0
          [demo_order_row; demo_unreadable_row; demo_placed_row] [] [].

(** ** The repositories' list queries

    [entities.map((entity) => this.toDomain(entity))]: the rows selected are
    converted in the order of the answer; the first row a constructor refuses
    aborts the whole call. *)
Fixpoint mapM {A B : Type} (f : A -> M B) (l : list A) : M (list B) :=
  match l with
  | [] => ret []
  | x :: l' =>
      y <- f x ;;
      ys <- mapM f l' ;;
      ret (y :: ys)
  end.

Definition OrderRepository_findByShipperId (shipperId : AccountId.t)
    : M (list Order.t) :=
  fun w =>
    mapM OrderRepository.toDomain
         (TypeOrm.find
            (fun e => JS.str_eqb (OrderOrmEntity.shipperId e) (AccountId.value shipperId))
            (orderTable w)) w.

Definition OrderRepository_findByStatus (status : OrderStatus.t) : M (list Order.t) :=
  fun w =>
    mapM OrderRepository.toDomain
         (TypeOrm.find
            (fun e => JS.str_eqb (OrderOrmEntity.status e)
                                 (OrderStatusType.code (OrderStatus.value status)))
            (orderTable w)) w.

Definition AssignmentRepository_findByCourierId (courierId : AccountId.t)
    : M (list Assignment.t) :=
  fun w =>
    mapM AssignmentRepository.toDomain
         (TypeOrm.find
            (fun e => JS.str_eqb (AssignmentOrmEntity.courierId e)
                                 (AccountId.value courierId))
            (assignmentTable w)) w.

(** ** Controllers

    The bodies of the HTTP responses and the controller methods that build
    them from what a use case returns. The validation pipe that runs before
    a controller method is not part of the model. *)

Module AssignmentResponse.
Record t : Type := mk {
  id : str;
  orderId : str;
  courierId : str;
  status : str;
  offeredAt : Date;
  respondedAt : option Date
}.
Definition fromDomain (assignment : Assignment.t) : t :=
  mk (AssignmentId.value (Assignment.id assignment))
     (OrderId.value (Assignment.orderId assignment))
     (AccountId.value (Assignment.courierId assignment))
     (AssignmentStatusType.code (AssignmentStatus.value (Assignment.status assignment)))
     (Assignment.offeredAt assignment)
     (Assignment.respondedAt assignment).
End AssignmentResponse.

Module OrderResponse.
Record t : Type := mk {
  id : str;
  shipperId : str;
  status : str;
  pickupAddress : str;
  dropoffAddress : str;
  pickupStartAt : option Date;
  pickupEndAt : option Date;
  dropStartAt : option Date;
  dropEndAt : option Date;
  totalWeightKg : float;
  notes : option str;
  createdAt : Date
}.
Definition fromDomain (order : Order.t) : t :=
  mk (OrderId.value (Order.id order))
     (AccountId.value (Order.shipperId order))
     (OrderStatusType.code (OrderStatus.value (Order.status order)))
     (Address.value (Order.pickupAddress order))
     (Address.value (Order.dropoffAddress order))
     (TimeWindow.startAt (Order.pickupTimeWindow order))
     (TimeWindow.endAt (Order.pickupTimeWindow order))
     (TimeWindow.startAt (Order.dropoffTimeWindow order))
     (TimeWindow.endAt (Order.dropoffTimeWindow order))
     (Weight.valueInKg (Order.totalWeight order))
     (Order.notes order)
     (Order.createdAt order).
End OrderResponse.

Module OfferAssignmentRequest.
Record t : Type := mk { orderId : str; courierId : str }.
End OfferAssignmentRequest.

Module PlaceOrderRequest.
Record t : Type := mk {
  shipperId : str;
  pickupAddress : str;
  dropoffAddress : str;
  pickupStartAt : option Date;
  pickupEndAt : option Date;
  dropStartAt : option Date;
  dropEndAt : option Date;
  totalWeightKg : option float;
  notes : option str
}.
End PlaceOrderRequest.

Section Controllers.
Variable JSON_stringify : list (string * str) -> str.

Definition AssignmentController_offer (request : OfferAssignmentRequest.t)
    : M AssignmentResponse.t :=
  assignment <- OfferAssignmentUseCase_execute
                  (OfferAssignmentRequest.orderId request)
                  (OfferAssignmentRequest.courierId request) ;;
  ret (AssignmentResponse.fromDomain assignment).

Definition AssignmentController_accept (id : str) : M AssignmentResponse.t :=
  assignment <- AcceptAssignmentUseCase_execute JSON_stringify id ;;
  ret (AssignmentResponse.fromDomain assignment).

Definition OrderController_place (request : PlaceOrderRequest.t) : M OrderResponse.t :=
  order <- PlaceOrderUseCase_execute JSON_stringify
             (PlaceOrderParams.mk
                (PlaceOrderRequest.shipperId request)
                (PlaceOrderRequest.pickupAddress request)
                (PlaceOrderRequest.dropoffAddress request)
                (PlaceOrderRequest.pickupStartAt request)
                (PlaceOrderRequest.pickupEndAt request)
                (PlaceOrderRequest.dropStartAt request)
                (PlaceOrderRequest.dropEndAt request)
                (PlaceOrderRequest.totalWeightKg request)
                (PlaceOrderRequest.notes request)) ;;
  ret (OrderResponse.fromDomain order).

Definition OrderController_markReadyToShip (id : str) : M OrderResponse.t :=
  order <- MarkReadyToShipUseCase_execute JSON_stringify id ;;
  ret (OrderResponse.fromDomain order).
End Controllers.

(** The order table is as it was. *)
Definition same_orders (w w' : World) : Prop := orderTable w' = orderTable w.

(** ** Accounts

    The account module: a value object, an entity, a repository on a table
    of its own, one use case and its controller. It throws two errors of its
    own and shares [AccountId], [uuidv4()] and the clock with the rest. *)

Inductive AccountError : Type :=
| AccountNameRequired                   (* Account: the name is required *)
| InvalidAccountRole (value : str)      (* AccountRole: invalid role *)
| Thrown (e : Error).                   (* an error of the shared code *)

Inductive Outcome (A : Type) : Type :=
| Done (a : A)
| Failed (e : AccountError).

Arguments Done {A} a.
Arguments Failed {A} e.

Module AccountRoleType.
Inductive t : Type := SHIPPER | COURIER.
Definition code (r : t) : str :=
  match r with
  | SHIPPER => lit "SHIPPER"
  | COURIER => lit "COURIER"
  end.
Definition values : list t := [SHIPPER; COURIER].
Definition eqb (a b : t) : bool := JS.str_eqb (code a) (code b).
End AccountRoleType.

Module AccountRole.
Record t : Type := mk { value : AccountRoleType.t }.
Definition new (value : str) : Outcome t :=
  match find (fun r => JS.str_eqb (AccountRoleType.code r) value)
             AccountRoleType.values with
  | Some r => Done (mk r)
  | None => Failed (InvalidAccountRole value)
  end.
Definition isShipper (r : t) : bool :=
  AccountRoleType.eqb (value r) AccountRoleType.SHIPPER.
Definition isCourier (r : t) : bool :=
  AccountRoleType.eqb (value r) AccountRoleType.COURIER.
End AccountRole.

Module AccountOrmEntity.
Record t : Type := mk {
  id : str;
  name : str;
  role : str;
  createdAt : Date
}.
End AccountOrmEntity.

(** The world of the account module: the shared world and the account
    table. *)
Record AccountWorld : Type := mkAccountWorld {
  world : World;
  accountTable : list AccountOrmEntity.t
}.

Definition AM (A : Type) : Type := AccountWorld -> Outcome A * AccountWorld.

Definition aret {A : Type} (a : A) : AM A := fun s => (Done a, s).

Definition athrow {A : Type} (e : AccountError) : AM A := fun s => (Failed e, s).

Definition abind {A B : Type} (m : AM A) (k : A -> AM B) : AM B :=
  fun s =>
    match m s with
    | (Done a, s') => k a s'
    | (Failed e, s') => (Failed e, s')
    end.

Notation "x <~ m ;; k" := (abind m (fun x => k))
  (at level 61, m at next level, right associativity) : js_scope.

(** A step of the shared code, run on the shared part of the world. *)
Definition shared {A : Type} (m : M A) : AM A :=
  fun s =>
    match m (world s) with
    | (Ok a, w') => (Done a, mkAccountWorld w' (accountTable s))
    | (Err e, w') => (Failed (Thrown e), mkAccountWorld w' (accountTable s))
    end.

Definition pure {A : Type} (r : Outcome A) : AM A := fun s => (r, s).

Module Account.
Record t : Type := mk {
  id : AccountId.t;
  name : str;
  role : AccountRole.t;
  createdAt : Date
}.

(** The constructor: the name is checked trimmed and kept as given;
    [createdAt] defaults to the current time. *)
Definition new (id : AccountId.t) (name : str) (role : AccountRole.t)
    (createdAt : option Date) : AM t :=
  if negb (JS.truthy name) || JS.str_eqb (JS.trim name) []
  then athrow AccountNameRequired
  else createdAt <~ shared (orNow createdAt) ;;
       aret (mk id name role createdAt).

Definition isShipper (a : t) : bool := AccountRole.isShipper (role a).
Definition isCourier (a : t) : bool := AccountRole.isCourier (role a).
End Account.

(** A [text] column refuses a string that holds U+0000. *)
Definition text_refuses (s : str) : bool := existsb (N.eqb 0) s.

(** The account table: [id], [name] and [role] are [text] columns. *)
Definition accountTable_save (e : AccountOrmEntity.t) : AM AccountOrmEntity.t :=
  fun s =>
    if text_refuses (AccountOrmEntity.id e)
       || text_refuses (AccountOrmEntity.name e)
       || text_refuses (AccountOrmEntity.role e)
    then (Failed (Thrown QueryFailed), s)
    else
      match TypeOrm.save AccountOrmEntity.id [] e (accountTable s) with
      | Some rows => (Done e, mkAccountWorld (world s) rows)
      | None => (Failed (Thrown QueryFailed), s)
      end.

Module AccountRepository.
Definition toDomain (entity : AccountOrmEntity.t) : AM Account.t :=
  id <~ shared (lift (AccountId.new (AccountOrmEntity.id entity))) ;;
  role <~ pure (AccountRole.new (AccountOrmEntity.role entity)) ;;
  Account.new id (AccountOrmEntity.name entity) role
              (Some (AccountOrmEntity.createdAt entity)).

Definition toEntity (domain : Account.t) : AccountOrmEntity.t :=
  AccountOrmEntity.mk
    (AccountId.value (Account.id domain))
    (Account.name domain)
    (AccountRoleType.code (AccountRole.value (Account.role domain)))
    (Account.createdAt domain).

Definition findById (id : AccountId.t) : AM (option Account.t) :=
  fun s =>
    match TypeOrm.findOne
            (fun e => JS.str_eqb (AccountOrmEntity.id e) (AccountId.value id))
            (accountTable s) with
    | None => aret None s
    | Some entity => (a <~ toDomain entity ;; aret (Some a)) s
    end.

Definition save (account : Account.t) : AM Account.t :=
  savedEntity <~ accountTable_save (toEntity account) ;;
  toDomain savedEntity.
End AccountRepository.

(** [new Account({ id: new AccountId(uuidv4()), name, role: new
    AccountRole(params.role) })]: the properties are evaluated in the order
    written, then the constructor runs. *)
Definition CreateAccountUseCase_execute (name role : str) : AM Account.t :=
  u <~ shared uuidv4 ;;
  id <~ shared (lift (AccountId.new u)) ;;
  role <~ pure (AccountRole.new role) ;;
  account <~ Account.new id name role None ;;
  AccountRepository.save account.

Module AccountResponse.
Record t : Type := mk {
  id : str;
  name : str;
  role : str;
  createdAt : Date
}.
Definition fromDomain (account : Account.t) : t :=
  mk (AccountId.value (Account.id account))
     (Account.name account)
     (AccountRoleType.code (AccountRole.value (Account.role account)))
     (Account.createdAt account).
End AccountResponse.

Module CreateAccountRequest.
Record t : Type := mk { name : str; role : str }.
End CreateAccountRequest.

Definition AccountController_create (request : CreateAccountRequest.t)
    : AM AccountResponse.t :=
  account <~ CreateAccountUseCase_execute (CreateAccountRequest.name request)
                                          (CreateAccountRequest.role request) ;;
  aret (AccountResponse.fromDomain account).

(** A store with one account, a shipper. *)
Definition demo_accounts : AccountWorld :=
  mkAccountWorld (demo_world [])
    [AccountOrmEntity.mk (lit "shipper-1") (lit "Yamada") (lit "SHIPPER") 500%Z].

(** Unfolds the monad's operations in the goal and the hypotheses. *)
Ltac munfold :=
  unfold bind, lift, ret, throw, orNow in *; cbv beta iota in *.

(** * Properties *)

(** ** Strings and trimming *)

Lemma str_eqb_eq (a b : str) : JS.str_eqb a b = true <-> a = b.
Proof.
  revert b; induction a as [|x a IH]; intros [|y b]; simpl; split; intro H;
    try reflexivity; try discriminate.
  - apply andb_true_iff in H as [Hx Hr].
    apply N.eqb_eq in Hx. apply IH in Hr. congruence.
  - injection H as -> ->. rewrite N.eqb_refl. simpl. now apply IH.
Qed.

Lemma str_eqb_refl (a : str) : JS.str_eqb a a = true.
Proof. now apply str_eqb_eq. Qed.

Lemma str_eqb_neq (a b : str) : JS.str_eqb a b = false <-> a <> b.
Proof.
  split.
  - intros H E. apply str_eqb_eq in E. congruence.
  - intros H. destruct (JS.str_eqb a b) eqn:E; [|reflexivity].
    apply str_eqb_eq in E. contradiction.
Qed.

Lemma trimStart_nil (s : str) :
  JS.trimStart s = [] <-> forallb JS.isWhiteSpace s = true.
Proof.
  induction s as [|c r IH]; simpl.
  - tauto.
  - destruct (JS.isWhiteSpace c); simpl; [exact IH|].
    split; discriminate.
Qed.

Lemma trimStart_snoc (l : str) (c : N) :
  JS.isWhiteSpace c = false -> JS.trimStart (l ++ [c]) = JS.trimStart l ++ [c].
Proof.
  intros Hc. induction l as [|x l IH]; simpl.
  - now rewrite Hc.
  - destruct (JS.isWhiteSpace x); [exact IH | reflexivity].
Qed.

Lemma trimStart_idem (s : str) : JS.trimStart (JS.trimStart s) = JS.trimStart s.
Proof.
  induction s as [|c r IH]; simpl; [reflexivity|].
  destruct (JS.isWhiteSpace c) eqn:Hc; [exact IH|].
  simpl. now rewrite Hc.
Qed.

Lemma trimEnd_cons (c : N) (r : str) :
  JS.isWhiteSpace c = false -> JS.trimEnd (c :: r) = c :: JS.trimEnd r.
Proof.
  intros Hc. unfold JS.trimEnd. simpl rev.
  rewrite (trimStart_snoc _ _ Hc), rev_app_distr. reflexivity.
Qed.

Lemma trimEnd_idem (s : str) : JS.trimEnd (JS.trimEnd s) = JS.trimEnd s.
Proof.
  unfold JS.trimEnd. now rewrite rev_involutive, trimStart_idem.
Qed.

(** What [trimStart] returns is empty or starts with a character that is
    not white space. *)
Lemma trimStart_head (s : str) :
  JS.trimStart s = [] \/
  exists c r, JS.trimStart s = c :: r /\ JS.isWhiteSpace c = false.
Proof.
  induction s as [|c r IH]; simpl; [now left|].
  destruct (JS.isWhiteSpace c) eqn:Hc; [exact IH|].
  right. now exists c, r.
Qed.

Lemma trim_nil (s : str) : JS.trim s = [] <-> forallb JS.isWhiteSpace s = true.
Proof.
  unfold JS.trim. rewrite <- trimStart_nil.
  destruct (trimStart_head s) as [E | (c & r & E & Hc)]; rewrite E.
  - now split.
  - rewrite (trimEnd_cons _ _ Hc). split; discriminate.
Qed.

Lemma trim_idem (s : str) : JS.trim (JS.trim s) = JS.trim s.
Proof.
  unfold JS.trim.
  destruct (trimStart_head s) as [E | (c & r & E & Hc)]; rewrite E.
  - reflexivity.
  - rewrite (trimEnd_cons _ _ Hc). simpl JS.trimStart at 1. rewrite Hc.
    rewrite <- (trimEnd_cons _ _ Hc). apply trimEnd_idem.
Qed.

Lemma has_non_white_space (s : str) :
  (exists c, In c s /\ JS.isWhiteSpace c = false) <->
  forallb JS.isWhiteSpace s = false.
Proof.
  induction s as [|x s IH]; simpl.
  - split; [intros (c & [] & _) | discriminate].
  - destruct (JS.isWhiteSpace x) eqn:Hx; simpl.
    + rewrite <- IH. split.
      * intros (c & [-> | Hin] & Hc); [congruence | now exists c].
      * intros (c & Hin & Hc). exists c. auto.
    + split; [reflexivity | intros _; exists x; auto].
Qed.

(** ** Value objects *)

Lemma Address_new_ok (value : str) :
  forallb JS.isWhiteSpace value = false ->
  Address.new value = Ok (Address.mk (JS.trim value)).
Proof.
  intros H. unfold Address.new.
  assert (Ht : JS.trim value <> []).
  { intros E. apply trim_nil in E. congruence. }
  destruct value as [|c r]; [discriminate H|].
  simpl JS.truthy. simpl negb. simpl orb.
  apply str_eqb_neq in Ht. now rewrite Ht.
Qed.

Lemma Address_new_err (value : str) :
  forallb JS.isWhiteSpace value = true -> Address.new value = Err AddressRequired.
Proof.
  intros H. unfold Address.new. apply trim_nil in H. rewrite H.
  now rewrite orb_true_r.
Qed.

(** An address read back from an [Address] is accepted unchanged. *)
Lemma Address_new_value (value : str) (a : Address.t) :
  Address.new value = Ok a -> Address.new (Address.value a) = Ok a.
Proof.
  intros H.
  destruct (forallb JS.isWhiteSpace value) eqn:Hw.
  - rewrite (Address_new_err _ Hw) in H. discriminate.
  - rewrite (Address_new_ok _ Hw) in H. injection H as <-. simpl.
    rewrite Address_new_ok.
    + now rewrite trim_idem.
    + destruct (forallb JS.isWhiteSpace (JS.trim value)) eqn:E; [|reflexivity].
      apply trim_nil in E. rewrite trim_idem in E. apply trim_nil in E. congruence.
Qed.

Lemma not_negative (v : float) :
  PrimFloat.leb 0%float v = true -> PrimFloat.ltb v 0%float = false.
Proof.
  rewrite leb_spec, ltb_spec.
  change (Prim2SF 0%float) with (S754_zero false).
  destruct (Prim2SF v) as [s|s| |s m e]; try destruct s; cbn; congruence.
Qed.

Lemma OrderStatus_new_code (s : OrderStatusType.t) :
  OrderStatus.new (OrderStatusType.code s) = Ok (OrderStatus.mk s).
Proof. destruct s; reflexivity. Qed.

Lemma AssignmentStatus_new_code (s : AssignmentStatusType.t) :
  AssignmentStatus.new (AssignmentStatusType.code s) = Ok (AssignmentStatus.mk s).
Proof. destruct s; reflexivity. Qed.

Lemma EventType_new_code (s : EventTypeValue.t) :
  EventType.new (EventTypeValue.code s) = Ok (EventType.mk s).
Proof. destruct s; reflexivity. Qed.

Lemma OrderStatus_new_unknown (value : str) :
  (forall s, OrderStatusType.code s <> value) ->
  OrderStatus.new value = Err (InvalidOrderStatus value).
Proof.
  intros H. unfold OrderStatus.new, OrderStatusType.values. cbn [find].
  repeat match goal with
         | |- context [JS.str_eqb (OrderStatusType.code ?s) value] =>
             rewrite (proj2 (str_eqb_neq (OrderStatusType.code s) value) (H s))
         end.
  reflexivity.
Qed.

Lemma AssignmentStatus_new_unknown (value : str) :
  (forall s, AssignmentStatusType.code s <> value) ->
  AssignmentStatus.new value = Err (InvalidAssignmentStatus value).
Proof.
  intros H. unfold AssignmentStatus.new, AssignmentStatusType.values. cbn [find].
  repeat match goal with
         | |- context [JS.str_eqb (AssignmentStatusType.code ?s) value] =>
             rewrite (proj2 (str_eqb_neq (AssignmentStatusType.code s) value) (H s))
         end.
  reflexivity.
Qed.

(** C8. Value objects validate and normalise their input. An [Address] built
    from a string that has a character other than white space is accepted
    and holds the trimmed string, which is read back unchanged and accepted
    again as it is; an empty or all-white-space string is refused. A
    [Weight] refuses a negative number and stores any number from zero up
    unchanged. An [OrderStatus] or [AssignmentStatus] refuses every string
    that is not one of the codes of its enumeration. *)
Theorem value_objects_validate :
  (forall value : str,
      (exists c, In c value /\ JS.isWhiteSpace c = false) ->
      exists a, Address.new value = Ok a
                /\ Address.value a = JS.trim value
                /\ Address.new (Address.value a) = Ok a)
  /\ (forall value : str,
         (forall c, In c value -> JS.isWhiteSpace c = true) ->
         Address.new value = Err AddressRequired)
  /\ (forall kg : float,
         PrimFloat.ltb kg 0%float = true -> Weight.new kg = Err WeightNegative)
  /\ (forall kg : float,
         PrimFloat.leb 0%float kg = true ->
         exists w, Weight.new kg = Ok w /\ Weight.valueInKg w = kg)
  /\ (forall value : str,
         (forall s, OrderStatusType.code s <> value) ->
         OrderStatus.new value = Err (InvalidOrderStatus value))
  /\ (forall value : str,
         (forall s, AssignmentStatusType.code s <> value) ->
         AssignmentStatus.new value = Err (InvalidAssignmentStatus value)).
Proof.
  split; [|split; [|split; [|split; [|split]]]].
  - intros value H. apply has_non_white_space in H.
    exists (Address.mk (JS.trim value)). split; [|split].
    + now apply Address_new_ok.
    + reflexivity.
    + apply Address_new_value with (value := value). now apply Address_new_ok.
  - intros value H. apply Address_new_err. now apply forallb_forall.
  - intros kg H. unfold Weight.new. now rewrite H.
  - intros kg H. unfold Weight.new. rewrite (not_negative _ H).
    eexists. split; reflexivity.
  - exact OrderStatus_new_unknown.
  - exact AssignmentStatus_new_unknown.
Qed.

(** Source-level examples for C8: the address of the unit tests with blanks
    around it (here in ASCII), and the white-space-only address. *)
Example Address_trims_blanks :
  Address.new (lit "  1-1-1 Shibuya  ") = Ok (Address.mk (lit "1-1-1 Shibuya")).
Proof. reflexivity. Qed.

Example Address_refuses_blanks :
  Address.new (lit "   ") = Err AddressRequired
  /\ Address.new [] = Err AddressRequired
  /\ Address.new [12288%N] = Err AddressRequired.
Proof. repeat split; reflexivity. Qed.

Example Weight_examples :
  Weight.new 5.5%float = Ok (Weight.mk 5.5%float)
  /\ Weight.new 0%float = Ok (Weight.mk 0%float)
  /\ Weight.new (-1)%float = Err WeightNegative.
Proof. repeat split; reflexivity. Qed.

(** ** Time windows *)

(** On valid dates the constructor keeps the invariant. A [TimeWindow] whose
    bounds are valid dates is refused exactly when both are given and the
    start is after the end; one that is built holds the bounds it was given
    and, when both are valid dates, start <= end. No operation of [Order]
    touches its windows. *)
Lemma TimeWindow_start_before_end :
  (forall startAt endAt : option Date,
      (fails (TimeWindow.new startAt endAt) <->
       exists s e : Z,
         startAt = Some (instant s) /\ endAt = Some (instant e) /\ (s > e)%Z)
      /\ (forall w, TimeWindow.new startAt endAt = Ok w ->
            TimeWindow.startAt w = startAt /\ TimeWindow.endAt w = endAt
            /\ (forall s e : Z,
                  TimeWindow.startAt w = Some (instant s) ->
                  TimeWindow.endAt w = Some (instant e) -> (s <= e)%Z)))
  /\ (forall o o' : Order.t,
         In (Ok o') [Order.markReadyToShip o; Order.assign o;
                     Order.deliver o; Order.cancel o] ->
         Order.pickupTimeWindow o' = Order.pickupTimeWindow o
         /\ Order.dropoffTimeWindow o' = Order.dropoffTimeWindow o).
Proof.
  split.
  - intros startAt endAt. split; [split|].
    + intros [err E].
      destruct startAt as [[s|]|], endAt as [[e|]|]; simpl in E; try discriminate E.
      destruct (Z.gtb_spec s e) as [Hgt|Hle]; [|discriminate E].
      exists s, e. split; [reflexivity|]. split; [reflexivity|lia].
    + intros (s & e & -> & -> & Hgt). simpl.
      destruct (Z.gtb_spec s e) as [_|Hle]; [|lia].
      now exists TimeWindowStartAfterEnd.
    + intros w E.
      destruct startAt as [[s|]|], endAt as [[e|]|]; simpl in E;
        try (destruct (Z.gtb_spec s e) as [Hgt|Hle]; [discriminate E|]);
        injection E as <-; simpl; (split; [reflexivity|]); (split; [reflexivity|]);
        intros s' e' E1 E2; try discriminate.
      injection E1 as <-. injection E2 as <-. lia.
  - intros [i sh [st] pa da pw dw tw n c] o' H.
    destruct st; simpl in H; cbv in H;
      repeat (destruct H as [H | H]; try discriminate H;
              try (injection H as <-; split; reflexivity));
      contradiction.
Qed.


(** ** The order state machine *)

(** C1. [markReadyToShip] succeeds exactly from PLACED and then the status
    is READY_TO_SHIP; [assign] exactly from READY_TO_SHIP and then the status
    is ASSIGNED; [deliver] exactly from ASSIGNED and then the status is
    DELIVERED; [cancel] fails exactly from DELIVERED and otherwise the status
    is CANCELLED afterwards, also from CANCELLED. A successful call changes
    no other field. *)
Theorem Order_transitions (o : Order.t) :
  (succeeds (Order.markReadyToShip o) <->
   OrderStatus.value (Order.status o) = OrderStatusType.PLACED)
  /\ (forall o', Order.markReadyToShip o = Ok o' ->
        Order.status o' = OrderStatus.mk OrderStatusType.READY_TO_SHIP
        /\ Order_rest_kept o o')
  /\ (succeeds (Order.assign o) <->
      OrderStatus.value (Order.status o) = OrderStatusType.READY_TO_SHIP)
  /\ (forall o', Order.assign o = Ok o' ->
        Order.status o' = OrderStatus.mk OrderStatusType.ASSIGNED
        /\ Order_rest_kept o o')
  /\ (succeeds (Order.deliver o) <->
      OrderStatus.value (Order.status o) = OrderStatusType.ASSIGNED)
  /\ (forall o', Order.deliver o = Ok o' ->
        Order.status o' = OrderStatus.mk OrderStatusType.DELIVERED
        /\ Order_rest_kept o o')
  /\ (fails (Order.cancel o) <->
      OrderStatus.value (Order.status o) = OrderStatusType.DELIVERED)
  /\ (succeeds (Order.cancel o) <->
      OrderStatus.value (Order.status o) <> OrderStatusType.DELIVERED)
  /\ (forall o', Order.cancel o = Ok o' ->
        Order.status o' = OrderStatus.mk OrderStatusType.CANCELLED
        /\ Order_rest_kept o o')
  /\ (OrderStatus.value (Order.status o) = OrderStatusType.CANCELLED ->
      Order.cancel o = Ok o).
Proof.
  destruct o as [i sh [st] pa da pw dw tw n c].
  unfold succeeds, fails, Order_rest_kept.
  destruct st; cbv;
    repeat split; intros;
    repeat match goal with
           | H : exists _, _ |- _ => destruct H
           | H : Ok _ = Ok _ |- _ => injection H as H; subst
           end;
    try congruence; try reflexivity; try (eexists; reflexivity).
Qed.

(** An order that is already CANCELLED can be cancelled again. *)
Example Order_cancel_twice (o : Order.t) :
  OrderStatus.value (Order.status o) = OrderStatusType.CANCELLED ->
  Order.cancel o = Ok o.
Proof.
  destruct o as [i sh [st] pa da pw dw tw n c]. simpl. intros ->. reflexivity.
Qed.

(** ** The assignment state machine *)

(** A refused [accept] reads no clock and leaves the world as it was. *)
Lemma Assignment_accept_refused (a : Assignment.t) (w : World) :
  AssignmentStatus.value (Assignment.status a) <> AssignmentStatusType.PENDING ->
  Assignment.accept a w = (Err OnlyPendingCanBeAccepted, w).
Proof.
  destruct a as [i o c [st] off resp]. simpl.
  destruct st; intros H; try reflexivity. now contradiction H.
Qed.

Lemma Assignment_accept_pending (a : Assignment.t) (w : World) :
  AssignmentStatus.value (Assignment.status a) = AssignmentStatusType.PENDING ->
  Assignment.accept a w =
  (Ok (Assignment.set_respondedAt
         (Assignment.set_status a (AssignmentStatus.mk AssignmentStatusType.ACCEPTED))
         (Some (clock w (ticks w)))),
   tick w).
Proof.
  destruct a as [i o c [st] off resp]. simpl. intros ->. reflexivity.
Qed.

(** C2. [accept] and [reject] succeed exactly from PENDING; they then set
    ACCEPTED (resp. REJECTED) and set [respondedAt] to the reading of the
    clock at that moment. [complete] succeeds exactly from ACCEPTED and sets
    COMPLETED. [cancel] fails exactly from COMPLETED and otherwise sets
    CANCELLED. *)
Theorem Assignment_transitions (a : Assignment.t) (w : World) :
  (succeeds (fst (Assignment.accept a w)) <->
   AssignmentStatus.value (Assignment.status a) = AssignmentStatusType.PENDING)
  /\ (forall a' w', Assignment.accept a w = (Ok a', w') ->
        Assignment.status a' = AssignmentStatus.mk AssignmentStatusType.ACCEPTED
        /\ Assignment.respondedAt a' = Some (clock w (ticks w))
        /\ w' = tick w)
  /\ (succeeds (fst (Assignment.reject a w)) <->
      AssignmentStatus.value (Assignment.status a) = AssignmentStatusType.PENDING)
  /\ (forall a' w', Assignment.reject a w = (Ok a', w') ->
        Assignment.status a' = AssignmentStatus.mk AssignmentStatusType.REJECTED
        /\ Assignment.respondedAt a' = Some (clock w (ticks w))
        /\ w' = tick w)
  /\ (succeeds (Assignment.complete a) <->
      AssignmentStatus.value (Assignment.status a) = AssignmentStatusType.ACCEPTED)
  /\ (forall a', Assignment.complete a = Ok a' ->
        Assignment.status a' = AssignmentStatus.mk AssignmentStatusType.COMPLETED)
  /\ (fails (Assignment.cancel a) <->
      AssignmentStatus.value (Assignment.status a) = AssignmentStatusType.COMPLETED)
  /\ (succeeds (Assignment.cancel a) <->
      AssignmentStatus.value (Assignment.status a) <> AssignmentStatusType.COMPLETED)
  /\ (forall a', Assignment.cancel a = Ok a' ->
        Assignment.status a' = AssignmentStatus.mk AssignmentStatusType.CANCELLED).
Proof.
  destruct a as [i o c [st] off resp].
  unfold succeeds, fails.
  destruct st; cbv -[clock ticks tick];
    repeat split; intros;
    repeat match goal with
           | H : exists _, _ |- _ => destruct H
           | H : (_, _) = (_, _) |- _ => injection H as H ?; subst
           | H : Ok _ = Ok _ |- _ => injection H as H; subst
           end;
    try congruence; try reflexivity; try (eexists; reflexivity).
Qed.

(** C10. [complete] and [cancel] change the status only: the identifier, the
    order, the courier, [offeredAt] and [respondedAt] stay as they were. An
    assignment cancelled while PENDING with no response keeps
    [respondedAt = null]; [accept] and [reject] are the operations that set
    it. *)
Theorem Assignment_complete_cancel_frame :
  (forall a a' : Assignment.t,
      Assignment.complete a = Ok a' \/ Assignment.cancel a = Ok a' ->
      Assignment.id a' = Assignment.id a
      /\ Assignment.orderId a' = Assignment.orderId a
      /\ Assignment.courierId a' = Assignment.courierId a
      /\ Assignment.offeredAt a' = Assignment.offeredAt a
      /\ Assignment.respondedAt a' = Assignment.respondedAt a)
  /\ (forall a : Assignment.t,
         AssignmentStatus.value (Assignment.status a) = AssignmentStatusType.PENDING ->
         Assignment.respondedAt a = None ->
         exists a', Assignment.cancel a = Ok a'
                    /\ AssignmentStatus.value (Assignment.status a')
                       = AssignmentStatusType.CANCELLED
                    /\ Assignment.respondedAt a' = None)
  /\ (forall (a a' : Assignment.t) (w w' : World),
         Assignment.accept a w = (Ok a', w') \/ Assignment.reject a w = (Ok a', w') ->
         Assignment.respondedAt a' = Some (clock w (ticks w))).
Proof.
  split; [|split].
  - intros [i o c [st] off resp] a' H.
    destruct st; cbv in H; destruct H as [H|H]; try discriminate H;
      injection H as <-; repeat split.
  - intros [i o c [st] off resp]. simpl. intros -> ->.
    eexists. repeat split.
  - intros [i o c [st] off resp] a' w w' H.
    destruct st; cbv -[clock ticks tick] in H; destruct H as [H|H];
      try discriminate H; injection H as <- _; reflexivity.
Qed.

(** The assignment machine on the examples: a PENDING assignment is accepted
    at the clock's reading; one that was accepted can be completed; cancelling
    the PENDING one leaves [respondedAt] null. *)
Example Assignment_accept_example :
  Assignment.accept (demo_assignment AssignmentStatusType.PENDING None) world_pending
  = (Ok (demo_assignment AssignmentStatusType.ACCEPTED (Some 3000%Z)),
     tick world_pending).
Proof. reflexivity. Qed.

Example Assignment_complete_example :
  Assignment.complete (demo_assignment AssignmentStatusType.ACCEPTED (Some 2500%Z))
  = Ok (demo_assignment AssignmentStatusType.COMPLETED (Some 2500%Z)).
Proof. reflexivity. Qed.

Example Assignment_cancel_example :
  Assignment.cancel (demo_assignment AssignmentStatusType.PENDING None)
  = Ok (demo_assignment AssignmentStatusType.CANCELLED None)
  /\ Assignment.cancel (demo_assignment AssignmentStatusType.COMPLETED (Some 2500%Z))
     = Err CompletedCannotBeCancelled.
Proof. split; reflexivity. Qed.

(** ** Rows and tables *)

Lemma find_first {A : Type} (p : A -> bool) (l : list A) (x : A) :
  List.find p l = Some x ->
  exists pre post,
    l = pre ++ x :: post /\ p x = true /\ forall y, In y pre -> p y = false.
Proof.
  induction l as [|y l IH]; simpl; [discriminate|].
  destruct (p y) eqn:Hy.
  - intros E. injection E as ->. exists [], l. repeat split; auto.
    intros z [].
  - intros E. destruct (IH E) as (pre & post & -> & Hx & Hpre).
    exists (y :: pre), post. repeat split; auto.
    intros z [<- | Hz]; auto.
Qed.

Lemma find_inserted {A : Type} (p : A -> bool) (l : list A) (x : A) :
  (forall y, In y l -> p y = false) -> p x = true ->
  List.find p (l ++ [x]) = Some x.
Proof.
  intros Hl Hx. induction l as [|y l IH]; simpl.
  - now rewrite Hx.
  - rewrite (Hl y (or_introl eq_refl)). apply IH.
    intros z Hz. apply Hl. now right.
Qed.

Lemma find_nothing {A : Type} (p : A -> bool) (l : list A) :
  (forall y, In y l -> p y = false) -> List.find p l = None.
Proof.
  induction l as [|y l IH]; simpl; intros H; [reflexivity|].
  rewrite (H y (or_introl eq_refl)). apply IH. intros z Hz. apply H. now right.
Qed.

Section TypeOrmFacts.
Variable Entity : Type.
Variable primary : Entity -> str.
Variable unique : list (Entity -> str).

Lemma save_update (e old : Entity) (rows : list Entity) :
  List.find (TypeOrm.samePrimary primary e) rows = Some old ->
  (forall col, In col unique -> col old = col e) ->
  TypeOrm.save primary unique e rows = Some (TypeOrm.updated primary e rows).
Proof.
  intros Hf Hu. unfold TypeOrm.save. rewrite Hf.
  replace (existsb _ unique) with false; [reflexivity|].
  symmetry. apply not_true_is_false. intros H.
  apply existsb_exists in H as (col & Hin & H).
  apply andb_true_iff in H as [H _].
  rewrite (Hu col Hin), str_eqb_refl in H. discriminate.
Qed.

Lemma save_insert (e : Entity) (rows : list Entity) :
  (forall r, In r rows -> primary r <> primary e) ->
  (forall col r, In col unique -> In r rows -> col r <> col e) ->
  TypeOrm.save primary unique e rows = Some (rows ++ [e]).
Proof.
  intros Hp Hu. unfold TypeOrm.save.
  destruct (List.find _ rows) as [old|] eqn:Hf.
  - apply find_some in Hf as [Hin H]. unfold TypeOrm.samePrimary in H.
    apply str_eqb_eq in H. now apply Hp in Hin.
  - replace (existsb _ unique) with false; [reflexivity|].
    symmetry. apply not_true_is_false. intros H.
    apply existsb_exists in H as (col & Hin & H).
    apply existsb_exists in H as (r & Hr & H).
    apply andb_true_iff in H as [_ H]. apply str_eqb_eq in H.
    exact (Hu col r Hin Hr H).
Qed.

(** After an update the row found under [e]'s primary key is [e]. *)
Lemma find_updated (e old : Entity) (rows : list Entity) :
  List.find (TypeOrm.samePrimary primary e) rows = Some old ->
  List.find (TypeOrm.samePrimary primary e) (TypeOrm.updated primary e rows) = Some e.
Proof.
  unfold TypeOrm.updated.
  induction rows as [|r rows IH]; simpl; [discriminate|].
  destruct (TypeOrm.samePrimary primary e r) eqn:Hr.
  - intros _. unfold TypeOrm.samePrimary at 1. now rewrite str_eqb_refl.
  - intros H. rewrite Hr. auto.
Qed.
End TypeOrmFacts.

(** ** The monad *)

Lemma bind_ok {A B : Type} (m : M A) (k : A -> M B) (w w' : World) (a : A) :
  m w = (Ok a, w') -> bind m k w = k a w'.
Proof. intros H. unfold bind. now rewrite H. Qed.

Lemma bind_err {A B : Type} (m : M A) (k : A -> M B) (w w' : World) (e : Error) :
  m w = (Err e, w') -> bind m k w = (Err e, w').
Proof. intros H. unfold bind. now rewrite H. Qed.

(** ** Repositories *)

Lemma AssignmentRepository_toDomain_world e w r w' :
  AssignmentRepository.toDomain e w = (r, w') -> w' = w.
Proof.
  unfold AssignmentRepository.toDomain, Assignment.new. munfold.
  repeat match goal with
         | |- context [match ?x with Ok _ => _ | Err _ => _ end] => destruct x
         end; intros H; injection H as _ <-; reflexivity.
Qed.

Lemma AssignmentRepository_toDomain_ok e w a w' :
  AssignmentRepository.toDomain e w = (Ok a, w') ->
  exists s,
    AssignmentStatus.new (AssignmentOrmEntity.status e) = Ok s
    /\ a = Assignment.mk (AssignmentId.mk (AssignmentOrmEntity.id e))
                         (OrderId.mk (AssignmentOrmEntity.orderId e))
                         (AccountId.mk (AssignmentOrmEntity.courierId e))
                         s (AssignmentOrmEntity.offeredAt e)
                         (AssignmentOrmEntity.respondedAt e)
    /\ JS.truthy (AssignmentOrmEntity.id e) = true
    /\ JS.truthy (AssignmentOrmEntity.orderId e) = true
    /\ JS.truthy (AssignmentOrmEntity.courierId e) = true.
Proof.
  unfold AssignmentRepository.toDomain, Assignment.new,
    AssignmentId.new, OrderId.new, AccountId.new. munfold.
  destruct (JS.truthy (AssignmentOrmEntity.id e)); simpl; [|discriminate].
  destruct (JS.truthy (AssignmentOrmEntity.orderId e)); simpl; [|discriminate].
  destruct (JS.truthy (AssignmentOrmEntity.courierId e)); simpl; [|discriminate].
  destruct (AssignmentStatus.new (AssignmentOrmEntity.status e)) as [s|]; [|discriminate].
  intros H. injection H as <- _. exists s. repeat split.
Qed.

Lemma AssignmentRepository_toDomain_toEntity (a : Assignment.t) (w : World) :
  Assignment_wf a ->
  AssignmentRepository.toDomain (AssignmentRepository.toEntity a) w = (Ok a, w).
Proof.
  destruct a as [[i] [o] [c] [st] off resp]. unfold Assignment_wf. simpl.
  intros (Hi & Ho & Hc).
  unfold AssignmentRepository.toDomain, Assignment.new,
    AssignmentId.new, OrderId.new, AccountId.new. munfold. simpl.
  rewrite Hi, Ho, Hc, AssignmentStatus_new_code. reflexivity.
Qed.

Lemma AssignmentRepository_toDomain_wf e w a w' :
  AssignmentRepository.toDomain e w = (Ok a, w') -> Assignment_wf a.
Proof.
  intros H. apply AssignmentRepository_toDomain_ok in H as (s & _ & -> & Hi & Ho & Hc).
  now repeat split.
Qed.

(** What a [findOne] of the assignment repository returns comes from the
    first row the clause selects, and the world is left as it was. *)
Lemma AssignmentRepository_findOneBy_some p w a w' :
  AssignmentRepository.findOneBy p w = (Ok (Some a), w') ->
  w' = w /\ exists e, List.find p (assignmentTable w) = Some e
                      /\ AssignmentRepository.toDomain e w = (Ok a, w).
Proof.
  unfold AssignmentRepository.findOneBy, TypeOrm.findOne.
  destruct (List.find p (assignmentTable w)) as [e|]; [|discriminate].
  unfold bind, ret.
  destruct (AssignmentRepository.toDomain e w) as [[a0|err] w0] eqn:E; [|discriminate].
  intros H. injection H as <- <-.
  pose proof (AssignmentRepository_toDomain_world _ _ _ _ E) as ->.
  split; [reflexivity|]. now exists e.
Qed.

Lemma AssignmentRepository_findOneBy_none p w :
  List.find p (assignmentTable w) = None ->
  AssignmentRepository.findOneBy p w = (Ok None, w).
Proof.
  intros H. unfold AssignmentRepository.findOneBy, TypeOrm.findOne. now rewrite H.
Qed.

Lemma AssignmentRepository_findOneBy_found p w e a :
  List.find p (assignmentTable w) = Some e ->
  AssignmentRepository.toDomain e w = (Ok a, w) ->
  AssignmentRepository.findOneBy p w = (Ok (Some a), w).
Proof.
  intros H E. unfold AssignmentRepository.findOneBy, TypeOrm.findOne. rewrite H.
  unfold bind, ret. now rewrite E.
Qed.

(** *** Orders *)

Lemma TimeWindow_new_value s e tw :
  TimeWindow.new s e = Ok tw ->
  tw = TimeWindow.mk s e
  /\ TimeWindow.new (TimeWindow.startAt tw) (TimeWindow.endAt tw) = Ok tw.
Proof.
  intros H. assert (E : tw = TimeWindow.mk s e).
  { unfold TimeWindow.new in H.
    destruct s as [s|], e as [e|]; try destruct (Date_gt s e);
      try discriminate H; now injection H as <-. }
  subst tw. split; [reflexivity|exact H].
Qed.

Lemma Weight_new_value kg tw :
  Weight.new kg = Ok tw ->
  tw = Weight.mk kg /\ Weight.new (Weight.valueInKg tw) = Ok tw.
Proof.
  intros H. assert (E : tw = Weight.mk kg).
  { unfold Weight.new in H. destruct (PrimFloat.ltb kg 0); [discriminate H|].
    now injection H as <-. }
  subst tw. split; [reflexivity|exact H].
Qed.

Lemma OrderRepository_toDomain_world e w r w' :
  OrderRepository.toDomain e w = (r, w') -> w' = w.
Proof.
  unfold OrderRepository.toDomain, Order.new. munfold.
  repeat match goal with
         | |- context [match ?x with Ok _ => _ | Err _ => _ end] => destruct x
         end; intros H; injection H as _ <-; reflexivity.
Qed.

Lemma OrderRepository_toDomain_any_world e w w0 :
  OrderRepository.toDomain e w0 = (fst (OrderRepository.toDomain e w), w0).
Proof.
  unfold OrderRepository.toDomain, Order.new. munfold.
  repeat match goal with
         | |- context [match ?x with Ok _ => _ | Err _ => _ end] => destruct x
         end; reflexivity.
Qed.

Lemma OrderRepository_toDomain_ok e w o w' :
  OrderRepository.toDomain e w = (Ok o, w') ->
  Order_wf o
  /\ Order.id o = OrderId.mk (OrderOrmEntity.id e)
  /\ OrderStatus.new (OrderOrmEntity.status e) = Ok (Order.status o).
Proof.
  unfold OrderRepository.toDomain, Order.new, OrderId.new, AccountId.new. munfold.
  destruct (JS.truthy (OrderOrmEntity.id e)) eqn:Hi; simpl; [|discriminate].
  destruct (JS.truthy (OrderOrmEntity.shipperId e)) eqn:Hs; simpl; [|discriminate].
  destruct (OrderStatus.new (OrderOrmEntity.status e)) as [st|]; [|discriminate].
  destruct (Address.new (OrderOrmEntity.pickupAddress e)) as [pa|] eqn:Hpa;
    [|discriminate].
  destruct (Address.new (OrderOrmEntity.dropoffAddress e)) as [da|] eqn:Hda;
    [|discriminate].
  destruct (TimeWindow.new (OrderOrmEntity.pickupStartAt e) _) as [pw|] eqn:Hpw;
    [|discriminate].
  destruct (TimeWindow.new (OrderOrmEntity.dropStartAt e) _) as [dw|] eqn:Hdw;
    [|discriminate].
  destruct (Weight.new (OrderOrmEntity.totalWeightKg e)) as [tw|] eqn:Htw;
    [|discriminate].
  intros H. injection H as <- _. unfold Order_wf. simpl.
  apply Address_new_value in Hpa, Hda.
  apply TimeWindow_new_value in Hpw as [_ Hpw], Hdw as [_ Hdw].
  apply Weight_new_value in Htw as [_ Htw].
  repeat split; assumption.
Qed.

Lemma OrderRepository_toDomain_toEntity (o : Order.t) (w : World) :
  Order_wf o ->
  OrderRepository.toDomain (OrderRepository.toEntity o) w = (Ok o, w).
Proof.
  destruct o as [[i] [sh] [st] pa da pw dw tw n c]. unfold Order_wf. simpl.
  intros (Hi & Hs & Hpa & Hda & Hpw & Hdw & Htw).
  unfold OrderRepository.toDomain, Order.new, OrderId.new, AccountId.new.
  munfold. simpl.
  rewrite Hi, Hs, OrderStatus_new_code, Hpa, Hda, Hpw, Hdw, Htw. reflexivity.
Qed.

Lemma Order_wf_set_status o s : Order_wf o -> Order_wf (Order.set_status o s).
Proof. unfold Order_wf. simpl. tauto. Qed.

Lemma OrderRepository_findById_some id w o w' :
  OrderRepository.findById id w = (Ok (Some o), w') ->
  w' = w
  /\ exists e,
       List.find (fun e => JS.str_eqb (OrderOrmEntity.id e) (OrderId.value id))
                 (orderTable w) = Some e
       /\ OrderRepository.toDomain e w = (Ok o, w).
Proof.
  unfold OrderRepository.findById, TypeOrm.findOne.
  destruct (List.find _ (orderTable w)) as [e|]; [|discriminate].
  unfold bind, ret.
  destruct (OrderRepository.toDomain e w) as [[o0|err] w0] eqn:E; [|discriminate].
  intros H. injection H as <- <-.
  pose proof (OrderRepository_toDomain_world _ _ _ _ E) as ->.
  split; [reflexivity|]. now exists e.
Qed.

Lemma OrderRepository_findById_found id w e o :
  List.find (fun e => JS.str_eqb (OrderOrmEntity.id e) (OrderId.value id))
            (orderTable w) = Some e ->
  OrderRepository.toDomain e w = (Ok o, w) ->
  OrderRepository.findById id w = (Ok (Some o), w).
Proof.
  intros H E. unfold OrderRepository.findById, TypeOrm.findOne. rewrite H.
  unfold bind, ret. now rewrite E.
Qed.

Lemma AssignmentRepository_update_ok a w rows :
  Assignment_wf a ->
  TypeOrm.save AssignmentOrmEntity.id [AssignmentOrmEntity.orderId]
               (AssignmentRepository.toEntity a) (assignmentTable w) = Some rows ->
  AssignmentRepository.update a w = (Ok a, set_assignmentTable rows w).
Proof.
  intros Hwf Hs. unfold AssignmentRepository.update.
  rewrite (bind_ok _ _ w (set_assignmentTable rows w) (AssignmentRepository.toEntity a)).
  - now apply AssignmentRepository_toDomain_toEntity.
  - unfold assignmentTable_save. now rewrite Hs.
Qed.

Lemma AssignmentRepository_save_ok a w rows :
  Assignment_wf a ->
  TypeOrm.save AssignmentOrmEntity.id [AssignmentOrmEntity.orderId]
               (AssignmentRepository.toEntity a) (assignmentTable w) = Some rows ->
  AssignmentRepository.save a w = (Ok a, set_assignmentTable rows w).
Proof. exact (AssignmentRepository_update_ok a w rows). Qed.

Lemma OrderRepository_save_ok o w rows :
  Order_wf o ->
  TypeOrm.save OrderOrmEntity.id [] (OrderRepository.toEntity o) (orderTable w)
  = Some rows ->
  OrderRepository.save o w = (Ok o, set_orderTable rows w).
Proof.
  intros Hwf Hs. unfold OrderRepository.save.
  rewrite (bind_ok _ _ w (set_orderTable rows w) (OrderRepository.toEntity o)).
  - now apply OrderRepository_toDomain_toEntity.
  - unfold orderTable_save. now rewrite Hs.
Qed.

Lemma OrderRepository_update_ok o w rows :
  Order_wf o ->
  TypeOrm.save OrderOrmEntity.id [] (OrderRepository.toEntity o) (orderTable w)
  = Some rows ->
  OrderRepository.update o w = (Ok o, set_orderTable rows w).
Proof. exact (OrderRepository_save_ok o w rows). Qed.

Lemma DeliveryEventRepository_save_ok ev w rows :
  DeliveryEvent_wf ev ->
  TypeOrm.save DeliveryEventOrmEntity.id [] (DeliveryEventRepository.toEntity ev)
               (deliveryEventTable w) = Some rows ->
  DeliveryEventRepository.save ev w = (Ok ev, set_deliveryEventTable rows w).
Proof.
  intros Hwf Hs. unfold DeliveryEventRepository.save.
  rewrite (bind_ok _ _ w (set_deliveryEventTable rows w)
             (DeliveryEventRepository.toEntity ev)).
  2:{ unfold deliveryEventTable_save. now rewrite Hs. }
  destruct ev as [[i] [o] c [ty] p occ]. unfold DeliveryEvent_wf in Hwf.
  simpl in Hwf. destruct Hwf as (Hi & Ho & Hc).
  unfold DeliveryEventRepository.toDomain, DeliveryEvent.new,
    DeliveryEventId.new, OrderId.new, AccountId.new.
  munfold. simpl. rewrite Hi, Ho, EventType_new_code. simpl.
  destruct c as [[c]|]; simpl in *; [rewrite Hc|]; reflexivity.
Qed.

(** ** AcceptAssignment and PlaceOrder *)

(** Trimming keeps a property that holds of every code unit. *)
Lemma forallb_trimStart (p : N -> bool) (x : str) :
  forallb p x = true -> forallb p (JS.trimStart x) = true.
Proof.
  induction x as [|c x IH]; simpl; [reflexivity|].
  rewrite andb_true_iff. intros [Hc Hx].
  destruct (JS.isWhiteSpace c); [now apply IH|]. simpl. now rewrite Hc, Hx.
Qed.

Lemma forallb_rev (p : N -> bool) (x : str) : forallb p (rev x) = forallb p x.
Proof.
  induction x as [|c x IH]; simpl; [reflexivity|].
  rewrite forallb_app, IH. simpl. rewrite andb_true_r. apply andb_comm.
Qed.

Lemma fits_text_trim (x : str) : fits_text x = true -> fits_text (JS.trim x) = true.
Proof.
  unfold fits_text, JS.trim, JS.trimEnd. intros H.
  rewrite forallb_rev. apply forallb_trimStart. rewrite forallb_rev.
  now apply forallb_trimStart.
Qed.

(** The row of an order built from a request that fits, with an identifier
    and a creation time that fit, fits its columns, whatever its status. *)
Lemma PlaceOrder_row_fits (params : PlaceOrderParams.t) (u : str) (c : Date)
    (st : OrderStatusType.t)
    (shipperId : AccountId.t) (pickupAddress dropoffAddress : Address.t)
    (pickupTimeWindow dropoffTimeWindow : TimeWindow.t) (totalWeight : Weight.t) :
  AccountId.new (PlaceOrderParams.shipperId params) = Ok shipperId ->
  Address.new (PlaceOrderParams.pickupAddress params) = Ok pickupAddress ->
  Address.new (PlaceOrderParams.dropoffAddress params) = Ok dropoffAddress ->
  TimeWindow.new (PlaceOrderParams.pickupStartAt params)
                 (PlaceOrderParams.pickupEndAt params) = Ok pickupTimeWindow ->
  TimeWindow.new (PlaceOrderParams.dropStartAt params)
                 (PlaceOrderParams.dropEndAt params) = Ok dropoffTimeWindow ->
  Weight.new (match PlaceOrderParams.totalWeightKg params with
              | Some kg => kg
              | None => 0%float
              end) = Ok totalWeight ->
  PlaceOrderParams_fit params = true ->
  fits_text u = true ->
  fits_timestamp c = true ->
  OrderOrmEntity_fits
    (OrderRepository.toEntity
       (Order.mk (OrderId.mk u) shipperId (OrderStatus.mk st)
                 pickupAddress dropoffAddress pickupTimeWindow dropoffTimeWindow
                 totalWeight (PlaceOrderParams.notes params) c))
  = true.
Proof.
  intros Hs Hpa Hda Hpw Hdw Htw Hfit Hu Hc.
  unfold PlaceOrderParams_fit in Hfit. rewrite !andb_true_iff in Hfit.
  destruct Hfit as ((((((((F1 & F2) & F3) & F4) & F5) & F6) & F7) & F8) & F9).
  unfold AccountId.new in Hs. destruct (JS.truthy _); [|discriminate Hs].
  injection Hs as <-.
  unfold Address.new in Hpa, Hda.
  destruct (_ || _) in Hpa; [discriminate Hpa|]. injection Hpa as <-.
  destruct (_ || _) in Hda; [discriminate Hda|]. injection Hda as <-.
  apply TimeWindow_new_value in Hpw as [-> _], Hdw as [-> _].
  apply Weight_new_value in Htw as [-> _].
  unfold OrderOrmEntity_fits, OrderRepository.toEntity. simpl.
  rewrite Hu, F1, (fits_text_trim _ F2), (fits_text_trim _ F3), F4, F5, F6, F7, F8, F9, Hc.
  now destruct st.
Qed.

Section UseCaseProperties.
Variable JSON_stringify : list (string * str) -> str.

(** C3. When the assignment is stored as PENDING and its order as
    READY_TO_SHIP (and [uuidv4] yields an identifier that is not empty and
    not yet an event's), AcceptAssignment returns the assignment with status
    ACCEPTED and [respondedAt] set to the clock's reading; the stored
    assignment and the stored order are updated (a later [findById] returns
    the ACCEPTED assignment and the ASSIGNED order); and exactly one row is
    added to the events: type ASSIGNED, the order and the courier of the
    assignment, the assignment id and the courier id in its payload. *)
Theorem AcceptAssignment_accepts
    (assignmentId : str) (w : World) (a : Assignment.t) (o : Order.t) :
  AssignmentRepository.findById (AssignmentId.mk assignmentId) w = (Ok (Some a), w) ->
  AssignmentStatus.value (Assignment.status a) = AssignmentStatusType.PENDING ->
  OrderRepository.findById (Assignment.orderId a) w = (Ok (Some o), w) ->
  OrderStatus.value (Order.status o) = OrderStatusType.READY_TO_SHIP ->
  JS.truthy (uuids w (drawn w)) = true ->
  (forall e, In e (deliveryEventTable w) ->
             DeliveryEventOrmEntity.id e <> uuids w (drawn w)) ->
  exists w',
    AcceptAssignmentUseCase_execute JSON_stringify assignmentId w
    = (Ok (Assignment.set_respondedAt
             (Assignment.set_status a (AssignmentStatus.mk AssignmentStatusType.ACCEPTED))
             (Some (clock w (ticks w)))), w')
    /\ assignmentTable w'
       = TypeOrm.updated AssignmentOrmEntity.id
           (AssignmentRepository.toEntity
              (Assignment.set_respondedAt
                 (Assignment.set_status a
                    (AssignmentStatus.mk AssignmentStatusType.ACCEPTED))
                 (Some (clock w (ticks w)))))
           (assignmentTable w)
    /\ orderTable w'
       = TypeOrm.updated OrderOrmEntity.id
           (OrderRepository.toEntity
              (Order.set_status o (OrderStatus.mk OrderStatusType.ASSIGNED)))
           (orderTable w)
    /\ deliveryEventTable w'
       = deliveryEventTable w
         ++ [ DeliveryEventOrmEntity.mk
                (uuids w (drawn w))
                (OrderId.value (Assignment.orderId a))
                (Some (AccountId.value (Assignment.courierId a)))
                (lit "ASSIGNED")
                (Some (JSON_stringify
                         [ ("assignmentId"%string, assignmentId);
                           ("courierId"%string,
                            AccountId.value (Assignment.courierId a)) ]))
                (clock w (S (ticks w))) ]
    /\ AssignmentRepository.findById (AssignmentId.mk assignmentId) w'
       = (Ok (Some (Assignment.set_respondedAt
                      (Assignment.set_status a
                         (AssignmentStatus.mk AssignmentStatusType.ACCEPTED))
                      (Some (clock w (ticks w))))), w')
    /\ OrderRepository.findById (Assignment.orderId a) w'
       = (Ok (Some (Order.set_status o (OrderStatus.mk OrderStatusType.ASSIGNED))),
          w').
Proof.
  intros Ha Hst Ho Hso Hu Hfresh.
  apply AssignmentRepository_findOneBy_some in Ha as (_ & ea & Hfa & Hda).
  pose proof (AssignmentRepository_toDomain_wf _ _ _ _ Hda) as Hwf.
  pose proof (AssignmentRepository_toDomain_ok _ _ _ _ Hda)
    as (sa & _ & Ea & Hti & _ & _).
  apply find_first in Hfa as Hfa'. destruct Hfa' as (_ & _ & _ & Hid & _).
  simpl in Hid. apply str_eqb_eq in Hid.
  apply OrderRepository_findById_some in Ho as (_ & eo & Hfo & Hdo).
  pose proof (OrderRepository_toDomain_ok _ _ _ _ Hdo) as (Howf & Hoid & _).
  set (a' := Assignment.set_respondedAt _ _).
  set (o' := Order.set_status _ _).
  assert (Hwf' : Assignment_wf a') by exact Hwf.
  unfold AcceptAssignmentUseCase_execute.
  (* new AssignmentId(assignmentId) *)
  rewrite (bind_ok _ _ w w (AssignmentId.mk assignmentId)).
  2:{ unfold lift, AssignmentId.new. rewrite <- Hid, Hti. reflexivity. }
  (* findById *)
  rewrite (bind_ok _ _ w w (Some a)).
  2:{ now apply AssignmentRepository_findOneBy_found with (e := ea). }
  (* accept *)
  rewrite (bind_ok _ _ _ _ _ (Assignment_accept_pending a w Hst)). fold a'.
  (* update *)
  assert (Hfa' : List.find (TypeOrm.samePrimary AssignmentOrmEntity.id
                                (AssignmentRepository.toEntity a'))
                             (assignmentTable w) = Some ea).
  { unfold TypeOrm.samePrimary. simpl. rewrite Ea. simpl. rewrite Hid.
    rewrite <- Hfa. reflexivity. }
  assert (Hsave : TypeOrm.save AssignmentOrmEntity.id [AssignmentOrmEntity.orderId]
                    (AssignmentRepository.toEntity a') (assignmentTable w)
                  = Some (TypeOrm.updated AssignmentOrmEntity.id
                            (AssignmentRepository.toEntity a') (assignmentTable w))).
  { apply save_update with (old := ea); [exact Hfa'|].
    intros col [<- | []]. subst a. reflexivity. }
  rewrite (bind_ok _ _ _ _ _
             (AssignmentRepository_update_ok a' (tick w) _ Hwf' Hsave)).
  clear Hsave.
  (* orderRepository.findById(assignment.orderId) *)
  erewrite bind_ok.
  2:{ apply OrderRepository_findById_found with (e := eo); [exact Hfo|].
      rewrite OrderRepository_toDomain_any_world with (w := w). now rewrite Hdo. }
  cbv beta iota.
  (* order.assign() *)
  erewrite bind_ok with (a := o').
  2:{ unfold lift, Order.assign, OrderStatus.canBeAssigned. rewrite Hso. reflexivity. }
  (* orderRepository.update(order) *)
  apply find_first in Hfo as Hoe. destruct Hoe as (_ & _ & _ & Hoe & _).
  simpl in Hoe. apply str_eqb_eq in Hoe.
  assert (Hfo' : List.find (TypeOrm.samePrimary OrderOrmEntity.id
                                (OrderRepository.toEntity o'))
                             (orderTable w) = Some eo).
  { unfold TypeOrm.samePrimary. simpl. rewrite Hoid. simpl.
    rewrite Hoe. exact Hfo. }
  assert (Hsave : TypeOrm.save OrderOrmEntity.id []
                    (OrderRepository.toEntity o') (orderTable w)
                  = Some (TypeOrm.updated OrderOrmEntity.id
                            (OrderRepository.toEntity o') (orderTable w))).
  { apply save_update with (old := eo); [exact Hfo'|intros col []]. }
  erewrite bind_ok.
  2:{ apply OrderRepository_update_ok; [now apply Order_wf_set_status | exact Hsave]. }
  clear Hsave.
  (* uuidv4(), new DeliveryEventId, new EventType, new DeliveryEvent *)
  erewrite bind_ok by reflexivity.
  erewrite bind_ok.
  2:{ unfold lift, DeliveryEventId.new. simpl. rewrite Hu. reflexivity. }
  erewrite bind_ok by reflexivity.
  erewrite bind_ok by reflexivity.
  (* deliveryEventRepository.save(event) *)
  erewrite bind_ok.
  2:{ apply DeliveryEventRepository_save_ok.
      - destruct Hwf as (_ & Hwo & Hwc). repeat split; assumption.
      - apply save_insert; [|intros col r []].
        intros r Hr. simpl. now apply Hfresh. }
  eexists. split; [reflexivity|]. simpl.
  split; [reflexivity|]. split; [reflexivity|]. split; [reflexivity|]. split.
  - apply AssignmentRepository_findOneBy_found
      with (e := AssignmentRepository.toEntity a').
    + simpl assignmentTable.
      apply find_updated in Hfa'. rewrite <- Hfa'. unfold TypeOrm.samePrimary.
      simpl. rewrite Ea. simpl. rewrite Hid. reflexivity.
    + now apply AssignmentRepository_toDomain_toEntity.
  - apply OrderRepository_findById_found with (e := OrderRepository.toEntity o').
    + simpl orderTable.
      apply find_updated in Hfo'. rewrite <- Hfo'. unfold TypeOrm.samePrimary.
      simpl. rewrite Hoid. simpl. rewrite Hoe. reflexivity.
    + apply OrderRepository_toDomain_toEntity. now apply Order_wf_set_status.
Qed.

(** C6. When the stored assignment is not PENDING (ACCEPTED already, for
    one), AcceptAssignment fails with the invalid-state error of [accept] and
    the world is exactly as before: no table is written, no clock is read
    and no uuid is drawn. *)
Theorem AcceptAssignment_refused
    (assignmentId : str) (w : World) (a : Assignment.t) :
  AssignmentRepository.findById (AssignmentId.mk assignmentId) w = (Ok (Some a), w) ->
  AssignmentStatus.value (Assignment.status a) <> AssignmentStatusType.PENDING ->
  AcceptAssignmentUseCase_execute JSON_stringify assignmentId w
  = (Err OnlyPendingCanBeAccepted, w).
Proof.
  intros Ha Hst.
  apply AssignmentRepository_findOneBy_some in Ha as Ha'.
  destruct Ha' as (_ & ea & Hfa & Hda).
  pose proof (AssignmentRepository_toDomain_ok _ _ _ _ Hda)
    as (sa & _ & Ea & Hti & _ & _).
  apply find_first in Hfa as (_ & _ & _ & Hid & _).
  simpl in Hid. apply str_eqb_eq in Hid. subst assignmentId.
  unfold AcceptAssignmentUseCase_execute.
  erewrite bind_ok.
  2:{ unfold lift, AssignmentId.new. rewrite Hti. reflexivity. }
  erewrite bind_ok by exact Ha.
  cbv beta iota.
  erewrite bind_err by (now apply Assignment_accept_refused).
  reflexivity.
Qed.

End UseCaseProperties.

(** ** The query for the active assignment *)

(** C4. The query for the active assignment misses an active one. In the
    store whose only assignment of the order is ACCEPTED, the assignment of
    the order exists and [isActive] holds of it, yet [findActiveByOrderId]
    returns null: the query does not filter by status PENDING or ACCEPTED.
    Nor does it return the assignment of the order whatever its status. *)
Lemma findActiveByOrderId_misses_accepted :
  AssignmentRepository.findByOrderId (OrderId.mk (lit "order-1")) world_accepted
  = (Ok (Some (demo_assignment AssignmentStatusType.ACCEPTED (Some 2500%Z))),
     world_accepted)
  /\ Assignment.isActive (demo_assignment AssignmentStatusType.ACCEPTED (Some 2500%Z))
     = true
  /\ AssignmentRepository.findActiveByOrderId (OrderId.mk (lit "order-1"))
       world_accepted
     = (Ok None, world_accepted)
  /\ ~ (forall (orderId : OrderId.t) (w : World),
          AssignmentRepository.findActiveByOrderId orderId w
          = AssignmentRepository.findByOrderId orderId w).
Proof.
  split; [reflexivity|]. split; [reflexivity|]. split; [reflexivity|].
  intros H.
  specialize (H (OrderId.mk (lit "order-1")) world_accepted).
  discriminate H.
Qed.

(** What the query does instead. The status it compares with is the value
    of ['PENDING' || 'ACCEPTED'], which is ['PENDING']: the query returns
    the first row of the order, in the table's list, whose status is
    PENDING, converted to an assignment, and null when the order has no such
    row. *)
Theorem findActiveByOrderId_pending_only (orderId : OrderId.t) (w : World) :
  JS.or (lit "PENDING") (lit "ACCEPTED")
  = AssignmentStatusType.code AssignmentStatusType.PENDING
  /\ (forall a w',
         AssignmentRepository.findActiveByOrderId orderId w = (Ok (Some a), w') ->
         w' = w
         /\ Assignment.orderId a = orderId
         /\ AssignmentStatus.value (Assignment.status a) = AssignmentStatusType.PENDING
         /\ exists pre e post,
              assignmentTable w = pre ++ e :: post
              /\ AssignmentRepository.toDomain e w = (Ok a, w)
              /\ forall r, In r pre ->
                   AssignmentOrmEntity.orderId r = OrderId.value orderId ->
                   AssignmentOrmEntity.status r <> lit "PENDING")
  /\ (forall pre e post a,
         assignmentTable w = pre ++ e :: post ->
         (forall r, In r pre ->
            AssignmentOrmEntity.orderId r = OrderId.value orderId ->
            AssignmentOrmEntity.status r <> lit "PENDING") ->
         AssignmentOrmEntity.orderId e = OrderId.value orderId ->
         AssignmentOrmEntity.status e = lit "PENDING" ->
         AssignmentRepository.toDomain e w = (Ok a, w) ->
         AssignmentRepository.findActiveByOrderId orderId w = (Ok (Some a), w))
  /\ ((forall r, In r (assignmentTable w) ->
         AssignmentOrmEntity.orderId r = OrderId.value orderId ->
         AssignmentOrmEntity.status r <> lit "PENDING") ->
      AssignmentRepository.findActiveByOrderId orderId w = (Ok None, w)).
Proof.
  split; [reflexivity|]. split; [|split].
  - intros a w' H.
    apply AssignmentRepository_findOneBy_some in H as (-> & e & Hf & Hd).
    apply find_first in Hf as (pre & post & Ht & Hp & Hpre).
    apply andb_true_iff in Hp as [Ho Hs]. apply str_eqb_eq in Ho, Hs.
    pose proof (AssignmentRepository_toDomain_ok _ _ _ _ Hd)
      as (sa & Hsa & Ea & _).
    split; [reflexivity|]. split; [|split].
    + rewrite Ea. simpl. rewrite Ho. now destruct orderId.
    + rewrite Ea. simpl. rewrite Hs in Hsa. now injection Hsa as <-.
    + exists pre, e, post. split; [exact Ht|]. split; [exact Hd|].
      intros r Hr Hro Hrs. specialize (Hpre r Hr). simpl in Hpre.
      rewrite Hro, Hrs, !str_eqb_refl in Hpre. discriminate.
  - intros pre e post a Ht Hpre Ho Hs Hd.
    apply AssignmentRepository_findOneBy_found with (e := e); [|exact Hd].
    rewrite Ht. clear Ht.
    change (JS.or (lit "PENDING") (lit "ACCEPTED")) with (lit "PENDING").
    induction pre as [|r pre IH]; cbn [app List.find].
    + now rewrite Ho, Hs, !str_eqb_refl.
    + destruct (JS.str_eqb (AssignmentOrmEntity.orderId r) (OrderId.value orderId))
        eqn:Er; cbn [andb].
      * apply str_eqb_eq in Er.
        rewrite (proj2 (str_eqb_neq _ _) (Hpre r (or_introl eq_refl) Er)).
        apply IH. intros r' Hr'. apply Hpre. now right.
      * apply IH. intros r' Hr'. apply Hpre. now right.
  - intros H. apply AssignmentRepository_findOneBy_none.
    apply find_nothing. intros r Hr.
    apply andb_false_iff.
    destruct (JS.str_eqb (AssignmentOrmEntity.orderId r) (OrderId.value orderId))
      eqn:Ho; [right | now left].
    apply str_eqb_eq in Ho. apply str_eqb_neq. exact (H r Hr Ho).
Qed.

(** ** OfferAssignment *)

Lemma OrderRepository_findById_none id w :
  (forall r, In r (orderTable w) -> OrderOrmEntity.id r <> OrderId.value id) ->
  OrderRepository.findById id w = (Ok None, w).
Proof.
  intros H. unfold OrderRepository.findById, TypeOrm.findOne.
  rewrite find_nothing; [reflexivity|].
  intros r Hr. apply str_eqb_neq. now apply H.
Qed.

Lemma OrderRepository_findById_id id w o w' :
  OrderRepository.findById id w = (Ok (Some o), w') -> Order.id o = id.
Proof.
  intros H. apply OrderRepository_findById_some in H as (_ & e & Hf & Hd).
  apply OrderRepository_toDomain_ok in Hd as (_ & -> & _).
  apply find_first in Hf as (_ & _ & _ & He & _). apply str_eqb_eq in He.
  rewrite He. now destruct id.
Qed.

Lemma Order_canBeAssigned_ready (o : Order.t) :
  OrderStatus.value (Order.status o) = OrderStatusType.READY_TO_SHIP ->
  Order.canBeAssigned o = true.
Proof.
  unfold Order.canBeAssigned, OrderStatus.canBeAssigned. now intros ->.
Qed.

(** No order under that identifier: the not-found error, nothing written. *)
Lemma OfferAssignment_order_not_found (orderId courierId : str) (w : World) :
  JS.truthy orderId = true ->
  (forall r, In r (orderTable w) -> OrderOrmEntity.id r <> orderId) ->
  OfferAssignmentUseCase_execute orderId courierId w = (Err OrderNotFound, w).
Proof.
  intros Ht H. unfold OfferAssignmentUseCase_execute.
  erewrite bind_ok by (unfold lift, OrderId.new; rewrite Ht; reflexivity).
  erewrite bind_ok by (now apply OrderRepository_findById_none).
  reflexivity.
Qed.

(** The order is not READY_TO_SHIP: refused, nothing written. *)
Lemma OfferAssignment_not_ready (orderId courierId : str) (w : World) (o : Order.t) :
  OrderRepository.findById (OrderId.mk orderId) w = (Ok (Some o), w) ->
  OrderStatus.value (Order.status o) <> OrderStatusType.READY_TO_SHIP ->
  OfferAssignmentUseCase_execute orderId courierId w = (Err OrderCannotBeAssigned, w).
Proof.
  intros Ho Hs. unfold OfferAssignmentUseCase_execute.
  assert (Ht : JS.truthy orderId = true).
  { apply OrderRepository_findById_some in Ho as Ho'.
    destruct Ho' as (_ & e & _ & Hd).
    apply OrderRepository_findById_id in Ho.
    apply OrderRepository_toDomain_ok in Hd as ((Hi & _) & _).
    now rewrite Ho in Hi. }
  erewrite bind_ok by (unfold lift, OrderId.new; rewrite Ht; reflexivity).
  erewrite bind_ok by exact Ho.
  cbv beta iota. unfold Order.canBeAssigned, OrderStatus.canBeAssigned.
  destruct (OrderStatus.value (Order.status o)); try reflexivity.
  now contradiction Hs.
Qed.

(** The repository reports an active assignment: the conflict error,
    nothing written. *)
Lemma OfferAssignment_conflict
    (orderId courierId : str) (w : World) (o : Order.t) (a : Assignment.t) :
  OrderRepository.findById (OrderId.mk orderId) w = (Ok (Some o), w) ->
  OrderStatus.value (Order.status o) = OrderStatusType.READY_TO_SHIP ->
  AssignmentRepository.findActiveByOrderId (OrderId.mk orderId) w = (Ok (Some a), w) ->
  OfferAssignmentUseCase_execute orderId courierId w = (Err ActiveAssignmentExists, w).
Proof.
  intros Ho Hs Ha. unfold OfferAssignmentUseCase_execute.
  assert (Ht : JS.truthy orderId = true).
  { apply OrderRepository_findById_some in Ho as Ho'.
    destruct Ho' as (_ & e & _ & Hd).
    pose proof (OrderRepository_findById_id _ _ _ _ Ho) as Hid.
    apply OrderRepository_toDomain_ok in Hd as ((Hi & _) & _).
    now rewrite Hid in Hi. }
  pose proof (OrderRepository_findById_id _ _ _ _ Ho) as Hid.
  erewrite bind_ok by (unfold lift, OrderId.new; rewrite Ht; reflexivity).
  erewrite bind_ok by exact Ho.
  cbv beta iota. rewrite (Order_canBeAssigned_ready o Hs).
  change (negb true) with false. cbv iota.
  rewrite Hid.
  erewrite bind_ok by exact Ha.
  reflexivity.
Qed.

(** The order has no assignment yet: a PENDING assignment of the courier is
    inserted and returned; the other tables are left as they were. *)
Lemma OfferAssignment_offers
    (orderId courierId : str) (w : World) (o : Order.t) :
  OrderRepository.findById (OrderId.mk orderId) w = (Ok (Some o), w) ->
  OrderStatus.value (Order.status o) = OrderStatusType.READY_TO_SHIP ->
  (forall r, In r (assignmentTable w) -> AssignmentOrmEntity.orderId r <> orderId) ->
  JS.truthy courierId = true ->
  JS.truthy (uuids w (drawn w)) = true ->
  (forall r, In r (assignmentTable w) ->
             AssignmentOrmEntity.id r <> uuids w (drawn w)) ->
  exists (a : Assignment.t) (w' : World),
    OfferAssignmentUseCase_execute orderId courierId w = (Ok a, w')
    /\ a = Assignment.mk (AssignmentId.mk (uuids w (drawn w))) (OrderId.mk orderId)
                         (AccountId.mk courierId)
                         (AssignmentStatus.mk AssignmentStatusType.PENDING)
                         (clock w (ticks w)) None
    /\ assignmentTable w' = assignmentTable w ++ [AssignmentRepository.toEntity a]
    /\ orderTable w' = orderTable w
    /\ deliveryEventTable w' = deliveryEventTable w.
Proof.
  intros Ho Hs Hnone Hc Hu Hfresh. unfold OfferAssignmentUseCase_execute.
  assert (Ht : JS.truthy orderId = true).
  { apply OrderRepository_findById_some in Ho as Ho'.
    destruct Ho' as (_ & e & _ & Hd).
    pose proof (OrderRepository_findById_id _ _ _ _ Ho) as Hid.
    apply OrderRepository_toDomain_ok in Hd as ((Hi & _) & _).
    now rewrite Hid in Hi. }
  pose proof (OrderRepository_findById_id _ _ _ _ Ho) as Hid.
  erewrite bind_ok by (unfold lift, OrderId.new; rewrite Ht; reflexivity).
  erewrite bind_ok by exact Ho.
  cbv beta iota. rewrite (Order_canBeAssigned_ready o Hs).
  change (negb true) with false. cbv iota.
  rewrite Hid.
  erewrite bind_ok.
  2:{ apply AssignmentRepository_findOneBy_none. apply find_nothing.
      intros r Hr. apply andb_false_iff. left. apply str_eqb_neq.
      simpl. now apply Hnone. }
  cbv beta iota.
  erewrite bind_ok by reflexivity.
  erewrite bind_ok by (unfold lift, AssignmentId.new; simpl; rewrite Hu; reflexivity).
  erewrite bind_ok by (unfold lift, AccountId.new; rewrite Hc; reflexivity).
  erewrite bind_ok by reflexivity.
  erewrite bind_ok by reflexivity.
  eexists. eexists. split.
  - apply AssignmentRepository_save_ok.
    + repeat split; assumption.
    + apply save_insert.
      * intros r Hr. simpl. now apply Hfresh.
      * intros col r [<- | []] Hr. simpl. now apply Hnone.
  - simpl. repeat split.
Qed.

(** C5 at the store in which the order is READY_TO_SHIP and already has an
    ACCEPTED, hence active, assignment. [findActiveByOrderId] looks for
    PENDING only and finds nothing, so the use case does not raise the
    conflict error: it builds a second assignment and tries to insert it.
    The insert is refused by the unique [order_id] column, so the call ends
    in the database's error, after a uuid was drawn and the clock read. *)
Theorem OfferAssignment_misses_accepted :
  OrderRepository.findById (OrderId.mk (lit "order-1")) world_accepted
  = (Ok (Some demo_order), world_accepted)
  /\ Order.canBeAssigned demo_order = true
  /\ AssignmentRepository.findByOrderId (OrderId.mk (lit "order-1")) world_accepted
     = (Ok (Some (demo_assignment AssignmentStatusType.ACCEPTED (Some 2500%Z))),
        world_accepted)
  /\ Assignment.isActive (demo_assignment AssignmentStatusType.ACCEPTED (Some 2500%Z))
     = true
  /\ AssignmentRepository.findActiveByOrderId (OrderId.mk (lit "order-1"))
       world_accepted
     = (Ok None, world_accepted)
  /\ OfferAssignmentUseCase_execute (lit "order-1") (lit "courier-2") world_accepted
     = (Err QueryFailed, tick (draw world_accepted))
  /\ fst (OfferAssignmentUseCase_execute (lit "order-1") (lit "courier-2")
            world_accepted)
     <> Err ActiveAssignmentExists.
Proof.
  repeat split; try reflexivity. discriminate.
Qed.

(** With a PENDING assignment in the store the same call does raise the
    conflict error and writes nothing. *)
Example OfferAssignment_detects_pending :
  OfferAssignmentUseCase_execute (lit "order-1") (lit "courier-2") world_pending
  = (Err ActiveAssignmentExists, world_pending).
Proof. reflexivity. Qed.

(** ** The use cases on the examples *)

(** C3 on the example: accepting assignment-1 in the store where it is
    PENDING. *)
Lemma AcceptAssignment_accepts_witness :
  AssignmentRepository.findById (AssignmentId.mk (lit "assignment-1")) world_pending
  = (Ok (Some (demo_assignment AssignmentStatusType.PENDING None)), world_pending)
  /\ OrderRepository.findById (OrderId.mk (lit "order-1")) world_pending
     = (Ok (Some demo_order), world_pending)
  /\ exists w',
       AcceptAssignmentUseCase_execute demo_stringify (lit "assignment-1") world_pending
       = (Ok (demo_assignment AssignmentStatusType.ACCEPTED (Some 3000%Z)), w')
       /\ assignmentTable w' = [demo_assignment_row (lit "ACCEPTED") (Some 3000%Z)]
       /\ map OrderOrmEntity.status (orderTable w') = [lit "ASSIGNED"]
       /\ map DeliveryEventOrmEntity.type (deliveryEventTable w') = [lit "ASSIGNED"].
Proof.
  split; [reflexivity|]. split; [reflexivity|].
  destruct (AcceptAssignment_accepts demo_stringify (lit "assignment-1") world_pending
              (demo_assignment AssignmentStatusType.PENDING None) demo_order)
    as (w' & E & Ha & Ho & Hev & _).
  - reflexivity.
  - reflexivity.
  - reflexivity.
  - reflexivity.
  - reflexivity.
  - intros e [].
  - exists w'. split; [exact E|]. rewrite Ha, Ho, Hev. repeat split.
Defined.

(** C6 on the example: accepting assignment-1 in the store where it is
    ACCEPTED already. *)
Lemma AcceptAssignment_refused_witness :
  AssignmentRepository.findById (AssignmentId.mk (lit "assignment-1")) world_accepted
  = (Ok (Some (demo_assignment AssignmentStatusType.ACCEPTED (Some 2500%Z))),
     world_accepted)
  /\ AcceptAssignmentUseCase_execute demo_stringify (lit "assignment-1") world_accepted
     = (Err OnlyPendingCanBeAccepted, world_accepted).
Proof.
  split; [reflexivity|].
  apply (AcceptAssignment_refused demo_stringify (lit "assignment-1") world_accepted
           (demo_assignment AssignmentStatusType.ACCEPTED (Some 2500%Z))).
  - reflexivity.
  - discriminate.
Defined.


(** * Further properties *)

(** ** Reading back what was written *)

Lemma OrderRepository_findById_inserted (o : Order.t) (w w' : World) :
  Order_wf o ->
  (forall r, In r (orderTable w) -> OrderOrmEntity.id r <> OrderId.value (Order.id o)) ->
  orderTable w' = orderTable w ++ [OrderRepository.toEntity o] ->
  OrderRepository.findById (Order.id o) w' = (Ok (Some o), w').
Proof.
  intros Hwf Hfresh Ht.
  apply OrderRepository_findById_found with (e := OrderRepository.toEntity o).
  - rewrite Ht. apply find_inserted.
    + intros r Hr. apply str_eqb_neq. now apply Hfresh.
    + apply str_eqb_refl.
  - now apply OrderRepository_toDomain_toEntity.
Qed.

Lemma OrderRepository_findById_updated (o : Order.t) (old : OrderOrmEntity.t) (w w' : World) :
  Order_wf o ->
  List.find (TypeOrm.samePrimary OrderOrmEntity.id (OrderRepository.toEntity o))
            (orderTable w) = Some old ->
  orderTable w' = TypeOrm.updated OrderOrmEntity.id (OrderRepository.toEntity o)
                    (orderTable w) ->
  OrderRepository.findById (Order.id o) w' = (Ok (Some o), w').
Proof.
  intros Hwf Hf Ht.
  apply OrderRepository_findById_found with (e := OrderRepository.toEntity o).
  - rewrite Ht. exact (find_updated _ _ _ _ _ Hf).
  - now apply OrderRepository_toDomain_toEntity.
Qed.

(** The row a successful [findById] converts has the identifier asked for,
    and is the one [save] would update. *)
Lemma OrderRepository_findById_row (id : OrderId.t) (w w' : World) (o : Order.t) :
  OrderRepository.findById id w = (Ok (Some o), w') ->
  Order.id o = id /\ Order_wf o
  /\ exists old,
       forall s, List.find (TypeOrm.samePrimary OrderOrmEntity.id
                              (OrderRepository.toEntity (Order.set_status o s)))
                           (orderTable w) = Some old.
Proof.
  intros H. pose proof (OrderRepository_findById_id _ _ _ _ H) as Hid.
  apply OrderRepository_findById_some in H as (_ & e & Hf & Hd).
  apply OrderRepository_toDomain_ok in Hd as (Hwf & _ & _).
  split; [exact Hid|]. split; [exact Hwf|].
  exists e. intros s. unfold TypeOrm.samePrimary. simpl. rewrite Hid. exact Hf.
Qed.

(** ** MarkReadyToShip *)

Section MarkReadyToShipProperties.
Variable JSON_stringify : list (string * str) -> str.

(** The READY_TO_SHIP event the use case writes for an order. *)
Lemma MarkReadyToShip_run (orderId : str) (w : World) (o : Order.t) :
  OrderRepository.findById (OrderId.mk orderId) w = (Ok (Some o), w) ->
  OrderStatus.value (Order.status o) = OrderStatusType.PLACED ->
  JS.truthy (uuids w (drawn w)) = true ->
  (forall e, In e (deliveryEventTable w) ->
             DeliveryEventOrmEntity.id e <> uuids w (drawn w)) ->
  MarkReadyToShipUseCase_execute JSON_stringify orderId w
  = (Ok (Order.set_status o (OrderStatus.mk OrderStatusType.READY_TO_SHIP)),
     set_deliveryEventTable
       (deliveryEventTable w
        ++ [ DeliveryEventOrmEntity.mk (uuids w (drawn w)) orderId None
               (lit "READY_TO_SHIP")
               (Some (JSON_stringify [ ("status"%string, lit "READY_TO_SHIP") ]))
               (clock w (ticks w)) ])
       (tick (draw
          (set_orderTable
             (TypeOrm.updated OrderOrmEntity.id
                (OrderRepository.toEntity
                   (Order.set_status o (OrderStatus.mk OrderStatusType.READY_TO_SHIP)))
                (orderTable w))
             w)))).
Proof.
  intros Ho Hs Hu Hfresh.
  destruct (OrderRepository_findById_row _ _ _ _ Ho) as (Hid & Hwf & old & Hold).
  set (o' := Order.set_status o _).
  assert (Ht : JS.truthy orderId = true).
  { destruct Hwf as (Hi & _). now rewrite Hid in Hi. }
  unfold MarkReadyToShipUseCase_execute.
  erewrite bind_ok by (unfold lift, OrderId.new; rewrite Ht; reflexivity).
  erewrite bind_ok by exact Ho.
  cbv beta iota.
  erewrite bind_ok with (a := o').
  2:{ unfold lift, Order.markReadyToShip. rewrite Hs. reflexivity. }
  erewrite bind_ok.
  2:{ apply OrderRepository_update_ok; [now apply Order_wf_set_status|].
      apply save_update with (old := old); [apply Hold | intros col []]. }
  erewrite bind_ok by reflexivity.
  erewrite bind_ok.
  2:{ unfold lift, DeliveryEventId.new. simpl. rewrite Hu. reflexivity. }
  erewrite bind_ok by reflexivity.
  erewrite bind_ok by reflexivity.
  erewrite bind_ok.
  2:{ apply DeliveryEventRepository_save_ok.
      - destruct Hwf as (Hi & _). repeat split; simpl; auto.
      - apply save_insert; [|intros col r []].
        intros r Hr. simpl. now apply Hfresh. }
  unfold ret. simpl. rewrite Hid. reflexivity.
Qed.
End MarkReadyToShipProperties.

Lemma OrderRepository_findById_same_table (id : OrderId.t) (w w0 : World) :
  orderTable w0 = orderTable w ->
  OrderRepository.findById id w0 = (fst (OrderRepository.findById id w), w0).
Proof.
  intros Ht. unfold OrderRepository.findById, TypeOrm.findOne. rewrite Ht.
  destruct (List.find _ (orderTable w)) as [e|]; [|reflexivity].
  unfold bind, ret.
  rewrite (OrderRepository_toDomain_any_world e w w0).
  destruct (OrderRepository.toDomain e w) as [[o|err] w1]; reflexivity.
Qed.

Lemma AssignmentRepository_findById_row (id : AssignmentId.t) (w w' : World)
    (a : Assignment.t) :
  AssignmentRepository.findById id w = (Ok (Some a), w') ->
  Assignment.id a = id /\ Assignment_wf a
  /\ exists old,
       AssignmentOrmEntity.orderId old = OrderId.value (Assignment.orderId a)
       /\ forall s d,
            List.find (TypeOrm.samePrimary AssignmentOrmEntity.id
                         (AssignmentRepository.toEntity
                            (Assignment.set_respondedAt (Assignment.set_status a s) d)))
                      (assignmentTable w) = Some old.
Proof.
  intros H.
  apply AssignmentRepository_findOneBy_some in H as (_ & e & Hf & Hd).
  pose proof (AssignmentRepository_toDomain_wf _ _ _ _ Hd) as Hwf.
  apply AssignmentRepository_toDomain_ok in Hd as (sa & _ & Ea & _).
  apply find_first in Hf as Hp. destruct Hp as (_ & _ & _ & Hp & _).
  apply str_eqb_eq in Hp.
  assert (Hid : Assignment.id a = id).
  { rewrite Ea. simpl. rewrite Hp. now destruct id. }
  split; [exact Hid|]. split; [exact Hwf|].
  exists e. split; [now rewrite Ea|].
  intros s d. unfold TypeOrm.samePrimary. simpl. rewrite Hid. exact Hf.
Qed.

Lemma AssignmentRepository_findById_updated (a : Assignment.t)
    (old : AssignmentOrmEntity.t) (w w' : World) :
  Assignment_wf a ->
  List.find (TypeOrm.samePrimary AssignmentOrmEntity.id (AssignmentRepository.toEntity a))
            (assignmentTable w) = Some old ->
  assignmentTable w' = TypeOrm.updated AssignmentOrmEntity.id
                         (AssignmentRepository.toEntity a) (assignmentTable w) ->
  AssignmentRepository.findById (Assignment.id a) w' = (Ok (Some a), w').
Proof.
  intros Hwf Hf Ht.
  apply AssignmentRepository_findOneBy_found
    with (e := AssignmentRepository.toEntity a).
  - rewrite Ht. exact (find_updated _ _ _ _ _ Hf).
  - now apply AssignmentRepository_toDomain_toEntity.
Qed.

(** ** AcceptAssignment, step by step *)

(** The first half of the use case: the assignment is loaded, accepted and
    written back. *)
Lemma AcceptAssignment_first_write (assignmentId : str) (w : World) (a : Assignment.t)
    (k : Assignment.t -> Assignment.t -> M Assignment.t) :
  AssignmentRepository.findById (AssignmentId.mk assignmentId) w = (Ok (Some a), w) ->
  AssignmentStatus.value (Assignment.status a) = AssignmentStatusType.PENDING ->
  (aid <- lift (AssignmentId.new assignmentId) ;;
   assignment <- AssignmentRepository.findById aid ;;
   match assignment with
   | None => throw AssignmentNotFound
   | Some assignment =>
       assignment <- Assignment.accept assignment ;;
       updatedAssignment <- AssignmentRepository.update assignment ;;
       k assignment updatedAssignment
   end) w
  = k (Assignment.set_respondedAt
         (Assignment.set_status a (AssignmentStatus.mk AssignmentStatusType.ACCEPTED))
         (Some (clock w (ticks w))))
      (Assignment.set_respondedAt
         (Assignment.set_status a (AssignmentStatus.mk AssignmentStatusType.ACCEPTED))
         (Some (clock w (ticks w))))
      (set_assignmentTable
         (TypeOrm.updated AssignmentOrmEntity.id
            (AssignmentRepository.toEntity
               (Assignment.set_respondedAt
                  (Assignment.set_status a
                     (AssignmentStatus.mk AssignmentStatusType.ACCEPTED))
                  (Some (clock w (ticks w)))))
            (assignmentTable w))
         (tick w)).
Proof.
  intros Ha Hst.
  destruct (AssignmentRepository_findById_row _ _ _ _ Ha)
    as (Hid & Hwf & old & Hoid & Hold).
  assert (Ht : JS.truthy assignmentId = true).
  { destruct Hwf as (Hi & _). now rewrite Hid in Hi. }
  erewrite bind_ok by (unfold lift, AssignmentId.new; rewrite Ht; reflexivity).
  erewrite bind_ok by exact Ha.
  cbv beta iota.
  erewrite bind_ok by (now apply Assignment_accept_pending).
  erewrite bind_ok.
  2:{ apply AssignmentRepository_update_ok; [exact Hwf|].
      apply save_update with (old := old); [apply Hold|].
      intros col [<- | []]. exact Hoid. }
  reflexivity.
Qed.

Section AcceptAssignmentProperties.
Variable JSON_stringify : list (string * str) -> str.

(** The whole run of a successful AcceptAssignment, with the world it ends in. *)
Lemma AcceptAssignment_run
    (assignmentId : str) (w : World) (a : Assignment.t) (o : Order.t) :
  AssignmentRepository.findById (AssignmentId.mk assignmentId) w = (Ok (Some a), w) ->
  AssignmentStatus.value (Assignment.status a) = AssignmentStatusType.PENDING ->
  OrderRepository.findById (Assignment.orderId a) w = (Ok (Some o), w) ->
  OrderStatus.value (Order.status o) = OrderStatusType.READY_TO_SHIP ->
  JS.truthy (uuids w (drawn w)) = true ->
  (forall e, In e (deliveryEventTable w) ->
             DeliveryEventOrmEntity.id e <> uuids w (drawn w)) ->
  AcceptAssignmentUseCase_execute JSON_stringify assignmentId w
  = (Ok (Assignment.set_respondedAt
           (Assignment.set_status a (AssignmentStatus.mk AssignmentStatusType.ACCEPTED))
           (Some (clock w (ticks w)))),
     set_deliveryEventTable
       (deliveryEventTable w
        ++ [ DeliveryEventOrmEntity.mk
               (uuids w (drawn w))
               (OrderId.value (Assignment.orderId a))
               (Some (AccountId.value (Assignment.courierId a)))
               (lit "ASSIGNED")
               (Some (JSON_stringify
                        [ ("assignmentId"%string, assignmentId);
                          ("courierId"%string,
                           AccountId.value (Assignment.courierId a)) ]))
               (clock w (S (ticks w))) ])
       (tick (draw
          (set_orderTable
             (TypeOrm.updated OrderOrmEntity.id
                (OrderRepository.toEntity
                   (Order.set_status o (OrderStatus.mk OrderStatusType.ASSIGNED)))
                (orderTable w))
             (set_assignmentTable
                (TypeOrm.updated AssignmentOrmEntity.id
                   (AssignmentRepository.toEntity
                      (Assignment.set_respondedAt
                         (Assignment.set_status a
                            (AssignmentStatus.mk AssignmentStatusType.ACCEPTED))
                         (Some (clock w (ticks w)))))
                   (assignmentTable w))
                (tick w)))))).
Proof.
  intros Ha Hst Ho Hso Hu Hfresh.
  destruct (AssignmentRepository_findById_row _ _ _ _ Ha) as (_ & Hwf & _).
  destruct (OrderRepository_findById_row _ _ _ _ Ho) as (_ & Howf & old & Hold).
  unfold AcceptAssignmentUseCase_execute.
  rewrite (AcceptAssignment_first_write assignmentId w a _ Ha Hst).
  set (w1 := set_assignmentTable _ (tick w)).
  erewrite bind_ok with (a := Some o).
  2:{ rewrite (OrderRepository_findById_same_table _ w w1) by reflexivity.
      simpl Assignment.orderId. now rewrite Ho. }
  cbv beta iota.
  erewrite bind_ok.
  2:{ unfold lift, Order.assign, OrderStatus.canBeAssigned. rewrite Hso. reflexivity. }
  erewrite bind_ok.
  2:{ apply OrderRepository_update_ok; [now apply Order_wf_set_status|].
      apply save_update with (old := old); [apply Hold | intros col []]. }
  erewrite bind_ok by reflexivity.
  erewrite bind_ok.
  2:{ unfold lift, DeliveryEventId.new. simpl. rewrite Hu. reflexivity. }
  erewrite bind_ok by reflexivity.
  erewrite bind_ok by reflexivity.
  erewrite bind_ok.
  2:{ apply DeliveryEventRepository_save_ok.
      - destruct Hwf as (_ & Hwo & Hwc). repeat split; assumption.
      - apply save_insert; [|intros col r []].
        intros r Hr. simpl. now apply Hfresh. }
  reflexivity.
Qed.

(** A stored assignment that is not PENDING is refused before any write. *)
Lemma AcceptAssignment_not_pending (assignmentId : str) (w : World) (a : Assignment.t) :
  AssignmentRepository.findById (AssignmentId.mk assignmentId) w = (Ok (Some a), w) ->
  AssignmentStatus.value (Assignment.status a) <> AssignmentStatusType.PENDING ->
  AcceptAssignmentUseCase_execute JSON_stringify assignmentId w
  = (Err OnlyPendingCanBeAccepted, w).
Proof.
  intros Ha Hst.
  destruct (AssignmentRepository_findById_row _ _ _ _ Ha) as (Hid & Hwf & _).
  assert (Ht : JS.truthy assignmentId = true).
  { destruct Hwf as (Hi & _). now rewrite Hid in Hi. }
  unfold AcceptAssignmentUseCase_execute.
  erewrite bind_ok by (unfold lift, AssignmentId.new; rewrite Ht; reflexivity).
  erewrite bind_ok by exact Ha.
  cbv beta iota.
  erewrite bind_err by (now apply Assignment_accept_refused).
  reflexivity.
Qed.

(** X1. AcceptAssignment is not atomic. When the assignment is PENDING but its
    order is missing, or is not READY_TO_SHIP, the call fails after the
    assignment was written: the assignment is left ACCEPTED in the store,
    the order table and the events are as before, and a second call is
    refused because the assignment is no longer PENDING. *)
Theorem AcceptAssignment_fails_half_done
    (assignmentId : str) (w : World) (a : Assignment.t) :
  AssignmentRepository.findById (AssignmentId.mk assignmentId) w = (Ok (Some a), w) ->
  AssignmentStatus.value (Assignment.status a) = AssignmentStatusType.PENDING ->
  OrderRepository.findById (Assignment.orderId a) w = (Ok None, w)
  \/ (exists o, OrderRepository.findById (Assignment.orderId a) w = (Ok (Some o), w)
                /\ OrderStatus.value (Order.status o) <> OrderStatusType.READY_TO_SHIP) ->
  exists (e : Error) (w' : World),
    AcceptAssignmentUseCase_execute JSON_stringify assignmentId w = (Err e, w')
    /\ (e = OrderNotFound \/ e = OnlyReadyToShipCanBeAssigned)
    /\ AssignmentRepository.findById (AssignmentId.mk assignmentId) w'
       = (Ok (Some (Assignment.set_respondedAt
                      (Assignment.set_status a
                         (AssignmentStatus.mk AssignmentStatusType.ACCEPTED))
                      (Some (clock w (ticks w))))), w')
    /\ orderTable w' = orderTable w
    /\ deliveryEventTable w' = deliveryEventTable w
    /\ AcceptAssignmentUseCase_execute JSON_stringify assignmentId w'
       = (Err OnlyPendingCanBeAccepted, w').
Proof.
  intros Ha Hst Ho.
  destruct (AssignmentRepository_findById_row _ _ _ _ Ha)
    as (Hid & Hwf & old & _ & Hold).
  set (a' := Assignment.set_respondedAt
               (Assignment.set_status a
                  (AssignmentStatus.mk AssignmentStatusType.ACCEPTED))
               (Some (clock w (ticks w)))).
  set (w1 := set_assignmentTable
               (TypeOrm.updated AssignmentOrmEntity.id
                  (AssignmentRepository.toEntity a') (assignmentTable w))
               (tick w)).
  assert (Hback : AssignmentRepository.findById (AssignmentId.mk assignmentId) w1
                  = (Ok (Some a'), w1)).
  { rewrite <- Hid.
    apply (AssignmentRepository_findById_updated a' old w w1 Hwf (Hold _ _)).
    reflexivity. }
  assert (Hrun : exists e,
             AcceptAssignmentUseCase_execute JSON_stringify assignmentId w = (Err e, w1)
             /\ (e = OrderNotFound \/ e = OnlyReadyToShipCanBeAssigned)).
  { unfold AcceptAssignmentUseCase_execute.
    rewrite (AcceptAssignment_first_write assignmentId w a _ Ha Hst).
    fold a'. fold w1.
    destruct Ho as [Ho | (o & Ho & Hso)].
    - exists OrderNotFound. split; [|now left].
      erewrite bind_ok with (a := @None Order.t).
      2:{ rewrite (OrderRepository_findById_same_table _ w w1) by reflexivity.
          simpl Assignment.orderId. now rewrite Ho. }
      reflexivity.
    - exists OnlyReadyToShipCanBeAssigned. split; [|now right].
      erewrite bind_ok with (a := Some o).
      2:{ rewrite (OrderRepository_findById_same_table _ w w1) by reflexivity.
          simpl Assignment.orderId. now rewrite Ho. }
      cbv beta iota.
      erewrite bind_err; [reflexivity|].
      unfold lift, Order.assign, OrderStatus.canBeAssigned.
      destruct (OrderStatus.value (Order.status o)); try reflexivity.
      now contradiction Hso. }
  destruct Hrun as (e & Hrun & He).
  exists e, w1. split; [exact Hrun|]. split; [exact He|].
  split; [exact Hback|]. split; [reflexivity|]. split; [reflexivity|].
  apply AcceptAssignment_not_pending with (a := a'); [exact Hback|discriminate].
Qed.
End AcceptAssignmentProperties.

(** ** PlaceOrder and OfferAssignment, with the world they end in *)

Lemma AssignmentRepository_findById_inserted (a : Assignment.t) (w w' : World) :
  Assignment_wf a ->
  (forall r, In r (assignmentTable w) ->
             AssignmentOrmEntity.id r <> AssignmentId.value (Assignment.id a)) ->
  assignmentTable w' = assignmentTable w ++ [AssignmentRepository.toEntity a] ->
  AssignmentRepository.findById (Assignment.id a) w' = (Ok (Some a), w').
Proof.
  intros Hwf Hfresh Ht.
  apply AssignmentRepository_findOneBy_found
    with (e := AssignmentRepository.toEntity a).
  - rewrite Ht. apply find_inserted.
    + intros r Hr. apply str_eqb_neq. now apply Hfresh.
    + apply str_eqb_refl.
  - now apply AssignmentRepository_toDomain_toEntity.
Qed.

(** Updating the row that was inserted last replaces that row only. *)
Lemma updated_inserted {Entity : Type} (primary : Entity -> str)
    (e e' : Entity) (rows : list Entity) :
  (forall r, In r rows -> primary r <> primary e') ->
  primary e = primary e' ->
  TypeOrm.updated primary e' (rows ++ [e]) = rows ++ [e'].
Proof.
  intros Hrows He. unfold TypeOrm.updated. rewrite map_app. f_equal.
  - rewrite <- (map_id rows) at 2. apply map_ext_in. intros r Hr.
    unfold TypeOrm.samePrimary.
    now rewrite (proj2 (str_eqb_neq _ _) (Hrows r Hr)).
  - simpl. unfold TypeOrm.samePrimary. now rewrite He, str_eqb_refl.
Qed.

Section RunProperties.
Variable JSON_stringify : list (string * str) -> str.

Lemma PlaceOrder_run
    (params : PlaceOrderParams.t) (w : World)
    (shipperId : AccountId.t) (pickupAddress dropoffAddress : Address.t)
    (pickupTimeWindow dropoffTimeWindow : TimeWindow.t) (totalWeight : Weight.t) :
  AccountId.new (PlaceOrderParams.shipperId params) = Ok shipperId ->
  Address.new (PlaceOrderParams.pickupAddress params) = Ok pickupAddress ->
  Address.new (PlaceOrderParams.dropoffAddress params) = Ok dropoffAddress ->
  TimeWindow.new (PlaceOrderParams.pickupStartAt params)
                 (PlaceOrderParams.pickupEndAt params) = Ok pickupTimeWindow ->
  TimeWindow.new (PlaceOrderParams.dropStartAt params)
                 (PlaceOrderParams.dropEndAt params) = Ok dropoffTimeWindow ->
  Weight.new (match PlaceOrderParams.totalWeightKg params with
              | Some kg => kg
              | None => 0%float
              end) = Ok totalWeight ->
  JS.truthy (uuids w (drawn w)) = true ->
  JS.truthy (uuids w (S (drawn w))) = true ->
  (forall e, In e (orderTable w) -> OrderOrmEntity.id e <> uuids w (drawn w)) ->
  (forall e, In e (deliveryEventTable w) ->
             DeliveryEventOrmEntity.id e <> uuids w (S (drawn w))) ->
  Order_wf (Order.mk (OrderId.mk (uuids w (drawn w))) shipperId
                     (OrderStatus.mk OrderStatusType.PLACED)
                     pickupAddress dropoffAddress
                     pickupTimeWindow dropoffTimeWindow totalWeight
                     (PlaceOrderParams.notes params) (clock w (ticks w)))
  /\ PlaceOrderUseCase_execute JSON_stringify params w
     = (Ok (Order.mk (OrderId.mk (uuids w (drawn w))) shipperId
                     (OrderStatus.mk OrderStatusType.PLACED)
                     pickupAddress dropoffAddress
                     pickupTimeWindow dropoffTimeWindow totalWeight
                     (PlaceOrderParams.notes params) (clock w (ticks w))),
        set_deliveryEventTable
          (deliveryEventTable w
           ++ [ DeliveryEventOrmEntity.mk
                  (uuids w (S (drawn w))) (uuids w (drawn w)) None
                  (lit "ORDER_PLACED")
                  (Some (JSON_stringify
                           [ ("shipperId"%string, PlaceOrderParams.shipperId params);
                             ("pickupAddress"%string,
                              PlaceOrderParams.pickupAddress params);
                             ("dropoffAddress"%string,
                              PlaceOrderParams.dropoffAddress params) ]))
                  (clock w (S (ticks w))) ])
          (tick (draw
             (set_orderTable
                (orderTable w
                 ++ [ OrderRepository.toEntity
                        (Order.mk (OrderId.mk (uuids w (drawn w))) shipperId
                           (OrderStatus.mk OrderStatusType.PLACED)
                           pickupAddress dropoffAddress
                           pickupTimeWindow dropoffTimeWindow totalWeight
                           (PlaceOrderParams.notes params) (clock w (ticks w))) ])
                (tick (draw w)))))).
Proof.
  intros Hs Hpa Hda Hpw Hdw Htw Hu Hu' Hfresh Hfresh'.
  set (order := Order.mk _ _ _ _ _ _ _ _ _ _).
  assert (Hwf : Order_wf order).
  { unfold Order_wf, order. simpl.
    apply Address_new_value in Hpa, Hda.
    apply TimeWindow_new_value in Hpw as [_ Hpw], Hdw as [_ Hdw].
    apply Weight_new_value in Htw as [_ Htw].
    unfold AccountId.new in Hs.
    destruct (JS.truthy (PlaceOrderParams.shipperId params)) eqn:Ht;
      [|discriminate Hs].
    injection Hs as <-. simpl. repeat split; assumption. }
  split; [exact Hwf|].
  unfold PlaceOrderUseCase_execute.
  erewrite bind_ok by reflexivity.
  erewrite bind_ok.
  2:{ unfold lift, OrderId.new. rewrite Hu. reflexivity. }
  erewrite bind_ok by (unfold lift; rewrite Hs; reflexivity).
  erewrite bind_ok by reflexivity.
  erewrite bind_ok by (unfold lift; rewrite Hpa; reflexivity).
  erewrite bind_ok by (unfold lift; rewrite Hda; reflexivity).
  erewrite bind_ok by (unfold lift; rewrite Hpw; reflexivity).
  erewrite bind_ok by (unfold lift; rewrite Hdw; reflexivity).
  erewrite bind_ok by (unfold lift; rewrite Htw; reflexivity).
  erewrite bind_ok with (a := order) by reflexivity.
  erewrite bind_ok.
  2:{ apply OrderRepository_save_ok; [exact Hwf|].
      apply save_insert; [|intros col r []].
      intros r Hr. simpl. now apply Hfresh. }
  erewrite bind_ok by reflexivity.
  erewrite bind_ok.
  2:{ unfold lift, DeliveryEventId.new. simpl. rewrite Hu'. reflexivity. }
  erewrite bind_ok by reflexivity.
  erewrite bind_ok by reflexivity.
  erewrite bind_ok.
  2:{ apply DeliveryEventRepository_save_ok.
      - repeat split; simpl; auto.
      - apply save_insert; [|intros col r []].
        intros r Hr. simpl. now apply Hfresh'. }
  reflexivity.
Qed.
End RunProperties.

Lemma OfferAssignment_run (orderId courierId : str) (w : World) (o : Order.t) :
  OrderRepository.findById (OrderId.mk orderId) w = (Ok (Some o), w) ->
  OrderStatus.value (Order.status o) = OrderStatusType.READY_TO_SHIP ->
  (forall r, In r (assignmentTable w) -> AssignmentOrmEntity.orderId r <> orderId) ->
  JS.truthy courierId = true ->
  JS.truthy (uuids w (drawn w)) = true ->
  (forall r, In r (assignmentTable w) ->
             AssignmentOrmEntity.id r <> uuids w (drawn w)) ->
  Assignment_wf (Assignment.mk (AssignmentId.mk (uuids w (drawn w))) (OrderId.mk orderId)
                   (AccountId.mk courierId)
                   (AssignmentStatus.mk AssignmentStatusType.PENDING)
                   (clock w (ticks w)) None)
  /\ OfferAssignmentUseCase_execute orderId courierId w
     = (Ok (Assignment.mk (AssignmentId.mk (uuids w (drawn w))) (OrderId.mk orderId)
              (AccountId.mk courierId)
              (AssignmentStatus.mk AssignmentStatusType.PENDING)
              (clock w (ticks w)) None),
        set_assignmentTable
          (assignmentTable w
           ++ [ AssignmentOrmEntity.mk (uuids w (drawn w)) orderId courierId
                  (lit "PENDING") (clock w (ticks w)) None ])
          (tick (draw w))).
Proof.
  intros Ho Hs Hnone Hc Hu Hfresh.
  destruct (OrderRepository_findById_row _ _ _ _ Ho) as (Hid & Hwf & _).
  assert (Ht : JS.truthy orderId = true).
  { destruct Hwf as (Hi & _). now rewrite Hid in Hi. }
  assert (Hawf : Assignment_wf
                   (Assignment.mk (AssignmentId.mk (uuids w (drawn w)))
                      (OrderId.mk orderId) (AccountId.mk courierId)
                      (AssignmentStatus.mk AssignmentStatusType.PENDING)
                      (clock w (ticks w)) None)).
  { repeat split; assumption. }
  split; [exact Hawf|].
  unfold OfferAssignmentUseCase_execute.
  erewrite bind_ok by (unfold lift, OrderId.new; rewrite Ht; reflexivity).
  erewrite bind_ok by exact Ho.
  cbv beta iota. rewrite (Order_canBeAssigned_ready o Hs).
  change (negb true) with false. cbv iota.
  rewrite Hid.
  erewrite bind_ok.
  2:{ apply AssignmentRepository_findOneBy_none. apply find_nothing.
      intros r Hr. apply andb_false_iff. left. apply str_eqb_neq.
      simpl. now apply Hnone. }
  cbv beta iota.
  erewrite bind_ok by reflexivity.
  erewrite bind_ok by (unfold lift, AssignmentId.new; simpl; rewrite Hu; reflexivity).
  erewrite bind_ok by (unfold lift, AccountId.new; rewrite Hc; reflexivity).
  erewrite bind_ok by reflexivity.
  erewrite bind_ok by reflexivity.
  apply AssignmentRepository_save_ok; [exact Hawf|].
  apply save_insert.
  - intros r Hr. simpl. now apply Hfresh.
  - intros col r [<- | []] Hr. simpl. now apply Hnone.
Qed.

(** ** The life of an order, from PlaceOrder to AcceptAssignment *)

Section Lifecycle.
Variable JSON_stringify : list (string * str) -> str.

(** The four use cases in sequence, in the table model: the run and the
    tables it leaves. *)
Lemma order_lifecycle_run
    (params : PlaceOrderParams.t) (courierId : str) (w : World)
    (shipperId : AccountId.t) (pickupAddress dropoffAddress : Address.t)
    (pickupTimeWindow dropoffTimeWindow : TimeWindow.t) (totalWeight : Weight.t) :
  AccountId.new (PlaceOrderParams.shipperId params) = Ok shipperId ->
  Address.new (PlaceOrderParams.pickupAddress params) = Ok pickupAddress ->
  Address.new (PlaceOrderParams.dropoffAddress params) = Ok dropoffAddress ->
  TimeWindow.new (PlaceOrderParams.pickupStartAt params)
                 (PlaceOrderParams.pickupEndAt params) = Ok pickupTimeWindow ->
  TimeWindow.new (PlaceOrderParams.dropStartAt params)
                 (PlaceOrderParams.dropEndAt params) = Ok dropoffTimeWindow ->
  Weight.new (match PlaceOrderParams.totalWeightKg params with
              | Some kg => kg
              | None => 0%float
              end) = Ok totalWeight ->
  JS.truthy courierId = true ->
  (forall i, i < 5 -> unused w (next_uuid w i)) ->
  NoDup (map (next_uuid w) (seq 0 5)) ->
  exists (order : Order.t) (offered : Assignment.t) (w1 w2 w3 w4 : World),
    PlaceOrderUseCase_execute JSON_stringify params w = (Ok order, w1)
    /\ MarkReadyToShipUseCase_execute JSON_stringify (OrderId.value (Order.id order)) w1
       = (Ok (Order.set_status order (OrderStatus.mk OrderStatusType.READY_TO_SHIP)), w2)
    /\ OfferAssignmentUseCase_execute (OrderId.value (Order.id order)) courierId w2
       = (Ok offered, w3)
    /\ AcceptAssignmentUseCase_execute JSON_stringify
         (AssignmentId.value (Assignment.id offered)) w3
       = (Ok (Assignment.set_respondedAt
                (Assignment.set_status offered
                   (AssignmentStatus.mk AssignmentStatusType.ACCEPTED))
                (Some (clock w (4 + ticks w)))), w4)
    /\ Order.id order = OrderId.mk (next_uuid w 0)
    /\ Order.status order = OrderStatus.mk OrderStatusType.PLACED
    /\ offered = Assignment.mk (AssignmentId.mk (next_uuid w 3)) (Order.id order)
                   (AccountId.mk courierId)
                   (AssignmentStatus.mk AssignmentStatusType.PENDING)
                   (clock w (3 + ticks w)) None
    /\ OrderRepository.findById (Order.id order) w4
       = (Ok (Some (Order.set_status order (OrderStatus.mk OrderStatusType.ASSIGNED))),
          w4)
    /\ AssignmentRepository.findById (Assignment.id offered) w4
       = (Ok (Some (Assignment.set_respondedAt
                      (Assignment.set_status offered
                         (AssignmentStatus.mk AssignmentStatusType.ACCEPTED))
                      (Some (clock w (4 + ticks w))))), w4)
    /\ orderTable w4
       = orderTable w
         ++ [ OrderRepository.toEntity
                (Order.set_status order (OrderStatus.mk OrderStatusType.ASSIGNED)) ]
    /\ assignmentTable w4
       = assignmentTable w
         ++ [ AssignmentOrmEntity.mk (next_uuid w 3) (next_uuid w 0) courierId
                (lit "ACCEPTED") (clock w (3 + ticks w))
                (Some (clock w (4 + ticks w))) ]
    /\ exists e1 e2 e3,
         deliveryEventTable w4 = deliveryEventTable w ++ [e1; e2; e3]
         /\ map DeliveryEventOrmEntity.type [e1; e2; e3]
            = [lit "ORDER_PLACED"; lit "READY_TO_SHIP"; lit "ASSIGNED"]
         /\ map DeliveryEventOrmEntity.orderId [e1; e2; e3]
            = [next_uuid w 0; next_uuid w 0; next_uuid w 0]
         /\ map DeliveryEventOrmEntity.courierId [e1; e2; e3]
            = [None; None; Some courierId]
         /\ map DeliveryEventOrmEntity.occurredAt [e1; e2; e3]
            = [clock w (1 + ticks w); clock w (2 + ticks w); clock w (5 + ticks w)]
         /\ map DeliveryEventOrmEntity.id [e1; e2; e3]
            = [next_uuid w 1; next_uuid w 2; next_uuid w 4]
         /\ map DeliveryEventOrmEntity.payloadJson [e1; e2; e3]
            = [ Some (JSON_stringify
                        [ ("shipperId"%string, PlaceOrderParams.shipperId params);
                          ("pickupAddress"%string,
                           PlaceOrderParams.pickupAddress params);
                          ("dropoffAddress"%string,
                           PlaceOrderParams.dropoffAddress params) ]);
                Some (JSON_stringify [ ("status"%string, lit "READY_TO_SHIP") ]);
                Some (JSON_stringify
                        [ ("assignmentId"%string, next_uuid w 3);
                          ("courierId"%string, courierId) ]) ]
         /\ order = Order.mk (OrderId.mk (next_uuid w 0)) shipperId
                             (OrderStatus.mk OrderStatusType.PLACED)
                             pickupAddress dropoffAddress
                             pickupTimeWindow dropoffTimeWindow totalWeight
                             (PlaceOrderParams.notes params) (clock w (ticks w)).
Proof.
  intros Hs Hpa Hda Hpw Hdw Htw Hc Hunused Hnodup.
  unfold next_uuid in *. simpl in Hnodup.
  destruct (Hunused 0 ltac:(lia)) as (Ht0 & Ho0 & Ha0 & He0).
  destruct (Hunused 1 ltac:(lia)) as (Ht1 & Ho1 & Ha1 & He1).
  destruct (Hunused 2 ltac:(lia)) as (Ht2 & Ho2 & Ha2 & He2).
  destruct (Hunused 3 ltac:(lia)) as (Ht3 & Ho3 & Ha3 & He3).
  destruct (Hunused 4 ltac:(lia)) as (Ht4 & Ho4 & Ha4 & He4).
  simpl in *.
  set (u0 := uuids w (drawn w)) in *.
  set (u1 := uuids w (S (drawn w))) in *.
  set (u2 := uuids w (S (S (drawn w)))) in *.
  set (u3 := uuids w (S (S (S (drawn w))))) in *.
  set (u4 := uuids w (S (S (S (S (drawn w)))))) in *.
  assert (Hd : u0 <> u1 /\ u1 <> u2 /\ u1 <> u4 /\ u2 <> u4).
  { inversion Hnodup as [|? ? N0 Hn1]. inversion Hn1 as [|? ? N1 Hn2].
    inversion Hn2 as [|? ? N2 Hn3]. simpl in N0, N1, N2.
    repeat split; intros E; rewrite E in *; tauto. }
  destruct Hd as (D01 & D12 & D14 & D24).
  (* PlaceOrder *)
  destruct (PlaceOrder_run JSON_stringify params w shipperId pickupAddress
              dropoffAddress pickupTimeWindow dropoffTimeWindow totalWeight
              Hs Hpa Hda Hpw Hdw Htw Ht0 Ht1 Ho0 He1) as (Hwf & Hplace).
  fold u0 u1 in Hwf, Hplace.
  set (order := Order.mk (OrderId.mk u0) _ _ _ _ _ _ _ _ _) in *.
  match type of Hplace with _ = (_, ?x) => set (w1 := x) in * end.
  assert (Hf1 : OrderRepository.findById (OrderId.mk u0) w1 = (Ok (Some order), w1)).
  { apply (OrderRepository_findById_inserted order w w1 Hwf); [exact Ho0|reflexivity]. }
  (* MarkReadyToShip *)
  assert (Hready : MarkReadyToShipUseCase_execute JSON_stringify u0 w1 = _)
    by (apply (MarkReadyToShip_run JSON_stringify u0 w1 order Hf1 eq_refl);
        [exact Ht2 | intros e He; apply in_app_or in He as [He | [<- | []]];
                     [now apply He2 | exact D12]]).
  set (ready := Order.set_status order (OrderStatus.mk OrderStatusType.READY_TO_SHIP))
    in *.
  match type of Hready with _ = (_, ?x) => set (w2 := x) in * end.
  assert (Hrows2 : orderTable w2 = orderTable w ++ [OrderRepository.toEntity ready]).
  { simpl. apply updated_inserted; [exact Ho0 | reflexivity]. }
  assert (Hf2 : OrderRepository.findById (OrderId.mk u0) w2 = (Ok (Some ready), w2)).
  { apply (OrderRepository_findById_inserted ready w w2);
      [now apply Order_wf_set_status | exact Ho0 | exact Hrows2]. }
  (* OfferAssignment *)
  destruct (OfferAssignment_run u0 courierId w2 ready Hf2 eq_refl) as (Hawf & Hoffer).
  { intros r Hr. now apply Ha0. }
  { exact Hc. }
  { exact Ht3. }
  { intros r Hr. now apply Ha3. }
  change (uuids w2 (drawn w2)) with u3 in Hawf, Hoffer.
  change (clock w2 (ticks w2)) with (clock w (S (S (S (ticks w))))) in Hawf, Hoffer.
  set (offered := Assignment.mk (AssignmentId.mk u3) _ _ _ _ _) in *.
  match type of Hoffer with _ = (_, ?x) => set (w3 := x) in * end.
  assert (Hf3 : AssignmentRepository.findById (AssignmentId.mk u3) w3
                = (Ok (Some offered), w3)).
  { apply (AssignmentRepository_findById_inserted offered w w3 Hawf);
      [|reflexivity]. intros r Hr. now apply Ha3. }
  assert (Hf3' : OrderRepository.findById (OrderId.mk u0) w3 = (Ok (Some ready), w3)).
  { rewrite (OrderRepository_findById_same_table _ w2 w3) by reflexivity.
    now rewrite Hf2. }
  (* AcceptAssignment *)
  assert (Haccept : AcceptAssignmentUseCase_execute JSON_stringify u3 w3 = _)
    by (apply (AcceptAssignment_run JSON_stringify u3 w3 offered ready Hf3 eq_refl
                 Hf3' eq_refl);
        [exact Ht4
        | intros e He; apply in_app_or in He as [He | [<- | []]];
          [apply in_app_or in He as [He | [<- | []]];
           [now apply He4 | exact D14]
          | exact D24]]).
  match type of Haccept with _ = (_, ?x) => set (w4 := x) in * end.
  exists order, offered, w1, w2, w3, w4.
  split; [exact Hplace|]. split; [exact Hready|]. split; [exact Hoffer|].
  split; [exact Haccept|]. split; [reflexivity|]. split; [reflexivity|].
  split; [reflexivity|].
  assert (Hrows4 : orderTable w4
                   = orderTable w
                     ++ [OrderRepository.toEntity
                           (Order.set_status order
                              (OrderStatus.mk OrderStatusType.ASSIGNED))]).
  { change (orderTable w4)
      with (TypeOrm.updated OrderOrmEntity.id
              (OrderRepository.toEntity
                 (Order.set_status ready (OrderStatus.mk OrderStatusType.ASSIGNED)))
              (orderTable w2)).
    rewrite Hrows2. apply updated_inserted; [exact Ho0 | reflexivity]. }
  assert (Harows4 : assignmentTable w4
                    = assignmentTable w
                      ++ [AssignmentRepository.toEntity
                            (Assignment.set_respondedAt
                               (Assignment.set_status offered
                                  (AssignmentStatus.mk AssignmentStatusType.ACCEPTED))
                               (Some (clock w (S (S (S (S (ticks w))))))))]).
  { change (assignmentTable w4)
      with (TypeOrm.updated AssignmentOrmEntity.id
              (AssignmentRepository.toEntity
                 (Assignment.set_respondedAt
                    (Assignment.set_status offered
                       (AssignmentStatus.mk AssignmentStatusType.ACCEPTED))
                    (Some (clock w (S (S (S (S (ticks w)))))))))
              (assignmentTable w
               ++ [AssignmentRepository.toEntity offered])).
    apply updated_inserted; [|reflexivity]. intros r Hr. now apply Ha3. }
  split.
  { apply (OrderRepository_findById_inserted
             (Order.set_status order (OrderStatus.mk OrderStatusType.ASSIGNED)) w w4);
      [now apply Order_wf_set_status | exact Ho0 | exact Hrows4]. }
  split.
  { apply (AssignmentRepository_findById_inserted
             (Assignment.set_respondedAt
                (Assignment.set_status offered
                   (AssignmentStatus.mk AssignmentStatusType.ACCEPTED))
                (Some (clock w (S (S (S (S (ticks w)))))))) w w4);
      [exact Hawf | intros r Hr; now apply Ha3 | exact Harows4]. }
  split; [exact Hrows4|]. split; [exact Harows4|].
  eexists _, _, _. split.
  - simpl. rewrite <- !app_assoc. reflexivity.
  - repeat split.
Qed.

End Lifecycle.

(** ** MarkReadyToShip: what a caller observes *)

Section MarkReadyToShipObserved.
Variable JSON_stringify : list (string * str) -> str.

(** X3. MarkReadyToShip on a stored PLACED order (with [uuidv4] yielding an
    identifier that is not empty and not yet an event's) returns the order
    with status READY_TO_SHIP and nothing else changed, updates its row (a
    later [findById] returns it), appends exactly one READY_TO_SHIP event of
    that order, with no courier and the payload [{status: 'READY_TO_SHIP'}],
    and leaves the assignments alone. *)
Theorem MarkReadyToShip_marks (orderId : str) (w : World) (o : Order.t) :
  OrderRepository.findById (OrderId.mk orderId) w = (Ok (Some o), w) ->
  OrderStatus.value (Order.status o) = OrderStatusType.PLACED ->
  JS.truthy (uuids w (drawn w)) = true ->
  (forall e, In e (deliveryEventTable w) ->
             DeliveryEventOrmEntity.id e <> uuids w (drawn w)) ->
  exists w',
    MarkReadyToShipUseCase_execute JSON_stringify orderId w
    = (Ok (Order.set_status o (OrderStatus.mk OrderStatusType.READY_TO_SHIP)), w')
    /\ OrderRepository.findById (OrderId.mk orderId) w'
       = (Ok (Some (Order.set_status o (OrderStatus.mk OrderStatusType.READY_TO_SHIP))),
          w')
    /\ orderTable w'
       = TypeOrm.updated OrderOrmEntity.id
           (OrderRepository.toEntity
              (Order.set_status o (OrderStatus.mk OrderStatusType.READY_TO_SHIP)))
           (orderTable w)
    /\ deliveryEventTable w'
       = deliveryEventTable w
         ++ [ DeliveryEventOrmEntity.mk (uuids w (drawn w)) orderId None
                (lit "READY_TO_SHIP")
                (Some (JSON_stringify [ ("status"%string, lit "READY_TO_SHIP") ]))
                (clock w (ticks w)) ]
    /\ assignmentTable w' = assignmentTable w.
Proof.
  intros Ho Hs Hu Hfresh.
  destruct (OrderRepository_findById_row _ _ _ _ Ho) as (Hid & Hwf & old & Hold).
  eexists. split; [exact (MarkReadyToShip_run JSON_stringify orderId w o Ho Hs Hu Hfresh)|].
  split; [|repeat split].
  rewrite <- Hid.
  apply (OrderRepository_findById_updated
           (Order.set_status o (OrderStatus.mk OrderStatusType.READY_TO_SHIP)) old w);
    [now apply Order_wf_set_status | apply Hold | reflexivity].
Qed.

(** X4. MarkReadyToShip refuses without writing anything. With an empty
    identifier it fails in the identifier's constructor; with an identifier
    that no stored order has, with the not-found error; with a stored order
    that is not PLACED, with the invalid-state error of [markReadyToShip].
    In each case the world is exactly as before: no row is written, no
    event, no uuid drawn. *)
Theorem MarkReadyToShip_refuses (orderId : str) (w : World) :
  (JS.truthy orderId = false ->
   MarkReadyToShipUseCase_execute JSON_stringify orderId w = (Err OrderIdRequired, w))
  /\ (JS.truthy orderId = true ->
      (forall r, In r (orderTable w) -> OrderOrmEntity.id r <> orderId) ->
      MarkReadyToShipUseCase_execute JSON_stringify orderId w = (Err OrderNotFound, w))
  /\ (forall o,
         OrderRepository.findById (OrderId.mk orderId) w = (Ok (Some o), w) ->
         OrderStatus.value (Order.status o) <> OrderStatusType.PLACED ->
         MarkReadyToShipUseCase_execute JSON_stringify orderId w
         = (Err OnlyPlacedCanBeReadyToShip, w)).
Proof.
  unfold MarkReadyToShipUseCase_execute. split; [|split].
  - intros Ht. erewrite bind_err; [reflexivity|].
    unfold lift, OrderId.new. now rewrite Ht.
  - intros Ht Hnone.
    erewrite bind_ok by (unfold lift, OrderId.new; rewrite Ht; reflexivity).
    erewrite bind_ok by (now apply OrderRepository_findById_none).
    reflexivity.
  - intros o Ho Hs.
    destruct (OrderRepository_findById_row _ _ _ _ Ho) as (Hid & Hwf & _).
    assert (Ht : JS.truthy orderId = true).
    { destruct Hwf as (Hi & _). now rewrite Hid in Hi. }
    erewrite bind_ok by (unfold lift, OrderId.new; rewrite Ht; reflexivity).
    erewrite bind_ok by exact Ho.
    cbv beta iota.
    erewrite bind_err; [reflexivity|].
    unfold lift, Order.markReadyToShip.
    destruct (OrderStatus.value (Order.status o)); try reflexivity.
    now contradiction Hs.
Qed.
End MarkReadyToShipObserved.

Lemma MarkReadyToShip_marks_witness :
  OrderRepository.findById (OrderId.mk (lit "order-2")) world_placed
  = (Ok (Some demo_placed), world_placed)
  /\ exists w',
       MarkReadyToShipUseCase_execute demo_stringify (lit "order-2") world_placed
       = (Ok (Order.set_status demo_placed
                (OrderStatus.mk OrderStatusType.READY_TO_SHIP)), w')
       /\ map OrderOrmEntity.status (orderTable w') = [lit "READY_TO_SHIP"]
       /\ map DeliveryEventOrmEntity.type (deliveryEventTable w')
          = [lit "READY_TO_SHIP"].
Proof.
  split; [reflexivity|].
  destruct (MarkReadyToShip_marks demo_stringify (lit "order-2") world_placed
              demo_placed)
    as (w' & E & _ & Ho & He & _).
  - reflexivity.
  - reflexivity.
  - reflexivity.
  - intros e [].
  - exists w'. split; [exact E|]. rewrite Ho, He. split; reflexivity.
Defined.

Lemma AcceptAssignment_fails_half_done_witness :
  AssignmentRepository.findById (AssignmentId.mk (lit "assignment-1")) world_orphan
  = (Ok (Some (demo_assignment AssignmentStatusType.PENDING None)), world_orphan)
  /\ OrderRepository.findById (OrderId.mk (lit "order-1")) world_orphan
     = (Ok None, world_orphan)
  /\ exists e w',
       AcceptAssignmentUseCase_execute demo_stringify (lit "assignment-1") world_orphan
       = (Err e, w')
       /\ assignmentTable w' = [demo_assignment_row (lit "ACCEPTED") (Some 3000%Z)]
       /\ deliveryEventTable w' = [].
Proof.
  split; [reflexivity|]. split; [reflexivity|].
  destruct (AcceptAssignment_fails_half_done demo_stringify (lit "assignment-1")
              world_orphan (demo_assignment AssignmentStatusType.PENDING None))
    as (e & w' & E & _ & Hf & _ & He & _).
  - reflexivity.
  - reflexivity.
  - left. reflexivity.
  - exists e, w'. split; [exact E|]. split; [|exact He].
    assert (Ew : w' = snd (AcceptAssignmentUseCase_execute demo_stringify
                             (lit "assignment-1") world_orphan))
      by now rewrite E.
    rewrite Ew. reflexivity.
Defined.


(** ** Reading a successful run backwards *)

Lemma bind_inv {A B : Type} (m : M A) (k : A -> M B) (w w' : World) (b : B) :
  bind m k w = (Ok b, w') ->
  exists a w1, m w = (Ok a, w1) /\ k a w1 = (Ok b, w').
Proof.
  unfold bind. destruct (m w) as [[a|e] w1]; [eauto | discriminate].
Qed.

Lemma lift_inv {A : Type} (r : Result A) (w w' : World) (a : A) :
  lift r w = (Ok a, w') -> r = Ok a /\ w' = w.
Proof. unfold lift. intros H. injection H as -> <-. now split. Qed.

Lemma OrderStatus_new_inv (v : str) (s : OrderStatus.t) :
  OrderStatus.new v = Ok s -> OrderStatusType.code (OrderStatus.value s) = v.
Proof.
  unfold OrderStatus.new. destruct (find _ _) as [c|] eqn:E; [|discriminate].
  intros H. injection H as <-. apply find_some in E as [_ E].
  now apply str_eqb_eq in E.
Qed.

Lemma AssignmentStatus_new_inv (v : str) (s : AssignmentStatus.t) :
  AssignmentStatus.new v = Ok s ->
  AssignmentStatusType.code (AssignmentStatus.value s) = v.
Proof.
  unfold AssignmentStatus.new. destruct (find _ _) as [c|] eqn:E; [|discriminate].
  intros H. injection H as <-. apply find_some in E as [_ E].
  now apply str_eqb_eq in E.
Qed.

(** After a [save] that the database accepts, the row with the entity's
    primary key is the entity. *)
Lemma TypeOrm_save_stored {Entity : Type} (primary : Entity -> str)
    (unique : list (Entity -> str)) (e : Entity) (rows rows' : list Entity) :
  TypeOrm.save primary unique e rows = Some rows' ->
  List.find (TypeOrm.samePrimary primary e) rows' = Some e.
Proof.
  unfold TypeOrm.save. destruct (List.find _ rows) as [old|] eqn:E.
  - destruct (existsb _ unique); [discriminate|].
    intros H. injection H as <-. exact (find_updated _ _ _ _ _ E).
  - destruct (existsb _ unique); [discriminate|].
    intros H. injection H as <-. apply find_inserted.
    + intros y Hy. exact (find_none _ _ E y Hy).
    + unfold TypeOrm.samePrimary. apply str_eqb_refl.
Qed.

(** What [AssignmentRepository.save] (and [update], which has the same body)
    returns is what it stored: the row now found under the identifier has,
    column by column, the fields of the assignment returned. *)
Lemma AssignmentRepository_save_stored (a a2 : Assignment.t) (w w1 : World) :
  AssignmentRepository.save a w = (Ok a2, w1) ->
  TypeOrm.findOne
    (fun e => JS.str_eqb (AssignmentOrmEntity.id e)
                         (AssignmentId.value (Assignment.id a2)))
    (assignmentTable w1)
  = Some (AssignmentRepository.toEntity a2)
  /\ AssignmentRepository.toEntity a2 = AssignmentRepository.toEntity a.
Proof.
  intros H. unfold AssignmentRepository.save in H.
  apply bind_inv in H as (e & w0 & Hs & Hd).
  unfold assignmentTable_save in Hs.
  destruct (TypeOrm.save _ _ _ _) as [rows|] eqn:Es; [|discriminate].
  injection Hs as <- <-.
  pose proof (AssignmentRepository_toDomain_world _ _ _ _ Hd) as ->.
  apply AssignmentRepository_toDomain_ok in Hd as (s & Hst & -> & _).
  apply AssignmentStatus_new_inv in Hst.
  assert (E : AssignmentRepository.toEntity
                (Assignment.mk
                   (AssignmentId.mk (AssignmentOrmEntity.id (AssignmentRepository.toEntity a)))
                   (OrderId.mk (AssignmentOrmEntity.orderId (AssignmentRepository.toEntity a)))
                   (AccountId.mk
                      (AssignmentOrmEntity.courierId (AssignmentRepository.toEntity a)))
                   s (AssignmentOrmEntity.offeredAt (AssignmentRepository.toEntity a))
                   (AssignmentOrmEntity.respondedAt (AssignmentRepository.toEntity a)))
              = AssignmentRepository.toEntity a).
  { unfold AssignmentRepository.toEntity in *. simpl in *. now rewrite Hst. }
  split; [|exact E].
  rewrite E. exact (TypeOrm_save_stored _ _ _ _ _ Es).
Qed.

Lemma OrderRepository_save_stored (o o2 : Order.t) (w w1 : World) :
  Order_wf o ->
  OrderRepository.save o w = (Ok o2, w1) ->
  o2 = o
  /\ TypeOrm.findOne
       (fun e => JS.str_eqb (OrderOrmEntity.id e) (OrderId.value (Order.id o)))
       (orderTable w1)
     = Some (OrderRepository.toEntity o).
Proof.
  intros Hwf H. unfold OrderRepository.save in H.
  apply bind_inv in H as (e & w0 & Hs & Hd).
  unfold orderTable_save in Hs.
  destruct (TypeOrm.save _ _ _ _) as [rows|] eqn:Es; [|discriminate].
  injection Hs as <- <-.
  rewrite (OrderRepository_toDomain_toEntity o _ Hwf) in Hd.
  injection Hd as <- <-.
  split; [reflexivity|]. exact (TypeOrm_save_stored _ _ _ _ _ Es).
Qed.

(** ** What the use cases never do *)

Section Keeps.
Variable R : World -> World -> Prop.
Hypothesis R_refl : forall w, R w w.
Hypothesis R_trans : forall w1 w2 w3, R w1 w2 -> R w2 w3 -> R w1 w3.
Hypothesis R_tick : forall w, R w (tick w).
Hypothesis R_draw : forall w, R w (draw w).

Lemma keeps_ret {A : Type} (a : A) : keeps R (ret a).
Proof. intros w r w' H. injection H as _ <-. apply R_refl. Qed.

Lemma keeps_throw {A : Type} (e : Error) : keeps R (@throw A e).
Proof. intros w r w' H. injection H as _ <-. apply R_refl. Qed.

Lemma keeps_lift {A : Type} (x : Result A) : keeps R (lift x).
Proof. intros w r w' H. injection H as _ <-. apply R_refl. Qed.

Lemma keeps_bind {A B : Type} (m : M A) (k : A -> M B) :
  keeps R m -> (forall a, keeps R (k a)) -> keeps R (bind m k).
Proof.
  intros Hm Hk w r w' H. unfold bind in H.
  destruct (m w) as [[a|e] w1] eqn:E.
  - apply R_trans with w1; [exact (Hm _ _ _ E) | exact (Hk a _ _ _ H)].
  - injection H as _ <-. exact (Hm _ _ _ E).
Qed.

Lemma keeps_new_Date : keeps R new_Date.
Proof. intros w r w' H. injection H as _ <-. apply R_tick. Qed.

Lemma keeps_uuidv4 : keeps R uuidv4.
Proof. intros w r w' H. injection H as _ <-. apply R_draw. Qed.

Lemma keeps_orNow (d : option Date) : keeps R (orNow d).
Proof. destruct d; [apply keeps_ret | apply keeps_new_Date]. Qed.

(** One step of a proof that a computation keeps [R]: the rule for the
    construct at its head, or a case analysis on what it branches on. *)
Ltac keeps_step :=
  first
    [ apply keeps_bind; [|intros ?]
    | apply keeps_ret
    | apply keeps_throw
    | apply keeps_lift
    | apply keeps_new_Date
    | apply keeps_uuidv4
    | apply keeps_orNow
    | assumption
    | match goal with
      | |- keeps R (match ?x with Some _ => _ | None => _ end) => destruct x
      | |- keeps R (if ?b then _ else _) => destruct b
      end ].

Lemma keeps_Order_new i s st pa da pw dw tw n c :
  keeps R (Order.new i s st pa da pw dw tw n c).
Proof. unfold Order.new. repeat keeps_step. Qed.

Lemma keeps_Assignment_new i o c st off resp :
  keeps R (Assignment.new i o c st off resp).
Proof. unfold Assignment.new. repeat keeps_step. Qed.

Lemma keeps_DeliveryEvent_new i o c ty p occ :
  keeps R (DeliveryEvent.new i o c ty p occ).
Proof. unfold DeliveryEvent.new. repeat keeps_step. Qed.

Lemma keeps_Assignment_accept a : keeps R (Assignment.accept a).
Proof. unfold Assignment.accept. repeat keeps_step. Qed.

Lemma keeps_OrderRepository_toDomain e : keeps R (OrderRepository.toDomain e).
Proof.
  unfold OrderRepository.toDomain. repeat keeps_step.
Qed.

Lemma keeps_AssignmentRepository_toDomain e :
  keeps R (AssignmentRepository.toDomain e).
Proof.
  unfold AssignmentRepository.toDomain. repeat keeps_step.
Qed.

Lemma keeps_DeliveryEventRepository_toDomain e :
  keeps R (DeliveryEventRepository.toDomain e).
Proof.
  unfold DeliveryEventRepository.toDomain. repeat keeps_step.
Qed.

Lemma keeps_OrderRepository_findById id : keeps R (OrderRepository.findById id).
Proof.
  intros w r w'. unfold OrderRepository.findById.
  destruct (TypeOrm.findOne _ (orderTable w)) as [e|].
  - apply keeps_bind; [apply keeps_OrderRepository_toDomain | intros; apply keeps_ret].
  - apply keeps_ret.
Qed.

Lemma keeps_AssignmentRepository_findOneBy p :
  keeps R (AssignmentRepository.findOneBy p).
Proof.
  intros w r w'. unfold AssignmentRepository.findOneBy.
  destruct (TypeOrm.findOne _ (assignmentTable w)) as [e|].
  - apply keeps_bind;
      [apply keeps_AssignmentRepository_toDomain | intros; apply keeps_ret].
  - apply keeps_ret.
Qed.

Lemma keeps_OrderRepository_save o : writes_orders R -> keeps R (OrderRepository.save o).
Proof.
  intros Hw. unfold OrderRepository.save.
  apply keeps_bind; [|intros; apply keeps_OrderRepository_toDomain].
  intros w r w' H. unfold orderTable_save in H.
  destruct (TypeOrm.save _ _ _ _) as [rows|] eqn:E; injection H as _ <-.
  - exact (Hw _ _ _ E).
  - apply R_refl.
Qed.

Lemma keeps_AssignmentRepository_save a :
  writes_assignments R -> keeps R (AssignmentRepository.save a).
Proof.
  intros Hw. unfold AssignmentRepository.save.
  apply keeps_bind; [|intros; apply keeps_AssignmentRepository_toDomain].
  intros w r w' H. unfold assignmentTable_save in H.
  destruct (TypeOrm.save _ _ _ _) as [rows|] eqn:E; injection H as _ <-.
  - exact (Hw _ _ _ E).
  - apply R_refl.
Qed.

Lemma keeps_DeliveryEventRepository_save ev :
  writes_events R -> keeps R (DeliveryEventRepository.save ev).
Proof.
  intros Hw. unfold DeliveryEventRepository.save.
  apply keeps_bind; [|intros; apply keeps_DeliveryEventRepository_toDomain].
  intros w r w' H. unfold deliveryEventTable_save in H.
  destruct (TypeOrm.save _ _ _ _) as [rows|] eqn:E; injection H as _ <-.
  - exact (Hw _ _ _ E).
  - apply R_refl.
Qed.

Lemma keeps_PlaceOrder JSON_stringify params :
  writes_orders R -> writes_events R ->
  keeps R (PlaceOrderUseCase_execute JSON_stringify params).
Proof.
  intros Ho He. unfold PlaceOrderUseCase_execute.
  repeat first
    [ apply keeps_Order_new | apply keeps_DeliveryEvent_new
    | apply keeps_OrderRepository_save; exact Ho
    | apply keeps_DeliveryEventRepository_save; exact He
    | keeps_step ].
Qed.

Lemma keeps_MarkReadyToShip JSON_stringify orderId :
  writes_orders R -> writes_events R ->
  keeps R (MarkReadyToShipUseCase_execute JSON_stringify orderId).
Proof.
  intros Ho He. unfold MarkReadyToShipUseCase_execute.
  repeat first
    [ apply keeps_OrderRepository_findById | apply keeps_DeliveryEvent_new
    | apply (keeps_OrderRepository_save _ Ho)
    | apply keeps_DeliveryEventRepository_save; exact He
    | keeps_step ].
Qed.

Lemma keeps_OfferAssignment orderId courierId :
  writes_assignments R ->
  keeps R (OfferAssignmentUseCase_execute orderId courierId).
Proof.
  intros Ha. unfold OfferAssignmentUseCase_execute.
  repeat first
    [ apply keeps_OrderRepository_findById
    | apply keeps_AssignmentRepository_findOneBy
    | apply keeps_Assignment_new
    | apply keeps_AssignmentRepository_save; exact Ha
    | keeps_step ].
Qed.

Lemma keeps_AcceptAssignment JSON_stringify assignmentId :
  writes_orders R -> writes_assignments R -> writes_events R ->
  keeps R (AcceptAssignmentUseCase_execute JSON_stringify assignmentId).
Proof.
  intros Ho Ha He. unfold AcceptAssignmentUseCase_execute.
  repeat first
    [ apply keeps_OrderRepository_findById
    | apply keeps_AssignmentRepository_findOneBy
    | apply keeps_Assignment_accept
    | apply keeps_DeliveryEvent_new
    | apply (keeps_OrderRepository_save _ Ho)
    | apply (keeps_AssignmentRepository_save _ Ha)
    | apply keeps_DeliveryEventRepository_save; exact He
    | keeps_step ].
Qed.

(** The value a use case returns is the one a repository handed back in the
    middle of the run; what runs after that write keeps [R]. *)
Lemma AcceptAssignment_returns JSON_stringify assignmentId w a w' :
  writes_orders R -> writes_events R ->
  AcceptAssignmentUseCase_execute JSON_stringify assignmentId w = (Ok a, w') ->
  exists a0 a1 w1 w2,
    AssignmentRepository.findById (AssignmentId.mk assignmentId) w = (Ok (Some a0), w)
    /\ Assignment.accept a0 w = (Ok a1, w1)
    /\ AssignmentRepository.update a1 w1 = (Ok a, w2)
    /\ R w2 w'.
Proof.
  intros Ho He H. unfold AcceptAssignmentUseCase_execute in H.
  apply bind_inv in H as (aid & w0 & Hid & H).
  apply lift_inv in Hid as (Hid & ->).
  assert (aid = AssignmentId.mk assignmentId) as ->.
  { unfold AssignmentId.new in Hid. destruct (JS.truthy _); [|discriminate].
    now injection Hid as <-. }
  apply bind_inv in H as ([a0|] & w0 & Hf & H); [|discriminate].
  pose proof (AssignmentRepository_findOneBy_some _ _ _ _ Hf) as (-> & _).
  apply bind_inv in H as (a1 & w1 & Hacc & H).
  apply bind_inv in H as (a2 & w2 & Hupd & H).
  exists a0, a1, w1, w2.
  assert (K : R w2 w' /\ a2 = a).
  { split.
    - revert H. generalize (Ok a). intros r H. clear Hupd; revert w2 r w' H.
      change (keeps R
        (order <- OrderRepository.findById (Assignment.orderId a1) ;;
         match order with
         | None => throw OrderNotFound
         | Some order =>
             order <- lift (Order.assign order) ;;
             _ <- OrderRepository.update order ;;
             u <- uuidv4 ;;
             eventId <- lift (DeliveryEventId.new u) ;;
             type <- lift (EventType.new (EventTypeValue.code EventTypeValue.ASSIGNED)) ;;
             event <- DeliveryEvent.new eventId (Assignment.orderId a1)
                        (Some (Assignment.courierId a1)) type
                        (Some (JSON_stringify
                                 [ ("assignmentId"%string, assignmentId);
                                   ("courierId"%string,
                                    AccountId.value (Assignment.courierId a1)) ]))
                        None ;;
             _ <- DeliveryEventRepository.save event ;;
             ret a2
         end)).
      repeat first
        [ apply keeps_OrderRepository_findById
        | apply keeps_DeliveryEvent_new
        | apply (keeps_OrderRepository_save _ Ho)
        | apply keeps_DeliveryEventRepository_save; exact He
        | keeps_step ].
    - apply bind_inv in H as ([o|] & w3 & _ & H); [|discriminate].
      repeat (apply bind_inv in H as (? & ? & _ & H)).
      now injection H as -> _. }
  destruct K as (K & ->). repeat split; assumption.
Qed.

Lemma MarkReadyToShip_returns JSON_stringify orderId w o2 w' :
  writes_events R ->
  MarkReadyToShipUseCase_execute JSON_stringify orderId w = (Ok o2, w') ->
  exists o o1 w2,
    OrderRepository.findById (OrderId.mk orderId) w = (Ok (Some o), w)
    /\ Order.markReadyToShip o = Ok o1
    /\ OrderRepository.update o1 w = (Ok o2, w2)
    /\ R w2 w'.
Proof.
  intros He H. unfold MarkReadyToShipUseCase_execute in H.
  apply bind_inv in H as (oid & w0 & Hid & H).
  apply lift_inv in Hid as (Hid & ->).
  assert (oid = OrderId.mk orderId) as ->.
  { unfold OrderId.new in Hid. destruct (JS.truthy _); [|discriminate].
    now injection Hid as <-. }
  apply bind_inv in H as ([o|] & w0 & Hf & H); [|discriminate].
  pose proof (OrderRepository_findById_some _ _ _ _ Hf) as (-> & _).
  apply bind_inv in H as (o1 & w1 & Hm & H).
  apply lift_inv in Hm as (Hm & ->).
  apply bind_inv in H as (o3 & w2 & Hupd & H).
  exists o, o1, w2.
  assert (K : R w2 w' /\ o3 = o2).
  { split.
    - revert H. generalize (Ok o2). intros r H. clear Hupd; revert w2 r w' H.
      change (keeps R
        (u <- uuidv4 ;;
         eventId <- lift (DeliveryEventId.new u) ;;
         type <- lift (EventType.new (EventTypeValue.code EventTypeValue.READY_TO_SHIP)) ;;
         event <- DeliveryEvent.new eventId (Order.id o1) None type
                    (Some (JSON_stringify [ ("status"%string, lit "READY_TO_SHIP") ]))
                    None ;;
         _ <- DeliveryEventRepository.save event ;;
         ret o3)).
      repeat first
        [ apply keeps_DeliveryEvent_new
        | apply keeps_DeliveryEventRepository_save; exact He
        | keeps_step ].
    - repeat (apply bind_inv in H as (? & ? & _ & H)).
      now injection H as -> _. }
  destruct K as (K & ->). repeat split; assumption.
Qed.

Lemma PlaceOrder_returns JSON_stringify params w o2 w' :
  writes_events R ->
  PlaceOrderUseCase_execute JSON_stringify params w = (Ok o2, w') ->
  exists o w1 w2,
    Order_wf o
    /\ OrderStatus.value (Order.status o) = OrderStatusType.PLACED
    /\ OrderRepository.save o w1 = (Ok o2, w2)
    /\ R w2 w'.
Proof.
  intros He H. unfold PlaceOrderUseCase_execute in H.
  apply bind_inv in H as (u & w0 & _ & H).
  apply bind_inv in H as (oid & ? & Hoid & H). apply lift_inv in Hoid as (Hoid & ->).
  apply bind_inv in H as (sid & ? & Hsid & H). apply lift_inv in Hsid as (Hsid & ->).
  apply bind_inv in H as (st & ? & Hst & H). apply lift_inv in Hst as (Hst & ->).
  apply bind_inv in H as (pa & ? & Hpa & H). apply lift_inv in Hpa as (Hpa & ->).
  apply bind_inv in H as (da & ? & Hda & H). apply lift_inv in Hda as (Hda & ->).
  apply bind_inv in H as (pw & ? & Hpw & H). apply lift_inv in Hpw as (Hpw & ->).
  apply bind_inv in H as (dw & ? & Hdw & H). apply lift_inv in Hdw as (Hdw & ->).
  apply bind_inv in H as (tw & ? & Htw & H). apply lift_inv in Htw as (Htw & ->).
  apply bind_inv in H as (o & w1 & Hnew & H).
  apply bind_inv in H as (o3 & w2 & Hsave & H).
  exists o, w1, w2.
  assert (Ho : Order_wf o
               /\ OrderStatus.value (Order.status o) = OrderStatusType.PLACED).
  { unfold Order.new in Hnew. simpl in Hnew. munfold. injection Hnew as <- _.
    unfold Order_wf. simpl.
    unfold OrderId.new in Hoid. destruct (JS.truthy u) eqn:Tu; [|discriminate].
    injection Hoid as <-.
    unfold AccountId.new in Hsid.
    destruct (JS.truthy (PlaceOrderParams.shipperId params)) eqn:Ts; [|discriminate].
    injection Hsid as <-.
    injection Hst as <-.
    repeat split; simpl; try assumption.
    - exact (Address_new_value _ _ Hpa).
    - exact (Address_new_value _ _ Hda).
    - exact (proj2 (TimeWindow_new_value _ _ _ Hpw)).
    - exact (proj2 (TimeWindow_new_value _ _ _ Hdw)).
    - exact (proj2 (Weight_new_value _ _ Htw)). }
  assert (K : R w2 w' /\ o3 = o2).
  { split.
    - revert H. generalize (Ok o2). intros r H. clear Hsave; revert w2 r w' H.
      change (keeps R
        (u' <- uuidv4 ;;
         eventId <- lift (DeliveryEventId.new u') ;;
         type <- lift (EventType.new (EventTypeValue.code EventTypeValue.ORDER_PLACED)) ;;
         event <- DeliveryEvent.new eventId oid None type
                    (Some (JSON_stringify
                             [ ("shipperId"%string, PlaceOrderParams.shipperId params);
                               ("pickupAddress"%string,
                                PlaceOrderParams.pickupAddress params);
                               ("dropoffAddress"%string,
                                PlaceOrderParams.dropoffAddress params) ]))
                    None ;;
         _ <- DeliveryEventRepository.save event ;;
         ret o3)).
      repeat first
        [ apply keeps_DeliveryEvent_new
        | apply keeps_DeliveryEventRepository_save; exact He
        | keeps_step ].
    - repeat (apply bind_inv in H as (? & ? & _ & H)).
      now injection H as -> _. }
  destruct K as (K & ->). destruct Ho as (Hwf & Hpl).
  split; [exact Hwf|]. split; [exact Hpl|]. split; [exact Hsave | exact K].
Qed.
End Keeps.

Lemma extends_refl {A : Type} (l : list A) : extends l l.
Proof. exists []. rewrite app_nil_r. apply Permutation_refl. Qed.

Lemma extends_trans {A : Type} (l1 l2 l3 : list A) :
  extends l1 l2 -> extends l2 l3 -> extends l1 l3.
Proof.
  intros [t1 H1] [t2 H2]. exists (t1 ++ t2).
  rewrite app_assoc. eapply Permutation_trans; [exact H2|].
  now apply Permutation_app_tail.
Qed.

(** A [save] keeps the stored primary keys and adds at most the key of the
    entity saved. *)
Lemma save_keeps_ids {Entity : Type} (primary : Entity -> str)
    (unique : list (Entity -> str)) (e : Entity) (rows rows' : list Entity) :
  TypeOrm.save primary unique e rows = Some rows' ->
  map primary rows' = map primary rows
  \/ map primary rows' = map primary rows ++ [primary e].
Proof.
  unfold TypeOrm.save.
  destruct (List.find _ rows) as [old|].
  - destruct (existsb _ unique); [discriminate|].
    intros H. injection H as <-. left.
    unfold TypeOrm.updated. rewrite map_map. apply map_ext.
    intros r. unfold TypeOrm.samePrimary.
    destruct (JS.str_eqb (primary r) (primary e)) eqn:E; [|reflexivity].
    apply str_eqb_eq in E. now symmetry.
  - destruct (existsb _ unique); [discriminate|].
    intros H. injection H as <-. right. now rewrite map_app.
Qed.

Lemma save_extends_ids {Entity : Type} (primary : Entity -> str)
    (unique : list (Entity -> str)) (e : Entity) (rows rows' : list Entity) :
  TypeOrm.save primary unique e rows = Some rows' ->
  extends (map primary rows) (map primary rows').
Proof.
  intros H. destruct (save_keeps_ids _ _ _ _ _ H) as [-> | ->].
  - apply extends_refl.
  - exists [primary e]. apply Permutation_refl.
Qed.

Lemma only_adds_refl (w : World) : only_adds w w.
Proof. repeat split; apply extends_refl. Qed.

Lemma only_adds_trans (w1 w2 w3 : World) :
  only_adds w1 w2 -> only_adds w2 w3 -> only_adds w1 w3.
Proof.
  intros (A1 & B1 & C1) (A2 & B2 & C2).
  repeat split; eapply extends_trans; eassumption.
Qed.

(** X5. Rows are never deleted. Whatever its arguments, the store it starts
    from and its outcome (a value or any exception), each of the four use
    cases leaves in every table the identifiers that were stored, each as
    often as before: it can only update rows and add rows. Nothing is said
    of the order in which a table keeps its rows. *)
Theorem use_cases_only_add_rows :
  (forall JSON_stringify params w r w',
      PlaceOrderUseCase_execute JSON_stringify params w = (r, w') -> only_adds w w')
  /\ (forall JSON_stringify orderId w r w',
         MarkReadyToShipUseCase_execute JSON_stringify orderId w = (r, w') ->
         only_adds w w')
  /\ (forall orderId courierId w r w',
         OfferAssignmentUseCase_execute orderId courierId w = (r, w') ->
         only_adds w w')
  /\ (forall JSON_stringify assignmentId w r w',
         AcceptAssignmentUseCase_execute JSON_stringify assignmentId w = (r, w') ->
         only_adds w w').
Proof.
  assert (Ht : forall w, only_adds w (tick w))
    by (intros w; split; [|split]; simpl; apply extends_refl).
  assert (Hd : forall w, only_adds w (draw w))
    by (intros w; split; [|split]; simpl; apply extends_refl).
  assert (Ho : writes_orders only_adds).
  { intros e w rows H. split; [|split]; simpl; try apply extends_refl.
    exact (save_extends_ids _ _ _ _ _ H). }
  assert (Ha : writes_assignments only_adds).
  { intros e w rows H. split; [|split]; simpl; try apply extends_refl.
    exact (save_extends_ids _ _ _ _ _ H). }
  assert (He : writes_events only_adds).
  { intros e w rows H. split; [|split]; simpl; try apply extends_refl.
    exact (save_extends_ids _ _ _ _ _ H). }
  split; [|split; [|split]].
  - intros J params.
    exact (keeps_PlaceOrder only_adds only_adds_refl only_adds_trans Ht Hd J params
             Ho He).
  - intros J orderId.
    exact (keeps_MarkReadyToShip only_adds only_adds_refl only_adds_trans Ht Hd J
             orderId Ho He).
  - intros orderId courierId.
    exact (keeps_OfferAssignment only_adds only_adds_refl only_adds_trans Ht Hd
             orderId courierId Ha).
  - intros J assignmentId.
    exact (keeps_AcceptAssignment only_adds only_adds_refl only_adds_trans Ht Hd J
             assignmentId Ho Ha He).
Qed.

(** X6. Which tables a use case can touch. Whatever the arguments, the store and
    the outcome: PlaceOrder and MarkReadyToShip leave the assignments as they
    are; OfferAssignment leaves the orders and the delivery events as they
    are, so it writes no event even when it succeeds. *)
Theorem use_case_frames :
  (forall JSON_stringify params w r w',
      PlaceOrderUseCase_execute JSON_stringify params w = (r, w') ->
      assignmentTable w' = assignmentTable w)
  /\ (forall JSON_stringify orderId w r w',
         MarkReadyToShipUseCase_execute JSON_stringify orderId w = (r, w') ->
         assignmentTable w' = assignmentTable w)
  /\ (forall orderId courierId w r w',
         OfferAssignmentUseCase_execute orderId courierId w = (r, w') ->
         orderTable w' = orderTable w
         /\ deliveryEventTable w' = deliveryEventTable w).
Proof.
  assert (Hr : forall w, same_assignments w w) by reflexivity.
  assert (Htr : forall w1 w2 w3,
             same_assignments w1 w2 -> same_assignments w2 w3 ->
             same_assignments w1 w3)
    by (unfold same_assignments; intros; congruence).
  assert (Ht : forall w, same_assignments w (tick w)) by reflexivity.
  assert (Hd : forall w, same_assignments w (draw w)) by reflexivity.
  assert (Ho : writes_orders same_assignments) by (intros e w rows _; reflexivity).
  assert (He : writes_events same_assignments) by (intros e w rows _; reflexivity).
  assert (Hr' : forall w, same_orders_and_events w w) by (split; reflexivity).
  assert (Htr' : forall w1 w2 w3,
             same_orders_and_events w1 w2 -> same_orders_and_events w2 w3 ->
             same_orders_and_events w1 w3)
    by (unfold same_orders_and_events; intros w1 w2 w3 [] []; split; congruence).
  assert (Ht' : forall w, same_orders_and_events w (tick w)) by (split; reflexivity).
  assert (Hd' : forall w, same_orders_and_events w (draw w)) by (split; reflexivity).
  assert (Ha' : writes_assignments same_orders_and_events)
    by (intros e w rows _; split; reflexivity).
  split; [|split].
  - intros J params.
    exact (keeps_PlaceOrder same_assignments Hr Htr Ht Hd J params Ho He).
  - intros J orderId.
    exact (keeps_MarkReadyToShip same_assignments Hr Htr Ht Hd J orderId Ho He).
  - intros orderId courierId.
    exact (keeps_OfferAssignment same_orders_and_events Hr' Htr' Ht' Hd'
             orderId courierId Ha').
Qed.

(** ** What the controllers answer *)



Example AssignmentController_accept_example :
  fst (AssignmentController_accept demo_stringify (lit "assignment-1") world_pending)
  = Ok (AssignmentResponse.mk (lit "assignment-1") (lit "order-1") (lit "courier-1")
          (lit "ACCEPTED") 2000%Z (Some 3000%Z)).
Proof. reflexivity. Qed.

Example OrderController_markReadyToShip_example :
  fst (OrderController_markReadyToShip demo_stringify (lit "order-2") world_placed)
  = Ok (OrderResponse.mk (lit "order-2") (lit "shipper-1") (lit "READY_TO_SHIP")
          (lit "1-1-1 Shibuya") (lit "2-2-2 Shinjuku") None None None None
          5%float None 1000%Z).
Proof. reflexivity. Qed.

(** ** Sequences of operations *)

Lemma Order_apply_step (op : OrderOp) (o o' : Order.t) :
  Order_apply op o = Ok o' ->
  o' = Order.set_status o (Order.status o')
  /\ Order_rank (OrderStatus.value (Order.status o))
     <= Order_rank (OrderStatus.value (Order.status o'))
  /\ OrderStatus.value (Order.status o) <> OrderStatusType.DELIVERED
  /\ (OrderStatus.value (Order.status o) = OrderStatusType.CANCELLED -> o' = o).
Proof.
  destruct o as [i sh [st] pa da pw dw tw n c].
  destruct op, st; cbv; intros H; try discriminate H; injection H as <-;
    repeat split; try lia; try discriminate; try reflexivity.
Qed.

(** X9. An order never goes back. Over any sequence of operations, tried in any
    order, failed ones included: the status only moves forward along
    PLACED, READY_TO_SHIP, ASSIGNED, DELIVERED, CANCELLED; an order that is
    DELIVERED or CANCELLED stays exactly as it is; and nothing but the status
    ever changes. *)
Theorem Order_never_goes_back (ops : list OrderOp) (o : Order.t) :
  Order_rank (OrderStatus.value (Order.status o))
  <= Order_rank (OrderStatus.value (Order.status (Order_run ops o)))
  /\ Order_run ops o = Order.set_status o (Order.status (Order_run ops o))
  /\ (OrderStatus.value (Order.status o) = OrderStatusType.DELIVERED
      \/ OrderStatus.value (Order.status o) = OrderStatusType.CANCELLED ->
      Order_run ops o = o).
Proof.
  revert o. induction ops as [|op ops IH]; intros o; simpl.
  - split; [lia|]. split; [now destruct o | reflexivity].
  - destruct (Order_apply op o) as [o'|e] eqn:E; [|apply IH].
    destruct (Order_apply_step _ _ _ E) as (Hset & Hrank & Hnd & Hc).
    destruct (IH o') as (IH1 & IH2 & IH3).
    split; [lia|]. split.
    + rewrite IH2 at 1. rewrite Hset. reflexivity.
    + intros [Hd | Hcan]; [contradiction|].
      rewrite (Hc Hcan). apply (IH o). now right.
Qed.

Lemma Assignment_apply_step (op : AssignmentOp) (a a' : Assignment.t) (w w' : World) :
  Assignment_apply op a w = (Ok a', w') ->
  Assignment.id a' = Assignment.id a
  /\ Assignment.orderId a' = Assignment.orderId a
  /\ Assignment.courierId a' = Assignment.courierId a
  /\ Assignment.offeredAt a' = Assignment.offeredAt a
  /\ (Assignment.isActive a = false -> Assignment.isActive a' = false)
  /\ (Assignment_answered a -> Assignment_answered a')
  /\ (Assignment_answered a -> forall t, Assignment.respondedAt a = Some t ->
                                         Assignment.respondedAt a' = Some t)
  /\ AssignmentStatus.value (Assignment.status a) <> AssignmentStatusType.COMPLETED.
Proof.
  destruct a as [i o c [st] off resp].
  destruct op, st; cbv -[clock ticks tick]; intros H; try discriminate H;
    injection H as <- _;
    repeat split; try discriminate; try reflexivity; try tauto;
    try (intros _ t Ht; exact Ht); try (intros Hn t Ht; congruence).
Qed.

(** X10. An assignment over any sequence of operations, tried in any order, failed
    ones included. Its identifier, order, courier and [offeredAt] never
    change. Once it is not active it never becomes active again, and a
    COMPLETED assignment stays exactly as it is. If it starts with a response
    time exactly when answered (as a newly offered assignment does), it stays
    so, and a response time, once set, is never changed. *)
Theorem Assignment_never_goes_back (ops : list AssignmentOp) (a : Assignment.t)
    (w : World) :
  Assignment.id (fst (Assignment_run ops a w)) = Assignment.id a
  /\ Assignment.orderId (fst (Assignment_run ops a w)) = Assignment.orderId a
  /\ Assignment.courierId (fst (Assignment_run ops a w)) = Assignment.courierId a
  /\ Assignment.offeredAt (fst (Assignment_run ops a w)) = Assignment.offeredAt a
  /\ (Assignment.isActive a = false ->
      Assignment.isActive (fst (Assignment_run ops a w)) = false)
  /\ (AssignmentStatus.value (Assignment.status a) = AssignmentStatusType.COMPLETED ->
      fst (Assignment_run ops a w) = a)
  /\ (Assignment_answered a ->
      Assignment_answered (fst (Assignment_run ops a w))
      /\ forall t, Assignment.respondedAt a = Some t ->
                   Assignment.respondedAt (fst (Assignment_run ops a w)) = Some t).
Proof.
  revert a w. induction ops as [|op ops IH]; intros a w; simpl.
  - repeat split; auto.
  - destruct (Assignment_apply op a w) as [[a'|e] w'] eqn:E; [|apply IH].
    destruct (Assignment_apply_step _ _ _ _ _ E)
      as (Hi & Ho & Hc & Hoff & Hact & Hans & Hresp & Hnc).
    destruct (IH a' w') as (I1 & I2 & I3 & I4 & I5 & I6 & I7).
    split; [congruence|]. split; [congruence|]. split; [congruence|].
    split; [congruence|]. split; [auto|]. split; [intros Hd; contradiction|].
    intros Ha. destruct (I7 (Hans Ha)) as (J1 & J2).
    split; [exact J1|]. intros t Ht. apply J2. now apply Hresp.
Qed.

(** A newly offered assignment is PENDING with no response time. *)
Example Assignment_answered_new (i : AssignmentId.t) (o : OrderId.t) (c : AccountId.t)
    (w : World) :
  exists a w',
    Assignment.new i o c (AssignmentStatus.mk AssignmentStatusType.PENDING) None None w
    = (Ok a, w')
    /\ Assignment_answered a.
Proof. eexists _, _. split; reflexivity. Qed.

(** ** Time windows and addresses *)

(** X11. [isWithinWindow]. A window with a bound missing contains every time,
    a time before its only bound and the Invalid Date included. A window
    with both bounds, valid dates, contains exactly the valid times from
    start to end, ends included. When a bound or the time is the Invalid
    Date the answer is false. A window built by the constructor from two
    valid dates is never empty: it contains its own start and end. *)
Theorem TimeWindow_isWithinWindow_cases :
  (forall (w : TimeWindow.t) (time : Date),
      TimeWindow.startAt w = None \/ TimeWindow.endAt w = None ->
      TimeWindow.isWithinWindow w time = true)
  /\ (forall (w : TimeWindow.t) (s e time : Z),
         TimeWindow.startAt w = Some (instant s) ->
         TimeWindow.endAt w = Some (instant e) ->
         (TimeWindow.isWithinWindow w (instant time) = true <-> (s <= time <= e)%Z))
  /\ (forall (w : TimeWindow.t) (s e time : Date),
         TimeWindow.startAt w = Some s -> TimeWindow.endAt w = Some e ->
         s = InvalidDate \/ e = InvalidDate \/ time = InvalidDate ->
         TimeWindow.isWithinWindow w time = false)
  /\ (forall (s e : Z) (w : TimeWindow.t),
         TimeWindow.new (Some (instant s)) (Some (instant e)) = Ok w ->
         TimeWindow.isWithinWindow w (instant s) = true
         /\ TimeWindow.isWithinWindow w (instant e) = true).
Proof.
  split; [|split; [|split]].
  - intros [s e] time. simpl. unfold TimeWindow.isWithinWindow. simpl.
    intros [-> | ->]; [reflexivity | now destruct s].
  - intros [s0 e0] s e time. simpl. intros -> ->.
    unfold TimeWindow.isWithinWindow. simpl.
    rewrite andb_true_iff, Z.geb_le, Z.leb_le. tauto.
  - intros [s0 e0] s e time. simpl. intros -> -> H.
    unfold TimeWindow.isWithinWindow. simpl.
    destruct H as [-> | [-> | ->]]; simpl.
    + now destruct time.
    + destruct time; simpl; [apply andb_false_r | reflexivity].
    + reflexivity.
  - intros s e w H. unfold TimeWindow.new in H. simpl in H.
    destruct (Z.gtb_spec s e) as [Hgt|Hle]; [discriminate H|].
    injection H as <-. unfold TimeWindow.isWithinWindow. simpl.
    rewrite !andb_true_iff, !Z.geb_le, !Z.leb_le. lia.
Qed.

(** X12. Two addresses are [equals] exactly when the strings they were built from
    agree once trimmed: white space around the input does not count. *)
Theorem Address_equals_trimmed (x y : str) (a b : Address.t) :
  Address.new x = Ok a ->
  Address.new y = Ok b ->
  (Address.equals a b = true <-> JS.trim x = JS.trim y).
Proof.
  intros Ha Hb.
  assert (Ea : Address.value a = JS.trim x).
  { unfold Address.new in Ha. destruct (_ || _); [discriminate|].
    now injection Ha as <-. }
  assert (Eb : Address.value b = JS.trim y).
  { unfold Address.new in Hb. destruct (_ || _); [discriminate|].
    now injection Hb as <-. }
  unfold Address.equals. rewrite Ea, Eb. apply str_eqb_eq.
Qed.

Lemma Address_equals_trimmed_witness :
  Address.new (lit "  1-1-1 Shibuya") = Ok (Address.mk (lit "1-1-1 Shibuya"))
  /\ Address.new (lit "1-1-1 Shibuya  ") = Ok (Address.mk (lit "1-1-1 Shibuya"))
  /\ Address.equals (Address.mk (lit "1-1-1 Shibuya")) (Address.mk (lit "1-1-1 Shibuya"))
     = true.
Proof.
  split; [reflexivity|]. split; [reflexivity|].
  apply (Address_equals_trimmed (lit "  1-1-1 Shibuya") (lit "1-1-1 Shibuya  ")
           (Address.mk (lit "1-1-1 Shibuya")) (Address.mk (lit "1-1-1 Shibuya"))
           eq_refl eq_refl).
  reflexivity.
Defined.

(** ** Round trips through the order repository *)

Lemma TypeOrm_save_no_unique {Entity : Type} (primary : Entity -> str)
    (e : Entity) (rows : list Entity) :
  TypeOrm.save primary [] e rows
  = Some (match List.find (TypeOrm.samePrimary primary e) rows with
          | Some _ => TypeOrm.updated primary e rows
          | None => rows ++ [e]
          end).
Proof.
  unfold TypeOrm.save. now destruct (List.find _ rows).
Qed.

Lemma find_saved {Entity : Type} (primary : Entity -> str)
    (e : Entity) (rows : list Entity) :
  List.find (TypeOrm.samePrimary primary e)
            (match List.find (TypeOrm.samePrimary primary e) rows with
             | Some _ => TypeOrm.updated primary e rows
             | None => rows ++ [e]
             end)
  = Some e.
Proof.
  destruct (List.find _ rows) as [old|] eqn:E.
  - exact (find_updated _ _ _ _ _ E).
  - apply find_inserted.
    + intros y Hy. exact (find_none _ _ E y Hy).
    + unfold TypeOrm.samePrimary. apply str_eqb_refl.
Qed.

(** X13. What is read from the order table can be written back and read again.
    An order converted from a stored row converts back from its own row to
    the same order (the row is normalised once: the addresses are trimmed on
    the first read). Saving such an order never fails, whatever the store,
    changes the order table only, and a [findById] of its identifier then
    returns that very order. *)
Theorem OrderRepository_round_trip (row : OrderOrmEntity.t) (o : Order.t) (w0 : World) :
  OrderRepository.toDomain row w0 = (Ok o, w0) ->
  (forall w, OrderRepository.toDomain (OrderRepository.toEntity o) w = (Ok o, w))
  /\ OrderOrmEntity.pickupAddress (OrderRepository.toEntity o)
     = JS.trim (OrderOrmEntity.pickupAddress row)
  /\ OrderOrmEntity.dropoffAddress (OrderRepository.toEntity o)
     = JS.trim (OrderOrmEntity.dropoffAddress row)
  /\ forall w, exists w',
       OrderRepository.save o w = (Ok o, w')
       /\ OrderRepository.findById (Order.id o) w' = (Ok (Some o), w')
       /\ assignmentTable w' = assignmentTable w
       /\ deliveryEventTable w' = deliveryEventTable w.
Proof.
  intros H.
  pose proof (OrderRepository_toDomain_ok _ _ _ _ H) as (Hwf & _ & _).
  split; [intros w; now apply OrderRepository_toDomain_toEntity|].
  assert (Hadr : Address.value (Order.pickupAddress o)
                 = JS.trim (OrderOrmEntity.pickupAddress row)
                 /\ Address.value (Order.dropoffAddress o)
                    = JS.trim (OrderOrmEntity.dropoffAddress row)).
  { revert H. unfold OrderRepository.toDomain, Order.new. munfold.
    destruct (OrderId.new _); [|discriminate].
    destruct (AccountId.new _); [|discriminate].
    destruct (OrderStatus.new _); [|discriminate].
    unfold Address.new.
    destruct (_ || _); [discriminate|].
    destruct (_ || _); [discriminate|].
    destruct (TimeWindow.new _ _); [|discriminate].
    destruct (TimeWindow.new _ _); [|discriminate].
    destruct (Weight.new _); [|discriminate].
    intros E. injection E as <-. split; reflexivity. }
  split; [exact (proj1 Hadr)|]. split; [exact (proj2 Hadr)|].
  intros w. eexists. split.
  - apply OrderRepository_save_ok; [exact Hwf | apply TypeOrm_save_no_unique].
  - split; [|split; reflexivity].
    apply OrderRepository_findById_found with (e := OrderRepository.toEntity o).
    + simpl orderTable.
      exact (find_saved OrderOrmEntity.id (OrderRepository.toEntity o) (orderTable w)).
    + now apply OrderRepository_toDomain_toEntity.
Qed.

Lemma OrderRepository_round_trip_witness :
  OrderRepository.toDomain demo_order_row world_pending = (Ok demo_order, world_pending)
  /\ exists w',
       OrderRepository.save demo_order (demo_world []) = (Ok demo_order, w')
       /\ OrderRepository.findById (OrderId.mk (lit "order-1")) w'
          = (Ok (Some demo_order), w').
Proof.
  split; [reflexivity|].
  destruct (OrderRepository_round_trip demo_order_row demo_order world_pending eq_refl)
    as (_ & _ & _ & Hsave).
  destruct (Hsave (demo_world [])) as (w' & Hs & Hf & _).
  exists w'. split; [exact Hs | exact Hf].
Defined.

(** ** The list queries *)

Lemma filter_map_swap {A B : Type} (f : A -> B) (p : B -> bool) (l : list A) :
  filter p (map f l) = map f (filter (fun x => p (f x)) l).
Proof.
  induction l as [|x l IH]; simpl; [reflexivity|].
  destruct (p (f x)); simpl; now rewrite IH.
Qed.

Lemma mapM_OrderRepository_toDomain (os : list Order.t) (w : World) :
  Forall Order_wf os ->
  mapM OrderRepository.toDomain (map OrderRepository.toEntity os) w = (Ok os, w).
Proof.
  induction 1 as [|o os Hwf _ IH]; simpl; [reflexivity|].
  erewrite bind_ok by (now apply OrderRepository_toDomain_toEntity).
  erewrite bind_ok by exact IH. reflexivity.
Qed.

Lemma mapM_AssignmentRepository_toDomain (l : list Assignment.t) (w : World) :
  Forall Assignment_wf l ->
  mapM AssignmentRepository.toDomain (map AssignmentRepository.toEntity l) w
  = (Ok l, w).
Proof.
  induction 1 as [|a l Hwf _ IH]; simpl; [reflexivity|].
  erewrite bind_ok by (now apply AssignmentRepository_toDomain_toEntity).
  erewrite bind_ok by exact IH. reflexivity.
Qed.

Lemma Forall_filter {A : Type} (P : A -> Prop) (p : A -> bool) (l : list A) :
  Forall P l -> Forall P (filter p l).
Proof.
  induction 1 as [|x l Hx _ IH]; simpl; [constructor|].
  destruct (p x); [now constructor | exact IH].
Qed.

Lemma mapM_OrderRepository_toDomain_err (rows : list OrderOrmEntity.t)
    (row : OrderOrmEntity.t) (e : Error) (w : World) :
  In row rows ->
  OrderRepository.toDomain row w = (Err e, w) ->
  exists e', mapM OrderRepository.toDomain rows w = (Err e', w).
Proof.
  intros Hin Hbad. induction rows as [|x rows IH]; [contradiction|].
  simpl. destruct (OrderRepository.toDomain x w) as [[o|e1] w1] eqn:E.
  - pose proof (OrderRepository_toDomain_world _ _ _ _ E) as ->.
    erewrite bind_ok by exact E.
    destruct Hin as [-> | Hin]; [rewrite Hbad in E; discriminate|].
    destruct (IH Hin) as (e' & He'). exists e'.
    erewrite bind_err by exact He'. reflexivity.
  - pose proof (OrderRepository_toDomain_world _ _ _ _ E) as ->.
    exists e1. erewrite bind_err by exact E. reflexivity.
Qed.

(** X14. On a store whose tables hold the rows of well-formed orders [os] and
    assignments [l], the list queries answer exactly the stored entities
    that have the value asked for, each once, and leave the world as it is:
    [findByStatus] those of the status, [findByShipperId] those of the
    shipper, [findByCourierId] those of the courier. Nothing is said of the
    order of an answer: the queries ask for none. *)
Theorem list_queries_select (w : World) (os : list Order.t) (l : list Assignment.t) :
  orderTable w = map OrderRepository.toEntity os ->
  assignmentTable w = map AssignmentRepository.toEntity l ->
  Forall Order_wf os ->
  Forall Assignment_wf l ->
  (forall status, exists found,
      OrderRepository_findByStatus status w = (Ok found, w)
      /\ Permutation found
           (filter (fun o => OrderStatusType.eqb (OrderStatus.value (Order.status o))
                                                 (OrderStatus.value status)) os))
  /\ (forall shipperId, exists found,
         OrderRepository_findByShipperId shipperId w = (Ok found, w)
         /\ Permutation found
              (filter (fun o => JS.str_eqb (AccountId.value (Order.shipperId o))
                                           (AccountId.value shipperId)) os))
  /\ (forall courierId, exists found,
         AssignmentRepository_findByCourierId courierId w = (Ok found, w)
         /\ Permutation found
              (filter (fun a => JS.str_eqb (AccountId.value (Assignment.courierId a))
                                           (AccountId.value courierId)) l)).
Proof.
  intros Ho Ha Hos Hl. split; [|split].
  - intros status. eexists. split; [|apply Permutation_refl].
    unfold OrderRepository_findByStatus, TypeOrm.find.
    rewrite Ho, filter_map_swap.
    apply mapM_OrderRepository_toDomain. now apply Forall_filter.
  - intros shipperId. eexists. split; [|apply Permutation_refl].
    unfold OrderRepository_findByShipperId, TypeOrm.find.
    rewrite Ho, filter_map_swap.
    apply mapM_OrderRepository_toDomain. now apply Forall_filter.
  - intros courierId. eexists. split; [|apply Permutation_refl].
    unfold AssignmentRepository_findByCourierId, TypeOrm.find.
    rewrite Ha, filter_map_swap.
    apply mapM_AssignmentRepository_toDomain. now apply Forall_filter.
Qed.

Lemma list_queries_select_witness :
  (exists found,
      OrderRepository_findByStatus (OrderStatus.mk OrderStatusType.READY_TO_SHIP)
        world_pending
      = (Ok found, world_pending)
      /\ Permutation found [demo_order])
  /\ (exists found,
         OrderRepository_findByStatus (OrderStatus.mk OrderStatusType.PLACED)
           world_pending
         = (Ok found, world_pending)
         /\ Permutation found [])
  /\ (exists found,
         AssignmentRepository_findByCourierId (AccountId.mk (lit "courier-1"))
           world_pending
         = (Ok found, world_pending)
         /\ Permutation found [demo_assignment AssignmentStatusType.PENDING None]).
Proof.
  destruct (list_queries_select world_pending [demo_order]
              [demo_assignment AssignmentStatusType.PENDING None])
    as (Hs & _ & Hc).
  - reflexivity.
  - reflexivity.
  - repeat constructor.
  - repeat constructor.
  - split; [exact (Hs (OrderStatus.mk OrderStatusType.READY_TO_SHIP))|].
    split; [exact (Hs (OrderStatus.mk OrderStatusType.PLACED))|].
    exact (Hc (AccountId.mk (lit "courier-1"))).
Defined.

(** X15. A list query answers all or nothing. When one stored order of the
    shipper cannot be converted (a constructor refuses one of its columns),
    [findByShipperId] fails as a whole, whatever the other rows are: the
    shipper's readable orders are not returned either. Nothing is written. *)
Theorem findByShipperId_all_or_nothing (w : World) (shipperId : AccountId.t)
    (row : OrderOrmEntity.t) (e : Error) :
  In row (orderTable w) ->
  OrderOrmEntity.shipperId row = AccountId.value shipperId ->
  OrderRepository.toDomain row w = (Err e, w) ->
  exists e', OrderRepository_findByShipperId shipperId w = (Err e', w).
Proof.
  intros Hin Hs Hbad. unfold OrderRepository_findByShipperId.
  apply mapM_OrderRepository_toDomain_err with (row := row) (e := e); [|exact Hbad].
  unfold TypeOrm.find. apply filter_In. split; [exact Hin|].
  rewrite Hs. apply str_eqb_refl.
Qed.

Lemma findByShipperId_all_or_nothing_witness :
  OrderRepository.toDomain demo_unreadable_row world_unreadable
  = (Err (InvalidOrderStatus (lit "LOST")), world_unreadable)
  /\ exists e',
       OrderRepository_findByShipperId (AccountId.mk (lit "shipper-1")) world_unreadable
       = (Err e', world_unreadable).
Proof.
  split; [reflexivity|].
  apply (findByShipperId_all_or_nothing world_unreadable
           (AccountId.mk (lit "shipper-1")) demo_unreadable_row
           (InvalidOrderStatus (lit "LOST"))).
  - right. left. reflexivity.
  - reflexivity.
  - reflexivity.
Defined.

(** ** Accounts *)

Lemma abind_done {A B : Type} (m : AM A) (k : A -> AM B) (s s' : AccountWorld) (a : A) :
  m s = (Done a, s') -> abind m k s = k a s'.
Proof. unfold abind. now intros ->. Qed.

Lemma abind_failed {A B : Type} (m : AM A) (k : A -> AM B) (s s' : AccountWorld)
    (e : AccountError) :
  m s = (Failed e, s') -> abind m k s = (Failed e, s').
Proof. unfold abind. now intros ->. Qed.

Lemma Account_name_check (name : str) :
  negb (JS.truthy name) || JS.str_eqb (JS.trim name) []
  = forallb JS.isWhiteSpace name.
Proof.
  destruct (forallb JS.isWhiteSpace name) eqn:E.
  - apply trim_nil in E. rewrite E. apply orb_true_r.
  - assert (T : JS.trim name <> []) by (rewrite trim_nil, E; discriminate).
    apply str_eqb_neq in T. rewrite T.
    destruct name; [discriminate E | reflexivity].
Qed.

Lemma AccountRole_new_code (r : AccountRoleType.t) :
  AccountRole.new (AccountRoleType.code r) = Done (AccountRole.mk r).
Proof. now destruct r. Qed.

Lemma Account_new_given (id : AccountId.t) (name : str) (role : AccountRole.t)
    (d : Date) (s : AccountWorld) :
  forallb JS.isWhiteSpace name = false ->
  Account.new id name role (Some d) s = (Done (Account.mk id name role d), s).
Proof.
  intros H. unfold Account.new. rewrite Account_name_check, H.
  destruct s. reflexivity.
Qed.

Lemma Account_new_now (id : AccountId.t) (name : str) (role : AccountRole.t)
    (s : AccountWorld) :
  forallb JS.isWhiteSpace name = false ->
  Account.new id name role None s
  = (Done (Account.mk id name role (clock (world s) (ticks (world s)))),
     mkAccountWorld (tick (world s)) (accountTable s)).
Proof.
  intros H. unfold Account.new. rewrite Account_name_check, H. reflexivity.
Qed.

Lemma Account_new_blank (id : AccountId.t) (name : str) (role : AccountRole.t)
    (createdAt : option Date) (s : AccountWorld) :
  forallb JS.isWhiteSpace name = true ->
  Account.new id name role createdAt s = (Failed AccountNameRequired, s).
Proof.
  intros H. unfold Account.new. now rewrite Account_name_check, H.
Qed.

(** X16. The account's value checks. The constructor of [Account] refuses a name
    that is empty or all white space and otherwise keeps the name exactly as
    given, white space around it included (an [Address] is kept trimmed);
    [createdAt] is the date given or else the reading of the clock. An
    [AccountRole] is built from SHIPPER and COURIER and from no other string,
    and every role, and so every account, is a shipper or a courier, never
    both. *)
Theorem Account_validates :
  (forall id name role createdAt s,
      forallb JS.isWhiteSpace name = true ->
      Account.new id name role createdAt s = (Failed AccountNameRequired, s))
  /\ (forall id name role d s,
         forallb JS.isWhiteSpace name = false ->
         Account.new id name role (Some d) s = (Done (Account.mk id name role d), s))
  /\ (forall id name role s,
         forallb JS.isWhiteSpace name = false ->
         Account.new id name role None s
         = (Done (Account.mk id name role (clock (world s) (ticks (world s)))),
            mkAccountWorld (tick (world s)) (accountTable s)))
  /\ (forall r, AccountRole.new (AccountRoleType.code r) = Done (AccountRole.mk r))
  /\ (forall v, (forall r, AccountRoleType.code r <> v) ->
                AccountRole.new v = Failed (InvalidAccountRole v))
  /\ (forall r, xorb (AccountRole.isShipper r) (AccountRole.isCourier r) = true)
  /\ (forall a, xorb (Account.isShipper a) (Account.isCourier a) = true).
Proof.
  split; [exact Account_new_blank|].
  split; [exact Account_new_given|].
  split; [exact Account_new_now|].
  split; [exact AccountRole_new_code|].
  split.
  - intros v Hv. unfold AccountRole.new.
    rewrite find_nothing; [reflexivity|].
    intros r _. apply str_eqb_neq. apply Hv.
  - split; [intros [[]]; reflexivity|].
    intros [i n [[]] c]; reflexivity.
Qed.

Lemma AccountRepository_toDomain_toEntity (a : Account.t) (s : AccountWorld) :
  JS.truthy (AccountId.value (Account.id a)) = true ->
  forallb JS.isWhiteSpace (Account.name a) = false ->
  AccountRepository.toDomain (AccountRepository.toEntity a) s = (Done a, s).
Proof.
  intros Hid Hname. destruct a as [[i] n [r] c]. simpl in *.
  unfold AccountRepository.toDomain, AccountRepository.toEntity. simpl.
  erewrite abind_done.
  2:{ unfold shared, lift, AccountId.new. rewrite Hid. destruct s. reflexivity. }
  erewrite abind_done by (unfold pure; rewrite AccountRole_new_code; reflexivity).
  now apply Account_new_given.
Qed.

Lemma fits_text_accepted (x : str) : fits_text x = true -> text_refuses x = false.
Proof.
  unfold fits_text, text_refuses. induction x as [|c x IH]; simpl; [reflexivity|].
  rewrite andb_true_iff. intros [Hc Hx]. rewrite (IH Hx), orb_false_r.
  destruct c; [discriminate Hc | reflexivity].
Qed.

Lemma AccountRepository_save_inserted (a : Account.t) (s : AccountWorld) :
  JS.truthy (AccountId.value (Account.id a)) = true ->
  forallb JS.isWhiteSpace (Account.name a) = false ->
  fits_text (AccountId.value (Account.id a)) = true ->
  fits_text (Account.name a) = true ->
  List.find (TypeOrm.samePrimary AccountOrmEntity.id (AccountRepository.toEntity a))
            (accountTable s) = None ->
  AccountRepository.save a s
  = (Done a, mkAccountWorld (world s)
               (accountTable s ++ [AccountRepository.toEntity a])).
Proof.
  intros Hid Hname Hfid Hfname Hnone. unfold AccountRepository.save.
  erewrite abind_done.
  2:{ unfold accountTable_save, TypeOrm.save. simpl.
      rewrite (fits_text_accepted _ Hfid), (fits_text_accepted _ Hfname).
      replace (text_refuses (AccountRoleType.code (AccountRole.value (Account.role a))))
        with false by (now destruct (AccountRole.value (Account.role a))).
      simpl. fold (AccountRepository.toEntity a). rewrite Hnone. reflexivity. }
  now apply AccountRepository_toDomain_toEntity.
Qed.

(** X17. CreateAccount with a name that is not blank and that the [text]
    column holds, and a role SHIPPER or COURIER (and [uuidv4] yielding an
    identifier that the column holds, not empty and not yet an account's):
    the account returned has the identifier drawn, the name as given, the
    role, and the time of the call; its row is added to the account table,
    which keeps the rows it had, and a [findById] of the identifier then
    returns it; one uuid was drawn and the clock read once; the controller
    answers the fields of that row. *)
Theorem CreateAccount_creates (name : str) (r : AccountRoleType.t) (s : AccountWorld) :
  forallb JS.isWhiteSpace name = false ->
  fits_text name = true ->
  fits_text (uuids (world s) (drawn (world s))) = true ->
  JS.truthy (uuids (world s) (drawn (world s))) = true ->
  (forall row, In row (accountTable s) ->
               AccountOrmEntity.id row <> uuids (world s) (drawn (world s))) ->
  exists s',
    CreateAccountUseCase_execute name (AccountRoleType.code r) s
    = (Done (Account.mk (AccountId.mk (uuids (world s) (drawn (world s)))) name
               (AccountRole.mk r) (clock (world s) (ticks (world s)))), s')
    /\ world s' = tick (draw (world s))
    /\ Permutation (accountTable s')
         (accountTable s
          ++ [ AccountOrmEntity.mk (uuids (world s) (drawn (world s))) name
                 (AccountRoleType.code r) (clock (world s) (ticks (world s))) ])
    /\ AccountRepository.findById (AccountId.mk (uuids (world s) (drawn (world s)))) s'
       = (Done (Some (Account.mk (AccountId.mk (uuids (world s) (drawn (world s))))
                        name (AccountRole.mk r) (clock (world s) (ticks (world s))))),
          s')
    /\ AccountController_create
         (CreateAccountRequest.mk name (AccountRoleType.code r)) s
       = (Done (AccountResponse.mk (uuids (world s) (drawn (world s))) name
                  (AccountRoleType.code r) (clock (world s) (ticks (world s)))), s').
Proof.
  intros Hname Hfname Hfu Hu Hfresh.
  set (u := uuids (world s) (drawn (world s))) in *.
  set (a := Account.mk (AccountId.mk u) name (AccountRole.mk r)
              (clock (world s) (ticks (world s)))).
  set (s' := mkAccountWorld (tick (draw (world s)))
               (accountTable s ++ [AccountRepository.toEntity a])).
  assert (Hnone : List.find (TypeOrm.samePrimary AccountOrmEntity.id
                               (AccountRepository.toEntity a)) (accountTable s) = None).
  { apply find_nothing. intros y Hy. apply str_eqb_neq. now apply Hfresh. }
  assert (E : CreateAccountUseCase_execute name (AccountRoleType.code r) s
              = (Done a, s')).
  { unfold CreateAccountUseCase_execute.
    erewrite abind_done by reflexivity.
    erewrite abind_done.
    2:{ unfold shared, lift, AccountId.new. simpl. fold u. rewrite Hu. reflexivity. }
    erewrite abind_done by (unfold pure; rewrite AccountRole_new_code; reflexivity).
    erewrite abind_done by (now apply Account_new_now).
    exact (AccountRepository_save_inserted a
             (mkAccountWorld (tick (draw (world s))) (accountTable s))
             Hu Hname Hfu Hfname Hnone). }
  exists s'. split; [exact E|]. split; [reflexivity|].
  split; [apply Permutation_refl|]. split.
  - unfold AccountRepository.findById. simpl accountTable.
    unfold TypeOrm.findOne.
    rewrite (find_inserted _ _ (AccountRepository.toEntity a)).
    + erewrite abind_done by (now apply AccountRepository_toDomain_toEntity).
      reflexivity.
    + intros y Hy. apply str_eqb_neq. now apply Hfresh.
    + apply str_eqb_refl.
  - unfold AccountController_create. simpl.
    erewrite abind_done by exact E. reflexivity.
Qed.

Lemma CreateAccount_creates_witness :
  exists s',
    CreateAccountUseCase_execute (lit " Sato ") (lit "COURIER") demo_accounts
    = (Done (Account.mk (AccountId.mk (lit "uuid-0")) (lit " Sato ")
               (AccountRole.mk AccountRoleType.COURIER) 3000%Z), s')
    /\ Permutation (map AccountOrmEntity.name (accountTable s'))
         [lit "Yamada"; lit " Sato "].
Proof.
  destruct (CreateAccount_creates (lit " Sato ") AccountRoleType.COURIER demo_accounts)
    as (s' & E & _ & Hs & _).
  - reflexivity.
  - reflexivity.
  - reflexivity.
  - reflexivity.
  - intros row [<- | []]. discriminate.
  - exists s'. split; [exact E|].
    apply (Permutation_map AccountOrmEntity.name) in Hs. exact Hs.
Defined.

(** X18. CreateAccount refuses after the uuid was drawn and before anything is
    stored. The role is checked before the name: with a role that is neither
    SHIPPER nor COURIER the call fails with the role's error whatever the
    name, a blank one included; with a valid role and a blank name it fails
    with the name's error. In both cases the account table and the clock are
    untouched and one uuid is used up. *)
Theorem CreateAccount_refuses :
  (forall name role s,
      JS.truthy (uuids (world s) (drawn (world s))) = true ->
      (forall r, AccountRoleType.code r <> role) ->
      CreateAccountUseCase_execute name role s
      = (Failed (InvalidAccountRole role),
         mkAccountWorld (draw (world s)) (accountTable s)))
  /\ (forall name r s,
         JS.truthy (uuids (world s) (drawn (world s))) = true ->
         forallb JS.isWhiteSpace name = true ->
         CreateAccountUseCase_execute name (AccountRoleType.code r) s
         = (Failed AccountNameRequired,
            mkAccountWorld (draw (world s)) (accountTable s))).
Proof.
  split.
  - intros name role s Hu Hrole. unfold CreateAccountUseCase_execute.
    erewrite abind_done by reflexivity.
    erewrite abind_done.
    2:{ unfold shared, lift, AccountId.new. simpl. rewrite Hu. reflexivity. }
    erewrite abind_failed; [reflexivity|].
    unfold pure, AccountRole.new. rewrite find_nothing; [reflexivity|].
    intros r _. apply str_eqb_neq. apply Hrole.
  - intros name r s Hu Hname. unfold CreateAccountUseCase_execute.
    erewrite abind_done by reflexivity.
    erewrite abind_done.
    2:{ unfold shared, lift, AccountId.new. simpl. rewrite Hu. reflexivity. }
    erewrite abind_done by (unfold pure; rewrite AccountRole_new_code; reflexivity).
    erewrite abind_failed; [reflexivity|].
    now apply Account_new_blank.
Qed.

Example CreateAccount_refuses_example :
  fst (CreateAccountUseCase_execute (lit "  ") (lit "ADMIN") demo_accounts)
  = Failed (InvalidAccountRole (lit "ADMIN"))
  /\ fst (CreateAccountUseCase_execute (lit "  ") (lit "SHIPPER") demo_accounts)
     = Failed AccountNameRequired.
Proof. split; reflexivity. Qed.
